(** * The synthetic incident generator

    A shallow embedding of [AI_model/generate_synthetic_incidents.py] and the
    properties of the dataset it produces.

    Conventions of the embedding.
    - Python strings are [string]; the module's dictionaries are association
      lists looked up with [dict_get], which raises [KeyError] as the
      subscript [TABLE[key]] does.
    - A [datetime] is the number of microseconds since the epoch (UTC), the
      resolution of Python's [datetime]; [timedelta(minutes=m)] is
      [m * 60_000_000].  Python's datetimes run from year 1 to year 9999 and
      its timedeltas hold at most 999999999 days: building a timedelta or
      adding one to a datetime raises [OverflowError] outside these bounds,
      and so do [timedelta] and [datetime_add] here.  [isoformat()] renders
      an aware UTC datetime injectively, so the record fields hold the
      datetime they render.
    - A Python float is the rational it denotes, and every float
      operation rounds its exact result to the nearest binary64 value, ties
      to even, with [fl]; float literals are [fl] of their decimal.  All
      magnitudes here are far from overflow and from subnormals, which [fl]
      does not model.
    - [random.Random] and the wall clock are outside the repository.  The
      generator is the interface [PyRandom] (the documented contract of
      [_randbelow] and [random]); the clock is the sequence [clk] of the
      readings that successive calls of [datetime.now(UTC)] return during one
      run.  [MT19937] implements the interface the way CPython does.
    - Code that can raise runs in the monad [M]: a state transformer over
      [World] whose result is [Ok] or [Raise]. *)

From Stdlib Require Import ZArith QArith Qround Qabs Qpower List String Bool Lia Lqa.
Import ListNotations.
Open Scope string_scope.
Open Scope Z_scope.

(** ** Exceptions and results *)

Inductive exn : Type := KeyError | IndexError | ValueError | OverflowError.

Inductive result (A : Type) : Type :=
| Ok (a : A)
| Raise (e : exn).
Arguments Ok {A} a.
Arguments Raise {A} e.

Definition result_map {A B : Type} (f : A -> B) (r : result A) : result B :=
  match r with
  | Ok a => Ok (f a)
  | Raise e => Raise e
  end.

(** ** Dictionaries with string keys *)

Definition dict (V : Type) : Type := list (string * V).

Fixpoint dict_lookup {V : Type} (key : string) (d : dict V) : option V :=
  match d with
  | [] => None
  | (k, v) :: d' => if String.eqb key k then Some v else dict_lookup key d'
  end.

(** ** Dates *)

(** A point in time, in microseconds since the epoch.  The values that a
    Python [datetime] can hold are those from [datetime_min] to
    [datetime_max]. *)
Definition datetime : Type := Z.

(** [datetime.min] and [datetime.max] read as UTC: 0001-01-01T00:00:00 and
    9999-12-31T23:59:59.999999. *)
Definition datetime_min : datetime := -62135596800000000.
Definition datetime_max : datetime := 253402300799999999.

(** The length of [m] minutes, in microseconds. *)
Definition timedelta_minutes (m : Z) : Z := m * 60000000.

(** [timedelta(minutes=m)]: the constructor normalises to days, seconds and
    microseconds and raises [OverflowError] unless the days, [m] minutes
    rounded down to whole days, have magnitude at most 999999999. *)
Definition timedelta (minutes : Z) : result Z :=
  let days := minutes / (24 * 60) in
  if (-999999999 <=? days) && (days <=? 999999999)
  then Ok (timedelta_minutes minutes)
  else Raise OverflowError.

(** [d + delta] for a datetime and a timedelta: [OverflowError] when the
    sum is no datetime. *)
Definition datetime_add (d : datetime) (delta : Z) : result datetime :=
  let sum := d + delta in
  if (datetime_min <=? sum) && (sum <=? datetime_max) then Ok sum
  else Raise OverflowError.

(** [d - delta]. *)
Definition datetime_sub (d : datetime) (delta : Z) : result datetime :=
  datetime_add d (- delta).

Definition isoformat (d : datetime) : datetime := d.

(** ** Floats *)

(** The integer nearest to [x], ties to the even one. *)
Definition round_half_even (x : Q) : Z :=
  let f := Qfloor x in
  match Qcompare (x - inject_Z f) (1 # 2) with
  | Lt => f
  | Gt => f + 1
  | Eq => if Z.even f then f else f + 1
  end.

Definition pow2 (e : Z) : Q := Qpower 2 e.

(** For [x > 0], the [e] with [2^e <= x < 2^(e+1)]: the difference of the
    binary logarithms of numerator and denominator, or one less. *)
Definition floor_log2 (x : Q) : Z :=
  let c := Z.log2 (Qnum x) - Z.log2 (Zpos (Qden x)) in
  if Qle_bool (pow2 c) x then c else c - 1.

(** Rounding to binary64: 53 significant bits, to nearest, ties to even. *)
Definition fl (x : Q) : Q :=
  let x := Qred x in
  if Qeq_bool x 0 then 0%Q
  else
    let ulp := pow2 (floor_log2 (Qabs x) - 52) in
    Qred (inject_Z (round_half_even (x / ulp)) * ulp).

Arguments fl x : simpl never.

(** Half an ulp, relative to the value. *)
Definition eps : Q := pow2 (-53).

(** ** The static tables *)

Definition CATEGORIES : list string :=
  ["Traffic"; "Cybersecurity"; "Public Safety"; "Utilities"; "Environmental"].

Definition SEVERITIES : list string := ["low"; "medium"; "high"; "critical"].
Definition STATUSES : list string := ["open"; "acknowledged"; "resolved"].

Definition LOCATIONS : dict (list string) :=
  [ ("Traffic",
      ["Central Station"; "Ring Road East"; "Airport Tunnel"; "Harbour Bridge"]);
    ("Cybersecurity",
      ["Datacenter West"; "Civic Cloud Cluster"; "Identity Gateway"; "E-services API"]);
    ("Public Safety",
      ["Museum Quarter"; "City Plaza"; "Riverfront"; "Stadium District"]);
    ("Utilities",
      ["Water Treatment Plant"; "North Power Substation"; "Waste Processing Hub";
       "District Heating Loop"]);
    ("Environmental",
      ["Canal District"; "Urban Forest"; "Industrial Park"; "Riverside Wetlands"]) ].

Definition SENSOR_IDS : dict (list string) :=
  [ ("Traffic", ["traffic-001"; "traffic-014"; "traffic-027"; "traffic-042"]);
    ("Cybersecurity", ["sec-201"; "sec-237"; "sec-448"; "sec-509"]);
    ("Public Safety", ["ps-118"; "ps-204"; "ps-317"; "ps-466"]);
    ("Utilities", ["util-031"; "util-066"; "util-082"; "util-119"]);
    ("Environmental", ["env-441"; "env-552"; "env-618"; "env-733"]) ].

Definition ROOT_CAUSES : list string :=
  [ "Hardware fault"; "Human error"; "External attack"; "Weather related";
    "Scheduled maintenance"; "Supply disruption"; "Sensor malfunction";
    "Network congestion" ].

Definition TITLES : dict string :=
  [ ("Traffic", "Traffic congestion alert");
    ("Cybersecurity", "Unauthorized access attempt");
    ("Public Safety", "Public safety anomaly");
    ("Utilities", "Utilities infrastructure warning");
    ("Environmental", "Environmental quality deviation") ].

Definition DESCRIPTIONS : dict string :=
  [ ("Traffic", "Generated from city mobility telemetry feed.");
    ("Cybersecurity", "Generated from perimeter security analytics.");
    ("Public Safety", "Generated from surveillance anomaly detection.");
    ("Utilities", "Generated from utilities SCADA monitoring.");
    ("Environmental", "Generated from distributed environmental sensors.") ].

Definition IMPACTS : dict string :=
  [ ("Traffic", "Potential delays across connected routes.");
    ("Cybersecurity", "Possible disruption to digital citizen services.");
    ("Public Safety", "On-site response team recommended.");
    ("Utilities", "Utility delivery stability under review.");
    ("Environmental", "Environmental compliance threshold exceeded.") ].

Definition SEVERITY_WEIGHTS : dict (list Q) :=
  [ ("Traffic", [fl 0.18; fl 0.39; fl 0.31; fl 0.12]);
    ("Cybersecurity", [fl 0.1; fl 0.3; fl 0.37; fl 0.23]);
    ("Public Safety", [fl 0.22; fl 0.33; fl 0.3; fl 0.15]);
    ("Utilities", [fl 0.28; fl 0.38; fl 0.24; fl 0.1]);
    ("Environmental", [fl 0.34; fl 0.4; fl 0.2; fl 0.06]) ].

Definition STATUS_WEIGHTS : dict (list Q) :=
  [ ("low", [fl 0.55; fl 0.25; fl 0.2]);
    ("medium", [fl 0.33; fl 0.33; fl 0.34]);
    ("high", [fl 0.22; fl 0.32; fl 0.46]);
    ("critical", [fl 0.12; fl 0.28; fl 0.6]) ].

Definition FALSE_POSITIVE_PROBABILITY : dict Q :=
  [ ("low", fl 0.26); ("medium", fl 0.14); ("high", fl 0.07); ("critical", fl 0.03) ].

(** The inner dictionaries of the two-field range tables are only ever
    subscripted with literal keys; they are records. *)

Record TrafficRanges : Type := {
  vehicle_count : Z * Z;
  avg_speed_kmh : Q * Q
}.

Record CyberRanges : Type := {
  failed_attempts : Z * Z;
  unique_ips : Z * Z
}.

Definition TRAFFIC_PAYLOAD_RANGES : dict TrafficRanges :=
  [ ("low", {| vehicle_count := (240, 720); avg_speed_kmh := (fl 26.0, fl 38.0) |});
    ("medium", {| vehicle_count := (680, 1280); avg_speed_kmh := (fl 16.0, fl 26.0) |});
    ("high", {| vehicle_count := (980, 1560); avg_speed_kmh := (fl 10.0, fl 18.0) |});
    ("critical", {| vehicle_count := (1280, 1850); avg_speed_kmh := (fl 4.0, fl 11.0) |}) ].

Definition CYBER_PAYLOAD_RANGES : dict CyberRanges :=
  [ ("low", {| failed_attempts := (45, 140); unique_ips := (4, 12) |});
    ("medium", {| failed_attempts := (140, 360); unique_ips := (8, 24) |});
    ("high", {| failed_attempts := (360, 760); unique_ips := (18, 44) |});
    ("critical", {| failed_attempts := (720, 1200); unique_ips := (32, 70) |}) ].

Definition PUBLIC_SAFETY_ANOMALY_RANGE : dict (Q * Q) :=
  [ ("low", (fl 0.32, fl 0.5)); ("medium", (fl 0.5, fl 0.7));
    ("high", (fl 0.7, fl 0.88)); ("critical", (fl 0.85, fl 0.97)) ].

Definition UTILITIES_CHLORINE_RANGE : dict (Q * Q) :=
  [ ("low", (fl 0.8, fl 1.3)); ("medium", (fl 0.6, fl 1.6));
    ("high", (fl 0.45, fl 1.8)); ("critical", (fl 0.3, fl 2.0)) ].

Definition ENVIRONMENTAL_PM25_RANGE : dict (Q * Q) :=
  [ ("low", (fl 14.0, fl 32.0)); ("medium", (fl 28.0, fl 60.0));
    ("high", (fl 54.0, fl 96.0)); ("critical", (fl 90.0, fl 150.0)) ].

Definition DATASET_SIZE : Z := 1500.
Definition RNG_SEED : Z := 20241202.

(** ** Records *)

(** A JSON number of a payload: [randint] yields an int, [round(_, n)] a
    float. *)
Inductive number : Type :=
| Int (z : Z)
| Float (q : Q).

(** The dictionary literal that [_sensor_measurement] returns. *)
Module Sensor.
Record t : Type := mk {
  sensor_id : string;
  type : string;
  status : string;
  captured_at : datetime;
  payload : dict number
}.
End Sensor.

Record IncidentRecord : Type := mkIncidentRecord {
  id : Z;
  title : string;
  category : string;
  severity : string;
  status : string;
  detected_at : datetime;
  acknowledged_at : option datetime;
  resolved_at : option datetime;
  location : string;
  description : string;
  impact : string;
  root_cause : option string;
  sensor_measurement : Sensor.t
}.

(** ** Numbers *)

Definition Qltb (x y : Q) : bool := negb (Qle_bool y x).

(** [round(x, ndigits)] of a float: the exact value of [x] goes to the
    nearest multiple of [10^-ndigits], ties to the even one, and that
    decimal to the nearest float. *)
Definition round (x : Q) (ndigits : Z) : Q :=
  let scale := inject_Z (10 ^ ndigits) in
  fl (inject_Z (round_half_even (x * scale)) / scale).

(** [itertools.accumulate]: the running sums. *)
Fixpoint accumulate_from (acc : Q) (ws : list Q) : list Q :=
  match ws with
  | [] => []
  | w :: ws' => fl (acc + w) :: accumulate_from (fl (acc + w)) ws'
  end.

Definition accumulate (ws : list Q) : list Q :=
  match ws with
  | [] => []
  | w :: ws' => w :: accumulate_from w ws'
  end.

(** [bisect.bisect_right(a, x, lo, hi)]; the loop runs at most [hi - lo]
    times, which is the fuel [bisect] gives it. *)
Fixpoint bisect_loop (fuel : nat) (a : list Q) (x : Q) (lo hi : nat) : result nat :=
  if (lo <? hi)%nat then
    match fuel with
    | O => Ok lo
    | S fuel' =>
        let mid := ((lo + hi) / 2)%nat in
        match nth_error a mid with
        | None => Raise IndexError
        | Some a_mid =>
            if Qltb x a_mid then bisect_loop fuel' a x lo mid
            else bisect_loop fuel' a x (mid + 1)%nat hi
        end
    end
  else Ok lo.

Definition bisect (a : list Q) (x : Q) (lo hi : nat) : result nat :=
  bisect_loop (hi - lo) a x lo hi.

(** ** The random generator *)

(** [random.Random]: [Random_seed s] is [random.Random(s)];
    [randbelow n] is [_randbelow(n)], "a random int in the range [0,n),
    defined for n > 0"; [random] is [random()], a float in [0.0, 1.0). *)
Class PyRandom : Type := {
  rng : Type;
  Random_seed : Z -> rng;
  randbelow : Z -> rng -> Z * rng;
  random : rng -> Q * rng;
  randbelow_range : forall n g, 0 < n -> 0 <= fst (randbelow n g) < n;
  random_range : forall g, (0 <= fst (random g) /\ fst (random g) < 1)%Q
}.

(** ** The monad of the generator *)

Section Generator.

Context {R : PyRandom}.

(** The readings of [datetime.now(UTC)], in the order of the calls. *)
Variable clk : nat -> datetime.

(** What a run threads along: the generator, the number of calls made to
    its methods so far, and the number of clock readings taken so far. *)
Record World : Type := mkWorld {
  gen : rng;
  draws : nat;
  ticks : nat
}.

Definition M (A : Type) : Type := World -> result (A * World).

Definition ret {A : Type} (a : A) : M A := fun w => Ok (a, w).

Definition bind {A B : Type} (m : M A) (k : A -> M B) : M B :=
  fun w =>
    match m w with
    | Ok (a, w') => k a w'
    | Raise e => Raise e
    end.

Definition raise {A : Type} (e : exn) : M A := fun _ => Raise e.

Definition lift {A : Type} (r : result A) : M A :=
  fun w =>
    match r with
    | Ok a => Ok (a, w)
    | Raise e => Raise e
    end.

Notation "x <- m ;; k" := (bind m (fun x => k))
  (at level 61, m at next level, right associativity).
Notation "' pat <- m ;; k" := (bind m (fun x => match x with pat => k end))
  (at level 61, pat pattern, m at next level, right associativity).

Definition dict_get {V : Type} (key : string) (d : dict V) : M V :=
  match dict_lookup key d with
  | Some v => ret v
  | None => raise KeyError
  end.

Fixpoint mapM {A B : Type} (f : A -> M B) (l : list A) : M (list B) :=
  match l with
  | [] => ret []
  | x :: l' =>
      y <- f x;;
      ys <- mapM f l';;
      ret (y :: ys)
  end.

(** *** Methods of [random.Random] and the clock *)

Definition rng_randbelow (n : Z) : M Z :=
  fun w =>
    let (r, g) := randbelow n (gen w) in
    Ok (r, mkWorld g (S (draws w)) (ticks w)).

Definition rng_random : M Q :=
  fun w =>
    let (u, g) := random (gen w) in
    Ok (u, mkWorld g (S (draws w)) (ticks w)).

Definition choice {A : Type} (seq : list A) : M A :=
  if (List.length seq =? 0)%nat then raise IndexError
  else
    r <- rng_randbelow (Z.of_nat (List.length seq));;
    match nth_error seq (Z.to_nat r) with
    | Some x => ret x
    | None => raise IndexError
    end.

Definition randrange (start stop : Z) : M Z :=
  let width := stop - start in
  if 0 <? width then
    r <- rng_randbelow width;;
    ret (start + r)
  else raise ValueError.

Definition randint (a b : Z) : M Z := randrange a (b + 1).

Definition uniform (a b : Q) : M Q :=
  u <- rng_random;;
  ret (fl (a + fl (fl (b - a) * u))).

(** [choices(population, weights=weights, k=1)[0]]. *)
Definition choices {A : Type} (population : list A) (weights : list Q) : M A :=
  let n := List.length population in
  let cum_weights := accumulate weights in
  if negb (List.length cum_weights =? n)%nat then raise ValueError
  else
    match rev cum_weights with
    | [] => raise IndexError
    | last :: _ =>
        let total := fl (last + 0.0) in
        if Qle_bool total 0 then raise ValueError
        else
          u <- rng_random;;
          i <- lift (bisect cum_weights (fl (u * total)) 0 (n - 1));;
          match nth_error population i with
          | Some x => ret x
          | None => raise IndexError
          end
    end.

Definition now : M datetime :=
  fun w => Ok (clk (ticks w), mkWorld (gen w) (draws w) (S (ticks w))).

(** *** The functions of the module *)

Definition _pick_severity (category : string) : M string :=
  weights <- dict_get category SEVERITY_WEIGHTS;;
  choices SEVERITIES weights.

Definition _pick_status (severity : string) : M string :=
  weights <- dict_get severity STATUS_WEIGHTS;;
  choices STATUSES weights.

Definition _detected_at (index : Z) : M datetime :=
  let window_days := 90 in
  minutes_offset <- randint 0 (window_days * 24 * 60);;
  base <- now;;
  delta <- lift (timedelta (minutes_offset + index * 3));;
  lift (datetime_sub base delta).

Definition ack_bounds : dict (Z * Z) :=
  [ ("low", (45, 360)); ("medium", (30, 180)); ("high", (10, 90)); ("critical", (3, 45)) ].

Definition res_bounds : dict (Z * Z) :=
  [ ("low", (240, 1440)); ("medium", (180, 960)); ("high", (120, 720));
    ("critical", (60, 480)) ].

Definition _acknowledged_and_resolved (status severity : string) (detected_at : datetime)
  : M (option datetime * option datetime) :=
  if (status =? "open")%string then ret (None, None)
  else
    '(ack_min, ack_max) <- dict_get severity ack_bounds;;
    ack_minutes <- randint ack_min ack_max;;
    ack_delta <- lift (timedelta ack_minutes);;
    acknowledged <- lift (datetime_add detected_at ack_delta);;
    if (status =? "acknowledged")%string then ret (Some (isoformat acknowledged), None)
    else
      '(res_min, res_max) <- dict_get severity res_bounds;;
      resolve_minutes <- randint res_min res_max;;
      res_delta <- lift (timedelta resolve_minutes);;
      resolved <- lift (datetime_add acknowledged res_delta);;
      ret (Some (isoformat acknowledged), Some (isoformat resolved)).

Definition _root_cause (severity : string) (false_positive : bool) : M (option string) :=
  if false_positive then ret None
  else
    c <- choice ROOT_CAUSES;;
    ret (Some c).

Definition _choose_location (category : string) : M string :=
  locations <- dict_get category LOCATIONS;;
  choice locations.

Definition _choose_title (category : string) : M string := dict_get category TITLES.

Definition _choose_description (category : string) : M string :=
  dict_get category DESCRIPTIONS.

Definition _choose_impact (category severity : string) : M string :=
  base <- dict_get category IMPACTS;;
  if existsb (String.eqb severity) ["high"; "critical"]
  then ret (base ++ " Escalation priority elevated.")
  else ret base.

Definition _sensor_status (severity : string) (false_positive : bool) : M string :=
  if false_positive then choices ["healthy"; "warning"] [fl 0.7; fl 0.3]
  else if (severity =? "critical")%string then choices ["alert"; "warning"] [fl 0.8; fl 0.2]
  else if (severity =? "high")%string then
    choices ["alert"; "warning"; "healthy"] [fl 0.5; fl 0.35; fl 0.15]
  else if (severity =? "medium")%string then
    choices ["warning"; "healthy"; "alert"] [fl 0.55; fl 0.35; fl 0.1]
  else choices ["healthy"; "warning"] [fl 0.75; fl 0.25].

Definition _traffic_payload (severity : string) : M (dict number) :=
  bounds <- dict_get severity TRAFFIC_PAYLOAD_RANGES;;
  vehicle_count <- randint (fst (vehicle_count bounds)) (snd (vehicle_count bounds));;
  u <- uniform (fst (avg_speed_kmh bounds)) (snd (avg_speed_kmh bounds));;
  let avg_speed := round u 1 in
  ret [ ("vehicle_count", Int vehicle_count); ("avg_speed_kmh", Float avg_speed) ].

Definition _cyber_payload (severity : string) : M (dict number) :=
  bounds <- dict_get severity CYBER_PAYLOAD_RANGES;;
  failed_attempts <- randint (fst (failed_attempts bounds)) (snd (failed_attempts bounds));;
  unique_ips <- randint (fst (unique_ips bounds)) (snd (unique_ips bounds));;
  ret [ ("failed_attempts", Int failed_attempts); ("unique_ips", Int unique_ips) ].

Definition _public_safety_payload (severity : string) : M (dict number) :=
  '(lo, hi) <- dict_get severity PUBLIC_SAFETY_ANOMALY_RANGE;;
  u <- uniform lo hi;;
  let anomaly := round u 2 in
  ret [ ("anomaly_score", Float anomaly) ].

Definition _utilities_payload (severity : string) : M (dict number) :=
  '(lo, hi) <- dict_get severity UTILITIES_CHLORINE_RANGE;;
  u <- uniform lo hi;;
  let chlorine := round u 2 in
  v <- uniform (fl 6.5) (fl 8.3);;
  let ph := round v 2 in
  ret [ ("chlorine_ppm", Float chlorine); ("ph", Float ph) ].

Definition _environmental_payload (severity : string) : M (dict number) :=
  '(lo, hi) <- dict_get severity ENVIRONMENTAL_PM25_RANGE;;
  u <- uniform lo hi;;
  let pm25 := round u 1 in
  ret [ ("pm2_5", Float pm25) ].

Definition _sensor_payload (category severity : string) : M (dict number) :=
  if (category =? "Traffic")%string then _traffic_payload severity
  else if (category =? "Cybersecurity")%string then _cyber_payload severity
  else if (category =? "Public Safety")%string then _public_safety_payload severity
  else if (category =? "Utilities")%string then _utilities_payload severity
  else _environmental_payload severity.

Definition _sensor_measurement (category severity : string) (detected_at : datetime)
    (false_positive : bool) : M Sensor.t :=
  ids <- dict_get category SENSOR_IDS;;
  sensor_id <- choice ids;;
  status <- _sensor_status severity false_positive;;
  minutes <- randint 1 12;;
  delta <- lift (timedelta minutes);;
  captured_at <- lift (datetime_sub detected_at delta);;
  payload <- _sensor_payload category severity;;
  ret (Sensor.mk sensor_id category status (isoformat captured_at) payload).

(** The body of [_build_record]; besides the record it hands out the local
    [false_positive], which the record itself does not store. *)
Definition _build_record_flagged (index : Z) : M (IncidentRecord * bool) :=
  category <- choice CATEGORIES;;
  severity <- _pick_severity category;;
  status <- _pick_status severity;;
  detected_at_dt <- _detected_at index;;
  let detected_at := isoformat detected_at_dt in
  u <- rng_random;;
  p <- dict_get severity FALSE_POSITIVE_PROBABILITY;;
  let false_positive := Qltb u p in
  '(acknowledged_at, resolved_at) <-
    _acknowledged_and_resolved status severity detected_at_dt;;
  title <- _choose_title category;;
  location <- _choose_location category;;
  description <- _choose_description category;;
  impact <- _choose_impact category severity;;
  root_cause <- _root_cause severity false_positive;;
  sensor_measurement <-
    _sensor_measurement category severity detected_at_dt false_positive;;
  ret (mkIncidentRecord (1000 + index) title category severity status detected_at
         acknowledged_at resolved_at location description impact root_cause
         sensor_measurement,
       false_positive).

Definition _build_record (index : Z) : M IncidentRecord :=
  rf <- _build_record_flagged index;;
  ret (fst rf).

(** [range(size)]. *)
Definition range (size : Z) : list Z := map Z.of_nat (seq 0 (Z.to_nat size)).

Definition fresh (seed : Z) : World := mkWorld (Random_seed seed) 0 0.

Definition generate_dataset (size seed : Z) : result (list IncidentRecord) :=
  result_map fst (mapM _build_record (range size) (fresh seed)).

(** The same run, keeping each record's [false_positive]. *)
Definition generate_flagged (size seed : Z) : result (list (IncidentRecord * bool)) :=
  result_map fst (mapM _build_record_flagged (range size) (fresh seed)).

End Generator.

Arguments World {R}.
Arguments mkWorld {R} gen draws ticks.
Arguments gen {R} w.
Arguments draws {R} w.
Arguments ticks {R} w.

(** ** CPython's generator

    [random.Random] as CPython implements it: the Mersenne Twister of
    [Modules/_randommodule.c] (32-bit words, written with their wrap-around)
    under the methods of [Lib/random.py].  The rejection loop of
    [_randbelow_with_getrandbits] has no bound in the source; here it gives up
    after [patience] rejections in a row (each has probability below one
    half) and records that in [exhausted], so that a run whose final state
    has [exhausted = false] is a run of the unbounded loop. *)

Module MT19937.

Definition u32 (x : Z) : Z := Z.land x 0xffffffff.

Definition N : nat := 624.
Definition M : nat := 397.
Definition MATRIX_A : Z := 0x9908b0df.
Definition UPPER_MASK : Z := 0x80000000.
Definition LOWER_MASK : Z := 0x7fffffff.

Record t : Type := mk {
  state : list Z;
  index : nat;
  exhausted : bool
}.

Definition get (mt : list Z) (i : nat) : Z := nth i mt 0.

Fixpoint set (mt : list Z) (i : nat) (v : Z) : list Z :=
  match mt, i with
  | [], _ => []
  | _ :: rest, O => v :: rest
  | x :: rest, S i' => x :: set rest i' v
  end.

Fixpoint init_genrand_loop (n : nat) (mti prev : Z) : list Z :=
  match n with
  | O => []
  | S n' =>
      let x := u32 (1812433253 * Z.lxor prev (Z.shiftr prev 30) + mti) in
      x :: init_genrand_loop n' (mti + 1) x
  end.

Definition init_genrand (s : Z) : list Z :=
  u32 s :: init_genrand_loop (N - 1) 1 (u32 s).

(** After a step of either loop of [init_by_array]: [i] past the end wraps
    to 1 and copies the last word to the front. *)
Definition wrap (mt : list Z) (i : nat) : list Z * nat :=
  if (N <=? i)%nat then (set mt 0 (get mt (N - 1)), 1%nat) else (mt, i).

Fixpoint init_by_array_mix (k : nat) (init_key : list Z) (mt : list Z) (i j : nat)
  : list Z * nat :=
  match k with
  | O => (mt, i)
  | S k' =>
      let prev := get mt (i - 1) in
      let v := u32 (Z.lxor (get mt i) (Z.lxor prev (Z.shiftr prev 30) * 1664525)
                    + get init_key j + Z.of_nat j) in
      let (mt', i') := wrap (set mt i v) (S i) in
      let j' := if (List.length init_key <=? S j)%nat then O else S j in
      init_by_array_mix k' init_key mt' i' j'
  end.

Fixpoint init_by_array_finish (k : nat) (mt : list Z) (i : nat) : list Z :=
  match k with
  | O => mt
  | S k' =>
      let prev := get mt (i - 1) in
      let v := u32 (Z.lxor (get mt i) (Z.lxor prev (Z.shiftr prev 30) * 1566083941)
                    - Z.of_nat i) in
      let (mt', i') := wrap (set mt i v) (S i) in
      init_by_array_finish k' mt' i'
  end.

Definition init_by_array (init_key : list Z) : list Z :=
  let (mt, i) :=
    init_by_array_mix (Nat.max N (List.length init_key)) init_key
      (init_genrand 19650218) 1 0 in
  set (init_by_array_finish (N - 1) mt i) 0 0x80000000.

(** [random_seed] for an int argument: the 32-bit chunks of its absolute
    value, least significant first, at least one. *)
Fixpoint key_words (words : nat) (n : Z) : list Z :=
  match words with
  | O => []
  | S words' => u32 n :: key_words words' (Z.shiftr n 32)
  end.

Definition bit_length (n : Z) : Z := if n =? 0 then 0 else Z.log2 (Z.abs n) + 1.

Definition seed (a : Z) : t :=
  let n := Z.abs a in
  let bits := bit_length n in
  let keyused := if bits =? 0 then 1%nat else Z.to_nat ((bits - 1) / 32 + 1) in
  mk (init_by_array (key_words keyused n)) N false.

Definition twist_word (cur next far : Z) : Z :=
  let y := Z.lor (Z.land cur UPPER_MASK) (Z.land next LOWER_MASK) in
  Z.lxor (Z.lxor far (Z.shiftr y 1)) (if Z.odd y then MATRIX_A else 0).

(** The three loops of [genrand_uint32] that regenerate the [N] words in
    place, as one loop over [kk]. *)
Fixpoint twist (n kk : nat) (mt : list Z) : list Z :=
  match n with
  | O => mt
  | S n' =>
      let far := if (kk <? N - M)%nat then (kk + M)%nat else (kk + M - N)%nat in
      let next := if (kk =? N - 1)%nat then O else S kk in
      twist n' (S kk) (set mt kk (twist_word (get mt kk) (get mt next) (get mt far)))
  end.

Definition temper (y : Z) : Z :=
  let y := Z.lxor y (Z.shiftr y 11) in
  let y := Z.lxor y (Z.land (u32 (Z.shiftl y 7)) 0x9d2c5680) in
  let y := Z.lxor y (Z.land (u32 (Z.shiftl y 15)) 0xefc60000) in
  Z.lxor y (Z.shiftr y 18).

Definition genrand_uint32 (g : t) : Z * t :=
  let g' := if (N <=? index g)%nat
            then mk (twist N 0 (state g)) 0 (exhausted g) else g in
  (u32 (temper (get (state g') (index g'))),
   mk (state g') (S (index g')) (exhausted g')).

(** [random()]: 53 bits from two words. *)
Definition random_impl (g : t) : Q * t :=
  let (x, g1) := genrand_uint32 g in
  let (y, g2) := genrand_uint32 g1 in
  let a := Z.shiftr x 5 in
  let b := Z.shiftr y 6 in
  ((a * 67108864 + b) # 9007199254740992, g2).

(** [getrandbits(k)] for [k > 32]: words from the least significant up, the
    last one cut to the bits that remain. *)
Fixpoint getrandbits_words (words : nat) (k : Z) (g : t) : Z * t :=
  match words with
  | O => (0, g)
  | S words' =>
      let (r, g1) := genrand_uint32 g in
      let r' := if k <? 32 then Z.shiftr r (32 - k) else r in
      let (rest, g2) := getrandbits_words words' (k - 32) g1 in
      (r' + Z.shiftl rest 32, g2)
  end.

Definition getrandbits (k : Z) (g : t) : Z * t :=
  if k =? 0 then (0, g)
  else if k <=? 32 then
    let (r, g1) := genrand_uint32 g in (Z.shiftr r (32 - k), g1)
  else getrandbits_words (Z.to_nat ((k - 1) / 32 + 1)) k g.

Definition patience : nat := 128.

Fixpoint randbelow_loop (fuel : nat) (k n : Z) (g : t) : Z * t :=
  let (r, g1) := getrandbits k g in
  if r <? n then (r, g1)
  else
    match fuel with
    | O => (0, mk (state g1) (index g1) true)
    | S fuel' => randbelow_loop fuel' k n g1
    end.

Definition _randbelow (n : Z) (g : t) : Z * t :=
  randbelow_loop patience (bit_length n) n g.

(** The first words of the reference implementation's test run
    ([init_by_array] on the key 0x123, 0x234, 0x345, 0x456, then
    [genrand_int32]) and of [init_genrand(5489)]. *)
Fixpoint words (n : nat) (g : t) : list Z :=
  match n with
  | O => []
  | S n' => let (x, g') := genrand_uint32 g in x :: words n' g'
  end.

Example reference_words :
  words 5 (mk (init_by_array [0x123; 0x234; 0x345; 0x456]) N false)
  = [1067595299; 955945823; 477289528; 4107218783; 4228976476].
Proof. vm_compute. reflexivity. Qed.

Example reference_word_5489 :
  words 1 (mk (init_genrand 5489) N false) = [3499211612].
Proof. vm_compute. reflexivity. Qed.

Lemma u32_range (x : Z) : 0 <= u32 x < 2 ^ 32.
Proof.
  unfold u32. change 0xffffffff with (Z.ones 32).
  rewrite Z.land_ones by lia. apply Z.mod_pos_bound. lia.
Qed.

Lemma genrand_uint32_range (g : t) : 0 <= fst (genrand_uint32 g) < 2 ^ 32.
Proof. unfold genrand_uint32. cbn [fst]. apply u32_range. Qed.

Lemma getrandbits_words_nonneg (words : nat) :
  forall k g, 0 <= fst (getrandbits_words words k g).
Proof.
  induction words as [|words IH]; intros k g; cbn [getrandbits_words fst]; [lia|].
  pose proof (genrand_uint32_range g) as Hr.
  destruct (genrand_uint32 g) as [r g1]. cbn [fst] in Hr.
  specialize (IH (k - 32) g1).
  destruct (getrandbits_words words (k - 32) g1) as [rest g2]. cbn [fst] in *.
  assert (0 <= Z.shiftl rest 32) by (apply Z.shiftl_nonneg; lia).
  destruct (k <? 32).
  - assert (0 <= Z.shiftr r (32 - k)) by (apply Z.shiftr_nonneg; lia). lia.
  - lia.
Qed.

Lemma getrandbits_nonneg (k : Z) (g : t) : 0 <= fst (getrandbits k g).
Proof.
  unfold getrandbits.
  destruct (k =? 0); [cbn; lia|].
  destruct (k <=? 32).
  - pose proof (genrand_uint32_range g) as Hr.
    destruct (genrand_uint32 g) as [r g1]. cbn [fst] in *.
    apply Z.shiftr_nonneg. lia.
  - apply getrandbits_words_nonneg.
Qed.

Lemma randbelow_loop_range (fuel : nat) :
  forall k n g, 0 < n -> 0 <= fst (randbelow_loop fuel k n g) < n.
Proof.
  induction fuel as [|fuel IH]; intros k n g Hn; cbn [randbelow_loop];
    pose proof (getrandbits_nonneg k g) as Hr;
    destruct (getrandbits k g) as [r g1]; cbn [fst] in Hr;
    destruct (Z.ltb_spec r n); cbn [fst]; try lia.
  apply IH. exact Hn.
Qed.

Lemma _randbelow_range (n : Z) (g : t) : 0 < n -> 0 <= fst (_randbelow n g) < n.
Proof. apply randbelow_loop_range. Qed.

Lemma random_impl_range (g : t) :
  (0 <= fst (random_impl g) /\ fst (random_impl g) < 1)%Q.
Proof.
  unfold random_impl.
  pose proof (genrand_uint32_range g) as Hx.
  destruct (genrand_uint32 g) as [x g1]. cbn [fst] in Hx.
  pose proof (genrand_uint32_range g1) as Hy.
  destruct (genrand_uint32 g1) as [y g2]. cbn [fst] in *.
  rewrite !Z.shiftr_div_pow2 by lia.
  assert (0 <= x / 2 ^ 5 < 2 ^ 27)
    by (split; [apply Z.div_pos; lia | apply Z.div_lt_upper_bound; lia]).
  assert (0 <= y / 2 ^ 6 < 2 ^ 26)
    by (split; [apply Z.div_pos; lia | apply Z.div_lt_upper_bound; lia]).
  unfold Qle, Qlt. cbn [Qnum Qden]. lia.
Qed.

#[export] Instance python : PyRandom := {|
  rng := t;
  Random_seed := seed;
  randbelow := _randbelow;
  random := random_impl;
  randbelow_range := _randbelow_range;
  random_range := random_impl_range
|}.

End MT19937.

(** ** The properties, as predicates *)

(** A total-correctness triple: from [w], [m] returns normally and the
    value and the world it leaves satisfy [post]. *)
Definition returns {R : PyRandom} {A : Type}
    (m : M A) (w : World) (post : A -> World -> Prop) : Prop :=
  exists a w', m w = Ok (a, w') /\ post a w'.

(** [w'] is [w] after [d] more calls to the generator and [t] more clock
    readings. *)
Definition advance {R : PyRandom} (d t : nat) (w w' : World) : Prop :=
  draws w' = (draws w + d)%nat /\ ticks w' = (ticks w + t)%nat.

(** The triple of code whose date arithmetic can overflow: from [w], [m]
    either returns, with a value and a world that satisfy [post], or raises
    [OverflowError], and this only when [safe] fails.  So every run that
    returns satisfies [post], no other exception is raised, and where
    [safe] holds the run returns. *)
Definition outcome {R : PyRandom} {A : Type} (safe : Prop)
    (m : M A) (w : World) (post : A -> World -> Prop) : Prop :=
  match m w with
  | Ok (a, w') => post a w'
  | Raise e => e = OverflowError /\ ~ safe
  end.

(** [d] is a datetime: it lies within years 1 to 9999. *)
Definition is_datetime (d : Z) : Prop := datetime_min <= d <= datetime_max.

(** The four timestamps of a record are datetimes. *)
Definition timestamps_valid (r : IncidentRecord) : Prop :=
  is_datetime (detected_at r)
  /\ is_datetime (Sensor.captured_at (sensor_measurement r))
  /\ (forall a, acknowledged_at r = Some a -> is_datetime a)
  /\ (forall s, resolved_at r = Some s -> is_datetime s).

(** A clock reading [base] with which [_build_record(index)] cannot leave
    the range of datetimes, whatever is drawn: the index is not negative,
    the earliest time the record can hold, [90 * 24 * 60 + index * 3 + 12]
    minutes before [base], is no earlier than [datetime.min], and
    [360 + 1440] minutes after [base], later than which no time of the
    record is, is no later than [datetime.max]. *)
Definition reading_in_range (index : Z) (base : datetime) : Prop :=
  0 <= index
  /\ datetime_min + timedelta_minutes (90 * 24 * 60 + index * 3 + 12) <= base
  /\ base + timedelta_minutes (360 + 1440) <= datetime_max.

(** The readings that a run of [size] records takes are all in range. *)
Definition clock_in_range (clk : nat -> datetime) (size : Z) : Prop :=
  forall i : nat, Z.of_nat i < size -> reading_in_range (Z.of_nat i) (clk i).

(** The arguments with which [choices] does not raise. *)
Definition choices_defined {A : Type} (population : list A) (weights : list Q) : bool :=
  (List.length (accumulate weights) =? List.length population)%nat
  && match rev (accumulate weights) with
     | [] => false
     | last :: _ => negb (Qle_bool (fl (last + 0.0)) 0)
     end.

(** The integers from [lo] to [hi]. *)
Definition Zseq (lo hi : Z) : list Z :=
  map (fun i => lo + Z.of_nat i) (seq 0 (Z.to_nat (hi - lo + 1))).

(** A check that [round(uniform(a, b), ndigits)] stays between [a] and [b].
    With every rounding off by at most [eps], relatively, what [uniform]
    returns lies between [least] and [greatest]; the check runs through the
    decimals that values in between round to. *)
Definition float_range_ok (a b : Q) (ndigits : Z) : bool :=
  let s := inject_Z (10 ^ ndigits) in
  let least := (a * (1 - eps))%Q in
  let greatest := ((a + fl (b - a) * (1 + eps)) * (1 + eps))%Q in
  Qle_bool 0 a && Qle_bool a b && (0 <=? ndigits)
  && forallb (fun r => let v := fl (inject_Z r / s) in Qle_bool a v && Qle_bool v b)
       (Zseq (round_half_even (least * s)) (round_half_even (greatest * s))).

Definition number_value (v : number) : Q :=
  match v with
  | Int z => inject_Z z
  | Float q => q
  end.

Definition Zrange (b : Z * Z) : Q * Q := (inject_Z (fst b), inject_Z (snd b)).

(** The bounds that the payload range tables register for a field of the
    payload of a [(category, severity)] pair, following the table each
    payload function reads. *)
Definition payload_range (category severity field : string) : option (Q * Q) :=
  if (category =? "Traffic")%string then
    match dict_lookup severity TRAFFIC_PAYLOAD_RANGES with
    | Some bounds =>
        if (field =? "vehicle_count")%string then Some (Zrange (vehicle_count bounds))
        else if (field =? "avg_speed_kmh")%string then Some (avg_speed_kmh bounds)
        else None
    | None => None
    end
  else if (category =? "Cybersecurity")%string then
    match dict_lookup severity CYBER_PAYLOAD_RANGES with
    | Some bounds =>
        if (field =? "failed_attempts")%string then Some (Zrange (failed_attempts bounds))
        else if (field =? "unique_ips")%string then Some (Zrange (unique_ips bounds))
        else None
    | None => None
    end
  else if (category =? "Public Safety")%string then
    if (field =? "anomaly_score")%string
    then dict_lookup severity PUBLIC_SAFETY_ANOMALY_RANGE else None
  else if (category =? "Utilities")%string then
    if (field =? "chlorine_ppm")%string
    then dict_lookup severity UTILITIES_CHLORINE_RANGE else None
  else if (category =? "Environmental")%string then
    if (field =? "pm2_5")%string
    then dict_lookup severity ENVIRONMENTAL_PM25_RANGE else None
  else None.

Definition within (v : number) (b : Q * Q) : Prop :=
  (fst b <= number_value v /\ number_value v <= snd b)%Q.

(** A payload field lies within the bounds the tables register for it. *)
Definition field_in_table (category severity : string) (kv : string * number) : Prop :=
  exists b, payload_range category severity (fst kv) = Some b /\ within (snd kv) b.

(** The same, with [ph] held to the interval written in
    [_utilities_payload], which no table registers. *)
Definition field_in_bounds (category severity : string) (kv : string * number) : Prop :=
  field_in_table category severity kv
  \/ (category = "Utilities" /\ fst kv = "ph" /\ within (snd kv) (fl 6.5, fl 8.3)).

Definition payload_in_table (r : IncidentRecord) : Prop :=
  Forall (field_in_table (category r) (severity r))
         (Sensor.payload (sensor_measurement r)).

Definition payload_in_bounds (r : IncidentRecord) : Prop :=
  Forall (field_in_bounds (category r) (severity r))
         (Sensor.payload (sensor_measurement r)).

(** [captured_at < detected_at <= acknowledged_at <= resolved_at], the later
    fields where present. *)
Definition temporal_order (r : IncidentRecord) : Prop :=
  Sensor.captured_at (sensor_measurement r) < detected_at r
  /\ (forall a, acknowledged_at r = Some a -> detected_at r <= a)
  /\ (forall a s, acknowledged_at r = Some a -> resolved_at r = Some s -> a <= s)
  /\ (forall s, resolved_at r = Some s -> exists a, acknowledged_at r = Some a).

(** The presence rules of the three optional fields. *)
Definition optional_fields (r : IncidentRecord) (false_positive : bool) : Prop :=
  (acknowledged_at r <> None <-> status r = "acknowledged" \/ status r = "resolved")
  /\ (resolved_at r <> None <-> status r = "resolved")
  /\ (root_cause r = None <-> false_positive = true).

(** Location and sensor are registered for the category, and the
    measurement is typed by it. *)
Definition category_consistent (r : IncidentRecord) : Prop :=
  (exists locations,
      dict_lookup (category r) LOCATIONS = Some locations /\ In (location r) locations)
  /\ (exists ids,
      dict_lookup (category r) SENSOR_IDS = Some ids
      /\ In (Sensor.sensor_id (sensor_measurement r)) ids)
  /\ Sensor.type (sensor_measurement r) = category r.

Definition low_or_medium (severity : string) : Prop :=
  severity = "low" \/ severity = "medium".

Definition high_or_critical (severity : string) : Prop :=
  severity = "high" \/ severity = "critical".

(** [impact] is the base string of the category, escalated exactly for the
    two upper severities. *)
Definition impact_rule (r : IncidentRecord) : Prop :=
  exists base,
    dict_lookup (category r) IMPACTS = Some base
    /\ (impact r = base <-> low_or_medium (severity r))
    /\ (impact r = base ++ " Escalation priority elevated."
        <-> high_or_critical (severity r)).

(** [detected_at] lies in the 90-day window that ends [3 * index] minutes
    before the clock reading [base]. *)
Definition detected_window (base : datetime) (index : Z) (r : IncidentRecord) : Prop :=
  base - timedelta_minutes (90 * 24 * 60 + index * 3) <= detected_at r
  /\ detected_at r <= base - timedelta_minutes (index * 3).

(** [detected_at] strictly decreasing along a dataset. *)
Definition detected_strictly_decreasing (rs : list IncidentRecord) : Prop :=
  forall i j ri rj,
    (i < j)%nat -> nth_error rs i = Some ri -> nth_error rs j = Some rj ->
    detected_at rj < detected_at ri.

(** The calls that [_build_record] makes to the generator: nine that every
    record makes, then one per timestamp derived from the status, one for
    the root cause unless the record is a false positive, and one per
    payload field. *)
Definition status_draws (status : string) : nat :=
  if (status =? "open")%string then 0
  else if (status =? "acknowledged")%string then 1 else 2.

Definition payload_draws (category : string) : nat :=
  if (category =? "Traffic")%string then 2
  else if (category =? "Cybersecurity")%string then 2
  else if (category =? "Public Safety")%string then 1
  else if (category =? "Utilities")%string then 2
  else 1.

Definition record_draws (r : IncidentRecord) (false_positive : bool) : nat :=
  9 + status_draws (status r) + (if false_positive then 0 else 1)
  + payload_draws (category r).

(** The record with its four timestamps moved by [delta]. *)
Definition retime_measurement (delta : Z) (m : Sensor.t) : Sensor.t :=
  Sensor.mk (Sensor.sensor_id m) (Sensor.type m) (Sensor.status m)
            (Sensor.captured_at m + delta) (Sensor.payload m).

Definition retime (delta : Z) (r : IncidentRecord) : IncidentRecord :=
  mkIncidentRecord (id r) (title r) (category r) (severity r) (status r)
    (detected_at r + delta)
    (option_map (fun t => t + delta) (acknowledged_at r))
    (option_map (fun t => t + delta) (resolved_at r))
    (location r) (description r) (impact r) (root_cause r)
    (retime_measurement delta (sensor_measurement r)).

(** The record without its four timestamps. *)
Definition untimed (r : IncidentRecord) : IncidentRecord :=
  mkIncidentRecord (id r) (title r) (category r) (severity r) (status r)
    0
    (option_map (fun _ => 0) (acknowledged_at r))
    (option_map (fun _ => 0) (resolved_at r))
    (location r) (description r) (impact r) (root_cause r)
    (Sensor.mk (Sensor.sensor_id (sensor_measurement r))
               (Sensor.type (sensor_measurement r))
               (Sensor.status (sensor_measurement r))
               0 (Sensor.payload (sensor_measurement r))).

(** Each record moved by the difference of the readings that two clocks
    give for it. *)
Fixpoint retime_all (c1 c2 : nat -> datetime) (i : nat) (rs : list IncidentRecord)
  : list IncidentRecord :=
  match rs with
  | [] => []
  | r :: rs' => retime (c2 i - c1 i) r :: retime_all c1 c2 (S i) rs'
  end.

(** Two clocks used by the concrete runs: the first reading at noon UTC on
    2 December 2024 and one second later, a millisecond between readings. *)
Definition clock_from (t0 : datetime) (k : nat) : datetime := t0 + Z.of_nat k * 1000.
Definition noon : datetime := 1733140800000000.
Definition clock_a : nat -> datetime := clock_from noon.
Definition clock_b : nat -> datetime := clock_from (noon + 1000000).

(** What [_acknowledged_and_resolved] returns for a detection time [d]. *)
Definition acknowledged_resolved (status : string) (d : datetime)
    (ar : option datetime * option datetime) : Prop :=
  (fst ar <> None <-> status = "acknowledged" \/ status = "resolved")
  /\ (snd ar <> None <-> status = "resolved")
  /\ (forall a, fst ar = Some a -> d <= a)
  /\ (forall a s, fst ar = Some a -> snd ar = Some s -> a <= s)
  /\ (forall s, snd ar = Some s -> exists a, fst ar = Some a).

(** What one call of [_build_record] establishes, from the world [w] in
    which it starts to the world [w'] it leaves. *)
Record built {R : PyRandom} (clk : nat -> datetime) (index : Z) (w : World)
    (rf : IncidentRecord * bool) (w' : World) : Prop := {
  built_id : id (fst rf) = 1000 + index;
  built_category : In (category (fst rf)) CATEGORIES;
  built_severity : In (severity (fst rf)) SEVERITIES;
  built_status : In (status (fst rf)) STATUSES;
  built_order : temporal_order (fst rf);
  built_optional : optional_fields (fst rf) (snd rf);
  built_payload : payload_in_bounds (fst rf);
  built_consistent : category_consistent (fst rf);
  built_window : detected_window (clk (ticks w)) index (fst rf);
  built_valid : timestamps_valid (fst rf);
  built_impact : impact_rule (fst rf);
  built_draws : draws w' = (draws w + record_draws (fst rf) (snd rf))%nat;
  built_ticks : ticks w' = S (ticks w)
}.

(** Record [i] of a run is built at index [i], by a call that starts in a
    world in which the clock has been read [i] times. *)
Definition built_at {R : PyRandom} (clk : nat -> datetime) (i : nat) (rf : IncidentRecord * bool) : Prop :=
  exists w1 w2,
    ticks w1 = i
    /\ _build_record_flagged clk (Z.of_nat i) w1 = Ok (rf, w2)
    /\ built clk (Z.of_nat i) w1 rf w2.

(** The pair of optional timestamps moved by [delta]. *)
Definition retime_pair (delta : Z) (ar : option datetime * option datetime)
  : option datetime * option datetime :=
  (option_map (fun t => t + delta) (fst ar), option_map (fun t => t + delta) (snd ar)).

(** [retime_all] on records that carry their flag. *)
Fixpoint retime_flagged (c1 c2 : nat -> datetime) (i : nat)
    (rfs : list (IncidentRecord * bool)) : list (IncidentRecord * bool) :=
  match rfs with
  | [] => []
  | rf :: rfs' => (retime (c2 i - c1 i) (fst rf), snd rf) :: retime_flagged c1 c2 (S i) rfs'
  end.

(** ** The run of the default seed

    The first five records of [generate_dataset(size, RNG_SEED)] for
    [size >= 5], with CPython's generator: each is written from the clock
    reading [base] taken while it was built. *)

Definition record_1000 (base : datetime) : IncidentRecord := {|
  id := 1000;
  title := "Utilities infrastructure warning";
  category := "Utilities";
  severity := "medium";
  status := "open";
  detected_at := base - timedelta_minutes (59662 + 0 * 3);
  acknowledged_at := None;
  resolved_at := None;
  location := "Water Treatment Plant";
  description := "Generated from utilities SCADA monitoring.";
  impact := "Utility delivery stability under review.";
  root_cause := Some "Human error";
  sensor_measurement :=
    Sensor.mk "util-066" "Utilities" "warning"
      (base - timedelta_minutes (59662 + 0 * 3) - timedelta_minutes 12)
      [("chlorine_ppm", Float (fl 0.73)); ("ph", Float (fl 7.44))]
|}.

Definition record_1001 (base : datetime) : IncidentRecord := {|
  id := 1001;
  title := "Unauthorized access attempt";
  category := "Cybersecurity";
  severity := "high";
  status := "open";
  detected_at := base - timedelta_minutes (86212 + 1 * 3);
  acknowledged_at := None;
  resolved_at := None;
  location := "Civic Cloud Cluster";
  description := "Generated from perimeter security analytics.";
  impact := "Possible disruption to digital citizen services. Escalation priority elevated.";
  root_cause := Some "Weather related";
  sensor_measurement :=
    Sensor.mk "sec-509" "Cybersecurity" "alert"
      (base - timedelta_minutes (86212 + 1 * 3) - timedelta_minutes 9)
      [("failed_attempts", Int 416); ("unique_ips", Int 37)]
|}.

Definition record_1002 (base : datetime) : IncidentRecord := {|
  id := 1002;
  title := "Public safety anomaly";
  category := "Public Safety";
  severity := "medium";
  status := "acknowledged";
  detected_at := base - timedelta_minutes (42876 + 2 * 3);
  acknowledged_at :=
    Some (base - timedelta_minutes (42876 + 2 * 3) + timedelta_minutes 104);
  resolved_at := None;
  location := "Stadium District";
  description := "Generated from surveillance anomaly detection.";
  impact := "On-site response team recommended.";
  root_cause := Some "Network congestion";
  sensor_measurement :=
    Sensor.mk "ps-204" "Public Safety" "alert"
      (base - timedelta_minutes (42876 + 2 * 3) - timedelta_minutes 2)
      [("anomaly_score", Float (fl 0.55))]
|}.

Definition record_1003 (base : datetime) : IncidentRecord := {|
  id := 1003;
  title := "Utilities infrastructure warning";
  category := "Utilities";
  severity := "medium";
  status := "open";
  detected_at := base - timedelta_minutes (122039 + 3 * 3);
  acknowledged_at := None;
  resolved_at := None;
  location := "Waste Processing Hub";
  description := "Generated from utilities SCADA monitoring.";
  impact := "Utility delivery stability under review.";
  root_cause := Some "Network congestion";
  sensor_measurement :=
    Sensor.mk "util-082" "Utilities" "warning"
      (base - timedelta_minutes (122039 + 3 * 3) - timedelta_minutes 2)
      [("chlorine_ppm", Float (fl 1.59)); ("ph", Float (fl 7.88))]
|}.

Definition record_1004 (base : datetime) : IncidentRecord := {|
  id := 1004;
  title := "Utilities infrastructure warning";
  category := "Utilities";
  severity := "medium";
  status := "resolved";
  detected_at := base - timedelta_minutes (76937 + 4 * 3);
  acknowledged_at :=
    Some (base - timedelta_minutes (76937 + 4 * 3) + timedelta_minutes 77);
  resolved_at :=
    Some (base - timedelta_minutes (76937 + 4 * 3) + timedelta_minutes 77
          + timedelta_minutes 656);
  location := "Water Treatment Plant";
  description := "Generated from utilities SCADA monitoring.";
  impact := "Utility delivery stability under review.";
  root_cause := Some "Supply disruption";
  sensor_measurement :=
    Sensor.mk "util-082" "Utilities" "healthy"
      (base - timedelta_minutes (76937 + 4 * 3) - timedelta_minutes 3)
      [("chlorine_ppm", Float (fl 1.16)); ("ph", Float (fl 6.71))]
|}.

(** None of the five is a false positive. *)
Definition default_records (clk : nat -> datetime) : list (IncidentRecord * bool) :=
  [ (record_1000 (clk 0%nat), false); (record_1001 (clk 1%nat), false);
    (record_1002 (clk 2%nat), false); (record_1003 (clk 3%nat), false);
    (record_1004 (clk 4%nat), false) ].

(** The run of CPython's generator, with the flag that tells whether a
    rejection loop was cut short. *)
Definition run_cpython (clk : nat -> datetime) (size seed : Z)
  : result (list (IncidentRecord * bool) * bool) :=
  result_map (fun x => (fst x, MT19937.exhausted (gen (R := MT19937.python) (snd x))))
    (mapM (_build_record_flagged clk) (range size) (fresh seed)).

Definition stopped_clock (k : nat) : datetime := 0.

(** ** Further properties of a record, as predicates *)

(** [later] is [earlier] plus a whole number of minutes between [lo] and
    [hi]. *)
Definition whole_minutes (lo hi : Z) (earlier later : datetime) : Prop :=
  exists m, lo <= m <= hi /\ later = earlier + timedelta_minutes m.

(** The acknowledgement follows the detection, and the resolution the
    acknowledgement, by a delay within the bounds of the severity. *)
Definition response_times (severity : string) (d : datetime)
    (ar : option datetime * option datetime) : Prop :=
  (forall a, fst ar = Some a ->
     exists b, dict_lookup severity ack_bounds = Some b
               /\ whole_minutes (fst b) (snd b) d a)
  /\ (forall a s, fst ar = Some a -> snd ar = Some s ->
        exists b, dict_lookup severity res_bounds = Some b
                  /\ whole_minutes (fst b) (snd b) a s).

(** The three values that [_sensor_status] draws from. *)
Definition sensor_statuses : list string := ["healthy"; "warning"; "alert"].

(** A false positive never has its sensor in alert, nor has a record whose
    severity is none of critical, high and medium; a critical record that
    is no false positive never has it healthy. *)
Definition sensor_status_rule (severity : string) (false_positive : bool)
    (st : string) : Prop :=
  In st sensor_statuses
  /\ (false_positive = true -> st <> "alert")
  /\ (false_positive = false -> severity = "critical" -> st <> "healthy")
  /\ (false_positive = false -> severity <> "critical" -> severity <> "high" ->
      severity <> "medium" -> st <> "alert").

(** The keys of the payload of a category, in order, each with [true] for
    an int and [false] for a float. *)
Definition payload_shape (category : string) : list (string * bool) :=
  if (category =? "Traffic")%string then
    [("vehicle_count", true); ("avg_speed_kmh", false)]
  else if (category =? "Cybersecurity")%string then
    [("failed_attempts", true); ("unique_ips", true)]
  else if (category =? "Public Safety")%string then [("anomaly_score", false)]
  else if (category =? "Utilities")%string then [("chlorine_ppm", false); ("ph", false)]
  else [("pm2_5", false)].

Definition shape_of (p : dict number) : list (string * bool) :=
  map (fun kv => (fst kv, match snd kv with Int _ => true | Float _ => false end)) p.

(** What [_build_record] establishes about a record beyond [built]. *)
Record detailed (r : IncidentRecord) (false_positive : bool) : Prop := {
  detailed_title : dict_lookup (category r) TITLES = Some (title r);
  detailed_description : dict_lookup (category r) DESCRIPTIONS = Some (description r);
  detailed_root_cause : forall c, root_cause r = Some c -> In c ROOT_CAUSES;
  detailed_response :
    response_times (severity r) (detected_at r) (acknowledged_at r, resolved_at r);
  detailed_capture :
    whole_minutes 1 12 (Sensor.captured_at (sensor_measurement r)) (detected_at r);
  detailed_sensor :
    sensor_status_rule (severity r) false_positive
      (Sensor.status (sensor_measurement r));
  detailed_shape :
    shape_of (Sensor.payload (sensor_measurement r)) = payload_shape (category r)
}.

(** The record as it would be built [k] indices later: the id is [k]
    higher and the four timestamps are [3 k] minutes earlier. *)
Definition reindex (k : Z) (r : IncidentRecord) : IncidentRecord :=
  let r' := retime (- timedelta_minutes (k * 3)) r in
  mkIncidentRecord (id r + k) (title r') (category r') (severity r') (status r')
    (detected_at r') (acknowledged_at r') (resolved_at r') (location r')
    (description r') (impact r') (root_cause r') (sensor_measurement r').

(** ** Serialisation *)

(** The values of the dictionary that [to_dict] returns; [JIso d] is the
    string that [isoformat()] renders [d] to. *)
#[warnings="-register-all"]
Inductive json : Type :=
| JNull
| JInt (z : Z)
| JFloat (q : Q)
| JString (s : string)
| JIso (d : datetime)
| JObject (fields : list (string * json)).

Definition json_of_number (v : number) : json :=
  match v with
  | Int z => JInt z
  | Float q => JFloat q
  end.

Definition json_of_option {A : Type} (f : A -> json) (o : option A) : json :=
  match o with
  | Some a => f a
  | None => JNull
  end.

(** The measurement is a dictionary already; as a value of the record's
    dictionary it is that object. *)
Definition json_of_measurement (m : Sensor.t) : json :=
  JObject
    [ ("sensor_id", JString (Sensor.sensor_id m));
      ("type", JString (Sensor.type m));
      ("status", JString (Sensor.status m));
      ("captured_at", JIso (Sensor.captured_at m));
      ("payload",
        JObject (map (fun kv => (fst kv, json_of_number (snd kv))) (Sensor.payload m))) ].

Definition to_dict (r : IncidentRecord) : list (string * json) :=
  [ ("id", JInt (id r));
    ("title", JString (title r));
    ("category", JString (category r));
    ("severity", JString (severity r));
    ("status", JString (status r));
    ("detected_at", JIso (detected_at r));
    ("acknowledged_at", json_of_option JIso (acknowledged_at r));
    ("resolved_at", json_of_option JIso (resolved_at r));
    ("location", JString (location r));
    ("description", JString (description r));
    ("impact", JString (impact r));
    ("root_cause", json_of_option JString (root_cause r));
    ("sensor_measurement", json_of_measurement (sensor_measurement r)) ].

(** The list that [write_dataset] hands to [json.dump]. *)
Definition serialised (records : list IncidentRecord) : list (list (string * json)) :=
  map to_dict records.

(** ** Credentials

    [app/security.py].  The hashing functions are werkzeug's: a hash made
    by [generate_password_hash], with whatever salt, is accepted by
    [check_password_hash] for the password it was made from. *)

Module Security.

Class PasswordHasher : Type := {
  pwhash : Type;
  salt : Type;
  generate_password_hash : salt -> string -> pwhash;
  check_password_hash : pwhash -> string -> bool;
  check_generated :
    forall s password, check_password_hash (generate_password_hash s password) password = true
}.

(** The module's two globals: [os.getenv("APP_USERNAME")], which is [None]
    when the variable is unset, and the hash made when the module is
    loaded. *)
Record Config {H : PasswordHasher} : Type := {
  _DEFAULT_USERNAME : option string;
  _DEFAULT_PASSWORD_HASH : pwhash
}.

(** [username != _DEFAULT_USERNAME].  Either side is a [str] or [None]:
    the annotation [username: str] is not enforced, so a caller can pass
    [None], and [None != None] is [False]. *)
Definition differs (username configured : option string) : bool :=
  match username, configured with
  | Some u, Some v => negb (u =? v)%string
  | None, None => false
  | _, _ => true
  end.

Definition verify_credentials {H : PasswordHasher} (c : Config)
    (username : option string) (password : string) : bool :=
  if differs username (_DEFAULT_USERNAME c) then false
  else check_password_hash (_DEFAULT_PASSWORD_HASH c) password.

(** The module loaded with both variables set, the hash salted by [s]. *)
Definition loaded {H : PasswordHasher} (s : salt) (app_username app_password : string)
  : Config :=
  {| _DEFAULT_USERNAME := Some app_username;
     _DEFAULT_PASSWORD_HASH := generate_password_hash s app_password |}.

(** The module loaded with [APP_PASSWORD] set and [APP_USERNAME] unset. *)
Definition loaded_without_username {H : PasswordHasher} (s : salt)
    (app_password : string) : Config :=
  {| _DEFAULT_USERNAME := None;
     _DEFAULT_PASSWORD_HASH := generate_password_hash s app_password |}.

(** A hasher that keeps the password as its hash, to run the definitions
    on. *)
#[export] Instance plain : PasswordHasher := {|
  pwhash := string;
  salt := unit;
  generate_password_hash := fun _ password => password;
  check_password_hash := fun h password => (h =? password)%string;
  check_generated := fun _ password => String.eqb_refl password
|}.

End Security.

(** * Numbers *)

Lemma Qltb_lt (x y : Q) : Qltb x y = true <-> (x < y)%Q.
Proof.
  unfold Qltb. rewrite negb_true_iff. split.
  - intros H. apply Qnot_le_lt. intros Hle.
    apply Qle_bool_iff in Hle. congruence.
  - intros H. destruct (Qle_bool y x) eqn:E; [|reflexivity].
    apply Qle_bool_iff in E. exfalso. apply (Qlt_not_le _ _ H E).
Qed.

(** [fl] on values whose binary64 neighbours are known: the doubles that
    Python prints as 0.1, 0.5700000000000001 (the sum 0.18 + 0.39) and
    2.67 (which is [round(2.675, 2)]). *)
Example fl_tenth : fl 0.1 = 3602879701896397 # 36028797018963968.
Proof. vm_compute. reflexivity. Qed.

Example fl_sum : fl (fl 0.18 + fl 0.39) = 2567051787601183 # 4503599627370496.
Proof. vm_compute. reflexivity. Qed.

Example round_half_down : round (fl 2.675) 2 = 1503076375634903 # 562949953421312.
Proof. vm_compute. reflexivity. Qed.

Lemma pow2_pos (e : Z) : (0 < pow2 e)%Q.
Proof. apply Qpower_0_lt. reflexivity. Qed.

Lemma pow2_add (a b : Z) : (pow2 (a + b) == pow2 a * pow2 b)%Q.
Proof. apply Qpower_plus. discriminate. Qed.

Lemma pow2_nonneg_exp (a : Z) : 0 <= a -> (pow2 a == inject_Z (2 ^ a))%Q.
Proof. intros H. unfold pow2. rewrite Zpower_Qpower by exact H. reflexivity. Qed.

Lemma floor_log2_lower (x : Q) : (0 < x)%Q -> (pow2 (floor_log2 x) <= x)%Q.
Proof.
  intros Hx. unfold floor_log2.
  destruct (Qle_bool _ x) eqn:E; [apply Qle_bool_iff; exact E|].
  destruct x as [n d]. cbn [Qnum Qden].
  assert (Hn : 0 < n) by (unfold Qlt in Hx; cbn in Hx; lia).
  pose proof (Z.log2_spec n Hn) as [Ha _].
  pose proof (Z.log2_spec (Z.pos d) ltac:(lia)) as [_ Hb].
  pose proof (Z.log2_nonneg n) as Ha0.
  pose proof (Z.log2_nonneg (Z.pos d)) as Hb0.
  set (a := Z.log2 n) in *. set (b := Z.log2 (Z.pos d)) in *.
  replace (a - b - 1) with (a + - (b + 1)) by lia.
  rewrite pow2_add. unfold pow2 at 2. rewrite Qpower_opp.
  fold (pow2 (b + 1)). rewrite !pow2_nonneg_exp by lia.
  rewrite (Qmake_Qdiv n d).
  assert (Hp : 0 < 2 ^ (b + 1)) by (apply Z.pow_pos_nonneg; lia).
  replace (Z.succ b) with (b + 1) in Hb by lia.
  unfold Qdiv, Qmult, Qinv, Qle, inject_Z; cbn [Qnum Qden].
  destruct (2 ^ (b + 1)) as [|p|p] eqn:Ep; try lia.
  cbn [Qnum Qden]. nia.
Qed.

Lemma round_half_even_error (y : Q) :
  (y - (1 # 2) <= inject_Z (round_half_even y)
   /\ inject_Z (round_half_even y) <= y + (1 # 2))%Q.
Proof.
  unfold round_half_even.
  pose proof (Qfloor_le y) as Hlo. pose proof (Qlt_floor y) as Hhi.
  set (f := Qfloor y) in *.
  rewrite inject_Z_plus in Hhi. change (inject_Z 1) with 1%Q in Hhi.
  destruct (Qcompare (y - inject_Z f) (1 # 2)) eqn:C.
  - apply Qeq_alt in C.
    destruct (Z.even f); rewrite ?inject_Z_plus; change (inject_Z 1) with 1%Q;
      split; lra.
  - apply Qlt_alt in C. split; lra.
  - apply Qgt_alt in C. rewrite inject_Z_plus. change (inject_Z 1) with 1%Q.
    split; lra.
Qed.

Lemma round_half_even_mono (x y : Q) :
  (x <= y)%Q -> round_half_even x <= round_half_even y.
Proof.
  intros Hxy.
  pose proof (Qfloor_resp_le _ _ Hxy) as Hf.
  destruct (Z.eq_dec (Qfloor x) (Qfloor y)) as [E|E].
  - unfold round_half_even. rewrite <- E.
    set (f := Qfloor x) in *.
    destruct (Qcompare (x - inject_Z f) (1 # 2)) eqn:Cx;
      destruct (Qcompare (y - inject_Z f) (1 # 2)) eqn:Cy;
      try (destruct (Z.even f)); try lia;
      repeat match goal with
             | H : Qcompare _ _ = Eq |- _ => apply Qeq_alt in H
             | H : Qcompare _ _ = Lt |- _ => apply Qlt_alt in H
             | H : Qcompare _ _ = Gt |- _ => apply Qgt_alt in H
             end; lra.
  - assert (Hx : round_half_even x <= Qfloor x + 1).
    { unfold round_half_even. destruct (Qcompare _ _); [destruct (Z.even _)| |]; lia. }
    assert (Hy : Qfloor y <= round_half_even y).
    { unfold round_half_even. destruct (Qcompare _ _); [destruct (Z.even _)| |]; lia. }
    lia.
Qed.

(** The relative error of one rounding is at most [eps]. *)
Lemma fl_error (z : Q) :
  (0 <= z)%Q -> (z * (1 - eps) <= fl z /\ fl z <= z * (1 + eps))%Q.
Proof.
  intros Hz. unfold fl.
  assert (Heps : (eps == 1 # 9007199254740992)%Q) by reflexivity.
  pose proof (Qred_correct z) as Hzr.
  set (zr := Qred z) in *.
  rewrite Heps.
  destruct (Qeq_bool zr 0) eqn:E0.
  - apply Qeq_bool_iff in E0. split; lra.
  - apply Qeq_bool_neq in E0.
    assert (Hpos : (0 < zr)%Q).
    { destruct (Qlt_le_dec 0 zr) as [H|H]; [exact H|].
      exfalso. apply E0. lra. }
    assert (Hlog : (pow2 (floor_log2 (Qabs zr)) <= zr)%Q).
    { assert (Ha : (Qabs zr == zr)%Q) by (apply Qabs_pos; lra).
      pose proof (floor_log2_lower (Qabs zr) ltac:(rewrite Ha; exact Hpos)) as H.
      rewrite Ha in H at 2. exact H. }
    set (e := floor_log2 (Qabs zr)) in *.
    pose proof (pow2_pos (e - 52)) as Hulp.
    assert (Hsplit : (pow2 e == pow2 (e - 52) * pow2 52)%Q).
    { rewrite <- pow2_add. replace (e - 52 + 52) with e by lia. reflexivity. }
    assert (H52 : (pow2 52 == 4503599627370496)%Q) by reflexivity.
    set (ulp := pow2 (e - 52)) in *.
    pose proof (round_half_even_error (zr / ulp)) as [Hl Hu].
    rewrite Qred_correct.
    set (m := inject_Z (round_half_even (zr / ulp))) in *.
    assert (Hz' : (zr == zr / ulp * ulp)%Q) by (field; lra).
    assert (Hl' : ((zr / ulp - (1 # 2)) * ulp <= m * ulp)%Q)
      by (apply Qmult_le_compat_r; [exact Hl | lra]).
    assert (Hu' : (m * ulp <= (zr / ulp + (1 # 2)) * ulp)%Q)
      by (apply Qmult_le_compat_r; [exact Hu | lra]).
    rewrite Hsplit, H52 in Hlog.
    set (t := (zr / ulp)%Q) in *.
    split; lra.
Qed.

Lemma In_Zseq (lo hi r : Z) : lo <= r <= hi -> In r (Zseq lo hi).
Proof.
  intros H. unfold Zseq. apply in_map_iff.
  exists (Z.to_nat (r - lo)). split; [lia|].
  apply in_seq. lia.
Qed.

Lemma round_uniform_within (a b u : Q) (ndigits : Z) :
  float_range_ok a b ndigits = true ->
  (0 <= u)%Q -> (u < 1)%Q ->
  (a <= round (fl (a + fl (fl (b - a) * u))) ndigits
   /\ round (fl (a + fl (fl (b - a) * u))) ndigits <= b)%Q.
Proof.
  unfold float_range_ok. intros Hok Hu0 Hu1.
  apply andb_true_iff in Hok as [Hok Hall].
  apply andb_true_iff in Hok as [Hok Hn].
  apply andb_true_iff in Hok as [Ha Hab].
  apply Qle_bool_iff in Ha, Hab. apply Z.leb_le in Hn.
  assert (Heps : (eps == 1 # 9007199254740992)%Q) by reflexivity.
  pose proof (fl_error (b - a) ltac:(lra)) as [Hd1 Hd2].
  set (d := fl (b - a)) in *.
  assert (Hd0 : (0 <= d)%Q) by (rewrite Heps in Hd1; nra).
  assert (Hq : (0 <= d * u /\ d * u <= d)%Q) by (split; nra).
  pose proof (fl_error (d * u) ltac:(tauto)) as [Hp1 Hp2].
  set (p := fl (d * u)) in *.
  assert (Hp0 : (0 <= p)%Q) by (rewrite Heps in Hp1; nra).
  pose proof (fl_error (a + p) ltac:(lra)) as [Hx1 Hx2].
  unfold round. fold d. fold p.
  set (x := fl (a + p)) in *.
  assert (Hs : (0 < inject_Z (10 ^ ndigits))%Q).
  { change 0%Q with (inject_Z 0). rewrite <- Zlt_Qlt. apply Z.pow_pos_nonneg; lia. }
  set (s := inject_Z (10 ^ ndigits)) in *.
  assert (Hlo : (a * (1 - eps) * s <= x * s)%Q).
  { apply Qmult_le_compat_r; [|lra]. rewrite Heps in *. lra. }
  assert (Hhi : (x * s <= (a + d * (1 + eps)) * (1 + eps) * s)%Q).
  { apply Qmult_le_compat_r; [|lra]. rewrite Heps in *. nra. }
  apply round_half_even_mono in Hlo, Hhi.
  rewrite forallb_forall in Hall.
  specialize (Hall (round_half_even (x * s)) (In_Zseq _ _ _ (conj Hlo Hhi))).
  cbv zeta in Hall. apply andb_true_iff in Hall as [H1 H2].
  apply Qle_bool_iff in H1, H2. split; assumption.
Qed.


(** From here on [fl] is computed, never unfolded by a tactic. *)
Opaque fl.

(** * The binary search of [bisect] *)

Lemma bisect_loop_within (a : list Q) (x : Q) (fuel : nat) :
  forall lo hi,
    (lo <= hi)%nat -> (hi <= List.length a)%nat ->
    exists i, bisect_loop fuel a x lo hi = Ok i /\ (lo <= i <= hi)%nat.
Proof.
  induction fuel as [|fuel IH]; intros lo hi Hle Hlen; cbn [bisect_loop].
  - destruct (lo <? hi)%nat; exists lo; split; (reflexivity || lia).
  - destruct (Nat.ltb_spec lo hi) as [Hlt|Hge].
    + assert (Hmid : (lo <= (lo + hi) / 2 < hi)%nat).
      { split.
        - apply Nat.div_le_lower_bound; lia.
        - apply Nat.Div0.div_lt_upper_bound; lia. }
      destruct (nth_error a ((lo + hi) / 2)) as [a_mid|] eqn:E.
      * destruct (Qltb x a_mid).
        -- destruct (IH lo ((lo + hi) / 2)%nat) as (i & Hi & ?); [lia|lia|].
           exists i. split; [exact Hi | lia].
        -- destruct (IH ((lo + hi) / 2 + 1)%nat hi) as (i & Hi & ?); [lia|lia|].
           exists i. split; [exact Hi | lia].
      * apply nth_error_None in E. lia.
    + exists lo. split; [reflexivity | lia].
Qed.

(** The fuel [hi - lo] is enough: with it, or with any more, the loop ends
    by its own test, at the same index. *)
Lemma bisect_loop_fuel (a : list Q) (x : Q) (fuel : nat) :
  forall lo hi extra,
    (hi - lo <= fuel)%nat ->
    bisect_loop (fuel + extra) a x lo hi = bisect_loop fuel a x lo hi.
Proof.
  induction fuel as [|fuel IH]; intros lo hi extra Hf.
  - cbn [bisect_loop Nat.add]. destruct extra; cbn [bisect_loop];
      destruct (Nat.ltb_spec lo hi); try reflexivity; lia.
  - cbn [bisect_loop Nat.add]. destruct (Nat.ltb_spec lo hi) as [Hlt|Hge]; [|reflexivity].
    assert (Hmid : (lo <= (lo + hi) / 2 < hi)%nat).
    { split.
      - apply Nat.div_le_lower_bound; lia.
      - apply Nat.Div0.div_lt_upper_bound; lia. }
    assert (Hhalf : (2 * ((lo + hi) / 2) <= lo + hi < 2 * ((lo + hi) / 2) + 2)%nat).
    { pose proof (Nat.div_mod_eq (lo + hi) 2) as Hd.
      pose proof (Nat.mod_upper_bound (lo + hi) 2). lia. }
    destruct (nth_error a ((lo + hi) / 2)); [|reflexivity].
    destruct (Qltb x _); apply IH; lia.
Qed.

(** * Triples *)

Section Triples.

Context {R : PyRandom}.

Lemma returns_ret {A : Type} (a : A) (w : World) (post : A -> World -> Prop) :
  post a w -> returns (ret a) w post.
Proof. intros H. exists a, w. split; [reflexivity | exact H]. Qed.

Lemma returns_bind {A B : Type} (m : M A) (k : A -> M B) (w : World)
    (post : B -> World -> Prop) :
  returns m w (fun a w1 => returns (k a) w1 post) -> returns (bind m k) w post.
Proof.
  intros (a & w1 & Hm & b & w2 & Hk & Hpost).
  exists b, w2. split; [|exact Hpost].
  unfold bind. rewrite Hm. exact Hk.
Qed.

Lemma returns_weaken {A : Type} (m : M A) (w : World) (post post' : A -> World -> Prop) :
  returns m w post -> (forall a w', post a w' -> post' a w') -> returns m w post'.
Proof. intros (a & w' & Hm & Hp) Himp. exists a, w'. split; auto. Qed.

Lemma returns_unique {A : Type} (m : M A) (w : World) (post : A -> World -> Prop)
    (a : A) (w' : World) :
  returns m w post -> m w = Ok (a, w') -> post a w'.
Proof. intros (a0 & w0 & Hm & Hp) E. rewrite E in Hm. injection Hm as <- <-. exact Hp. Qed.

Lemma advance_refl (w : World) : advance 0 0 w w.
Proof. unfold advance. lia. Qed.

Lemma advance_trans (d1 t1 d2 t2 : nat) (w w1 w2 : World) :
  advance d1 t1 w w1 -> advance d2 t2 w1 w2 -> advance (d1 + d2) (t1 + t2) w w2.
Proof. unfold advance. lia. Qed.

(** Run the next call of a [bind] with its triple [spec]. *)
Ltac run spec :=
  apply returns_bind; eapply returns_weaken; [eapply spec | cbv beta].

Lemma outcome_ret {A : Type} (safe : Prop) (a : A) (w : World)
    (post : A -> World -> Prop) :
  post a w -> outcome safe (ret a) w post.
Proof. intros H. exact H. Qed.

Lemma outcome_returns {A : Type} (safe : Prop) (m : M A) (w : World)
    (post : A -> World -> Prop) :
  returns m w post -> outcome safe m w post.
Proof. intros (a & w' & E & H). unfold outcome. rewrite E. exact H. Qed.

Lemma outcome_bind {A B : Type} (safe : Prop) (m : M A) (k : A -> M B) (w : World)
    (post : B -> World -> Prop) :
  outcome safe m w (fun a w1 => outcome safe (k a) w1 post) ->
  outcome safe (bind m k) w post.
Proof. unfold outcome, bind. destruct (m w) as [[a w1]|e]; intros H; exact H. Qed.

Lemma outcome_weaken {A : Type} (safe : Prop) (m : M A) (w : World)
    (post post' : A -> World -> Prop) :
  outcome safe m w post -> (forall a w', post a w' -> post' a w') ->
  outcome safe m w post'.
Proof. unfold outcome. destruct (m w) as [[a w1]|e]; intros H Himp; auto. Qed.

Lemma outcome_safety {A : Type} (safe safe' : Prop) (m : M A) (w : World)
    (post : A -> World -> Prop) :
  (safe' -> safe) -> outcome safe m w post -> outcome safe' m w post.
Proof.
  unfold outcome. destruct (m w) as [[a w1]|e]; intros Hs H; [exact H|].
  destruct H as [He Hn]. split; [exact He | auto].
Qed.

Lemma outcome_Ok {A : Type} (safe : Prop) (m : M A) (w : World)
    (post : A -> World -> Prop) (a : A) (w' : World) :
  outcome safe m w post -> m w = Ok (a, w') -> post a w'.
Proof. unfold outcome. intros H E. rewrite E in H. exact H. Qed.

Lemma outcome_Raise {A : Type} (safe : Prop) (m : M A) (w : World)
    (post : A -> World -> Prop) (e : exn) :
  outcome safe m w post -> m w = Raise e -> e = OverflowError /\ ~ safe.
Proof. unfold outcome. intros H E. rewrite E in H. exact H. Qed.

Lemma outcome_safe {A : Type} (safe : Prop) (m : M A) (w : World)
    (post : A -> World -> Prop) :
  outcome safe m w post -> safe -> returns m w post.
Proof.
  unfold outcome, returns. destruct (m w) as [[a w1]|e]; intros H Hs.
  - exists a, w1. split; [reflexivity | exact H].
  - destruct H as [_ Hn]. contradiction (Hn Hs).
Qed.

(** The rule of [bind] that keeps the equation of the first call. *)
Lemma outcome_bind_eq {A B : Type} (safe safe1 : Prop) (m : M A) (k : A -> M B)
    (w : World) (post1 : A -> World -> Prop) (post : B -> World -> Prop) :
  outcome safe1 m w post1 -> (safe -> safe1) ->
  (forall a w1, m w = Ok (a, w1) -> post1 a w1 -> outcome safe (k a) w1 post) ->
  outcome safe (bind m k) w post.
Proof.
  unfold outcome at 1 3. unfold bind.
  destruct (m w) as [[a w1]|e]; intros H Hs Hk.
  - exact (Hk a w1 eq_refl H).
  - destruct H as [He Hn]. split; [exact He | auto].
Qed.

(** Run the next call of a [bind]: [step] with the triple of a call that
    always returns, [checked] with the triple of one that can overflow. *)
Ltac step spec :=
  apply outcome_bind; eapply outcome_weaken;
  [apply outcome_returns; eapply spec | cbv beta].

Ltac checked spec :=
  apply outcome_bind; eapply outcome_weaken; [eapply spec | cbv beta].

(** *** Date arithmetic *)

Lemma timedelta_Ok (minutes : Z) :
  -1439999998560 <= minutes <= 1439999998560 ->
  timedelta minutes = Ok (timedelta_minutes minutes).
Proof.
  intros H. unfold timedelta. cbv zeta. change (24 * 60) with 1440.
  assert (Hd : -999999999 <= minutes / 1440 <= 999999999).
  { split; [apply Z.div_le_lower_bound | apply Z.div_le_upper_bound]; lia. }
  destruct Hd as [H1 H2]. apply Z.leb_le in H1, H2. rewrite H1, H2. reflexivity.
Qed.

Lemma timedelta_value (minutes delta : Z) :
  timedelta minutes = Ok delta -> delta = timedelta_minutes minutes.
Proof.
  unfold timedelta. cbv zeta. destruct (_ && _); [|discriminate].
  intros [= <-]. reflexivity.
Qed.

Lemma datetime_add_value (d delta r : Z) :
  datetime_add d delta = Ok r -> r = d + delta /\ is_datetime r.
Proof.
  unfold datetime_add, is_datetime. cbv zeta.
  destruct (_ && _) eqn:E; [|discriminate].
  intros [= <-]. apply andb_true_iff in E as [E1 E2].
  apply Z.leb_le in E1, E2. auto.
Qed.

Lemma datetime_sub_value (d delta r : Z) :
  datetime_sub d delta = Ok r -> r = d - delta /\ is_datetime r.
Proof.
  unfold datetime_sub. intros H. apply datetime_add_value in H as [-> H].
  split; [lia | exact H].
Qed.

Lemma datetime_add_Ok (d delta : Z) :
  is_datetime (d + delta) -> datetime_add d delta = Ok (d + delta).
Proof.
  unfold datetime_add, is_datetime. cbv zeta. intros [H1 H2].
  apply Z.leb_le in H1, H2. rewrite H1, H2. reflexivity.
Qed.

Lemma outcome_timedelta (safe : Prop) (minutes : Z) (w : World) :
  (safe -> -1439999998560 <= minutes <= 1439999998560) ->
  outcome safe (lift (timedelta minutes)) w
    (fun delta w' => delta = timedelta_minutes minutes /\ w' = w).
Proof.
  intros Hs. unfold outcome, lift.
  destruct (timedelta minutes) as [delta|e] eqn:E.
  - apply timedelta_value in E. auto.
  - unfold timedelta in E. cbv zeta in E.
    destruct (_ && _) eqn:C; [discriminate E|]. injection E as <-.
    split; [reflexivity|]. intros H. apply Hs, timedelta_Ok in H.
    unfold timedelta in H. cbv zeta in H. rewrite C in H. discriminate H.
Qed.

Lemma outcome_datetime_add (safe : Prop) (d delta : Z) (w : World) :
  (safe -> is_datetime (d + delta)) ->
  outcome safe (lift (datetime_add d delta)) w
    (fun r w' => r = d + delta /\ is_datetime r /\ w' = w).
Proof.
  intros Hs. unfold outcome, lift.
  destruct (datetime_add d delta) as [r|e] eqn:E.
  - apply datetime_add_value in E as [-> H]. auto.
  - unfold datetime_add in E. cbv zeta in E.
    destruct (_ && _) eqn:C; [discriminate E|]. injection E as <-.
    split; [reflexivity|]. intros H. apply Hs, datetime_add_Ok in H.
    unfold datetime_add in H. cbv zeta in H. rewrite C in H. discriminate H.
Qed.

Lemma outcome_datetime_sub (safe : Prop) (d delta : Z) (w : World) :
  (safe -> is_datetime (d - delta)) ->
  outcome safe (lift (datetime_sub d delta)) w
    (fun r w' => r = d - delta /\ is_datetime r /\ w' = w).
Proof.
  intros Hs. unfold datetime_sub.
  eapply outcome_weaken; [apply outcome_datetime_add; exact Hs|].
  cbv beta. intros r w' (-> & H & ->). auto.
Qed.

Lemma returns_dict_get {V : Type} (key : string) (d : dict V) (v : V) (w : World) :
  dict_lookup key d = Some v ->
  returns (dict_get key d) w (fun x w' => x = v /\ w' = w).
Proof. intros H. unfold dict_get. rewrite H. apply returns_ret. auto. Qed.

Lemma returns_randbelow (n : Z) (w : World) :
  0 < n -> returns (rng_randbelow n) w (fun r w' => 0 <= r < n /\ advance 1 0 w w').
Proof.
  intros Hn. unfold returns, rng_randbelow.
  pose proof (randbelow_range n (gen w) Hn) as Hr.
  destruct (randbelow n (gen w)) as [r g]. cbn [fst] in Hr.
  exists r, (mkWorld g (S (draws w)) (ticks w)).
  split; [reflexivity|]. split; [exact Hr|]. unfold advance. cbn. lia.
Qed.

Lemma returns_random (w : World) :
  returns rng_random w (fun u w' => (0 <= u /\ u < 1)%Q /\ advance 1 0 w w').
Proof.
  unfold returns, rng_random.
  pose proof (random_range (gen w)) as Hr.
  destruct (random (gen w)) as [u g]. cbn [fst] in Hr.
  exists u, (mkWorld g (S (draws w)) (ticks w)).
  split; [reflexivity|]. split; [exact Hr|]. unfold advance. cbn. lia.
Qed.

Lemma returns_choice {A : Type} (seq : list A) (w : World) :
  seq <> [] -> returns (choice seq) w (fun x w' => In x seq /\ advance 1 0 w w').
Proof.
  intros Hne. unfold choice.
  destruct seq as [|x0 seq0]; [congruence|].
  set (seq := x0 :: seq0) in *.
  replace (List.length seq =? 0)%nat with false by reflexivity.
  run returns_randbelow.
  - unfold seq. cbn [List.length]. lia.
  - intros r w' [Hr Hadv].
    destruct (nth_error seq (Z.to_nat r)) as [x|] eqn:E.
    + apply returns_ret. split; [|exact Hadv]. eapply nth_error_In. exact E.
    + apply nth_error_None in E. lia.
Qed.

Lemma returns_randint (a b : Z) (w : World) :
  a <= b -> returns (randint a b) w (fun r w' => a <= r <= b /\ advance 1 0 w w').
Proof.
  intros Hab. unfold randint, randrange.
  destruct (Z.ltb_spec 0 (b + 1 - a)); [|lia].
  run returns_randbelow; [lia|].
  intros r w' [Hr Hadv]. apply returns_ret. split; [lia | exact Hadv].
Qed.

Lemma returns_uniform (a b : Q) (w : World) :
  returns (uniform a b) w
    (fun x w' =>
       (exists u, (0 <= u /\ u < 1)%Q /\ x = fl (a + fl (fl (b - a) * u)))
       /\ advance 1 0 w w').
Proof.
  unfold uniform.
  run returns_random.
  intros u w' [Hu Hadv]. apply returns_ret. split; [|exact Hadv].
  exists u. split; [exact Hu | reflexivity].
Qed.

Lemma returns_choices {A : Type} (population : list A) (weights : list Q) (w : World) :
  choices_defined population weights = true ->
  returns (choices population weights) w
    (fun x w' => In x population /\ advance 1 0 w w').
Proof.
  unfold choices_defined, choices. intros Hdef.
  apply andb_true_iff in Hdef as [Hlen Htot].
  rewrite Hlen. cbn [negb].
  apply Nat.eqb_eq in Hlen.
  destruct (rev (accumulate weights)) as [|last rest] eqn:Erev; [discriminate|].
  apply negb_true_iff in Htot. cbv zeta. rewrite Htot.
  assert (Hpos : (0 < List.length population)%nat).
  { rewrite <- Hlen, <- length_rev, Erev. cbn. lia. }
  run returns_random.
  intros u w' [_ Hadv].
  apply returns_bind.
  destruct (bisect_loop_within (accumulate weights) (fl (u * fl (last + 0.0)))
              (List.length population - 1 - 0) 0 (List.length population - 1))
    as (i & Hi & Hrange); [lia|lia|].
  unfold bisect, lift. rewrite Hi.
  exists i, w'. split; [reflexivity|].
  destruct (nth_error population i) as [x|] eqn:E.
  - apply returns_ret. split; [|exact Hadv]. eapply nth_error_In. exact E.
  - apply nth_error_None in E. lia.
Qed.

Lemma returns_now (clk : nat -> datetime) (w : World) :
  returns (now clk) w (fun d w' => d = clk (ticks w) /\ advance 0 1 w w').
Proof.
  exists (clk (ticks w)), (mkWorld (gen w) (draws w) (S (ticks w))).
  split; [reflexivity|]. split; [reflexivity|]. unfold advance. cbn. lia.
Qed.

(** ** The functions of the module *)

Ltac each_member H :=
  repeat (destruct H as [<- | H]); [.. | contradiction H].

Lemma returns_pick_severity (category : string) (w : World) :
  In category CATEGORIES ->
  returns (_pick_severity category) w
    (fun s w' => In s SEVERITIES /\ advance 1 0 w w').
Proof.
  intros Hc. unfold _pick_severity.
  each_member Hc;
    (run @returns_dict_get; [reflexivity|];
     intros ws w' [-> ->]; apply returns_choices; vm_compute; reflexivity).
Qed.

Lemma returns_pick_status (severity : string) (w : World) :
  In severity SEVERITIES ->
  returns (_pick_status severity) w
    (fun s w' => In s STATUSES /\ advance 1 0 w w').
Proof.
  intros Hs. unfold _pick_status.
  each_member Hs;
    (run @returns_dict_get; [reflexivity|];
     intros ws w' [-> ->]; apply returns_choices; vm_compute; reflexivity).
Qed.

(** [_detected_at] returns a datetime of the window; it overflows only
    with a reading that is out of range for the index. *)
Lemma outcome_detected_at (safe : Prop) (clk : nat -> datetime) (index : Z) (w : World) :
  (safe -> reading_in_range index (clk (ticks w))) ->
  outcome safe (_detected_at clk index) w
    (fun d w' =>
       (exists m, 0 <= m <= 90 * 24 * 60
                  /\ d = clk (ticks w) - timedelta_minutes (m + index * 3))
       /\ is_datetime d
       /\ advance 1 1 w w').
Proof.
  intros Hsafe. unfold _detected_at.
  step returns_randint; [lia|].
  intros m w1 [Hm Hadv1].
  step returns_now.
  intros base w2 [-> Hadv2].
  assert (Ht : ticks w1 = ticks w) by (destruct Hadv1; lia).
  rewrite Ht.
  checked outcome_timedelta.
  { intros Hs. apply Hsafe in Hs.
    unfold reading_in_range, timedelta_minutes, datetime_min, datetime_max in Hs. lia. }
  intros delta w3 [-> ->].
  eapply outcome_weaken.
  { apply outcome_datetime_sub. intros Hs. apply Hsafe in Hs.
    unfold reading_in_range, is_datetime, timedelta_minutes, datetime_min,
      datetime_max in *. lia. }
  cbv beta. intros d w3 (-> & Hd & ->).
  split; [exists m; split; [lia | reflexivity]|]. split; [exact Hd|].
  unfold advance in *. lia.
Qed.

Lemma timedelta_minutes_nonneg (m : Z) : 0 <= m -> 0 <= timedelta_minutes m.
Proof. unfold timedelta_minutes. lia. Qed.

Lemma timedelta_minutes_pos (m : Z) : 0 < m -> 0 < timedelta_minutes m.
Proof. unfold timedelta_minutes. lia. Qed.

(** [_acknowledged_and_resolved] overflows only when the detection time
    is no datetime or is within 30 hours of [datetime.max]. *)
Lemma outcome_acknowledged_and_resolved (safe : Prop) (status severity : string)
    (d : datetime) (w : World) :
  In status STATUSES -> In severity SEVERITIES ->
  (safe -> datetime_min <= d /\ d + timedelta_minutes (360 + 1440) <= datetime_max) ->
  outcome safe (_acknowledged_and_resolved status severity d) w
    (fun ar w' => acknowledged_resolved status d ar
                  /\ (forall a, fst ar = Some a -> is_datetime a)
                  /\ (forall s, snd ar = Some s -> is_datetime s)
                  /\ advance (status_draws status) 0 w w').
Proof.
  intros Hst Hsev Hsafe. unfold _acknowledged_and_resolved, isoformat.
  each_member Hst; cbn [String.eqb Ascii.eqb Bool.eqb].
  - apply outcome_ret. cbn [fst snd].
    split; [|split; [discriminate | split; [discriminate | apply advance_refl]]].
    unfold acknowledged_resolved. cbn [fst snd].
    repeat split; try congruence; try (intros [E|E]; discriminate E).
  - each_member Hsev;
      (step @returns_dict_get; [reflexivity|];
       intros [ack_min ack_max] w0 [[= -> ->] ->];
       step returns_randint; [lia|];
       intros m w1 [Hm Hadv];
       checked outcome_timedelta; [intros _; lia|];
       intros delta w1' [-> ->];
       checked outcome_datetime_add;
         [intros Hs; apply Hsafe in Hs; unfold is_datetime, timedelta_minutes in *; lia|];
       intros a w1' (-> & Ha & ->);
       apply outcome_ret; cbn [fst snd];
       pose proof (timedelta_minutes_nonneg m ltac:(lia));
       split; [|split; [intros a [= <-]; exact Ha
                       |split; [discriminate | exact Hadv]]];
       unfold acknowledged_resolved; cbn [fst snd];
       repeat split; try congruence; try (intros; discriminate); auto;
       intros a [= <-]; lia).
  - each_member Hsev;
      (step @returns_dict_get; [reflexivity|];
       intros [ack_min ack_max] w0 [[= -> ->] ->];
       step returns_randint; [lia|];
       intros m w1 [Hm Hadv1];
       checked outcome_timedelta; [intros _; lia|];
       intros delta w1' [-> ->];
       checked outcome_datetime_add;
         [intros Hs; apply Hsafe in Hs; unfold is_datetime, timedelta_minutes in *; lia|];
       intros a w1' (-> & Ha & ->);
       step @returns_dict_get; [reflexivity|];
       intros [res_min res_max] w0 [[= -> ->] ->];
       step returns_randint; [lia|];
       intros m2 w2 [Hm2 Hadv2];
       checked outcome_timedelta; [intros _; lia|];
       intros delta w2' [-> ->];
       checked outcome_datetime_add;
         [intros Hs; apply Hsafe in Hs; unfold is_datetime, timedelta_minutes in *; lia|];
       intros r w2' (-> & Hr & ->);
       apply outcome_ret; cbn [fst snd];
       pose proof (timedelta_minutes_nonneg m ltac:(lia));
       pose proof (timedelta_minutes_nonneg m2 ltac:(lia));
       split; [|split; [intros a [= <-]; exact Ha
                       |split; [intros r [= <-]; exact Hr
                               |apply (advance_trans 1 0 1 0 w w1 w2); assumption]]];
       unfold acknowledged_resolved; cbn [fst snd];
       repeat split; try congruence; try (intros; discriminate); auto;
       [intros a [= <-]; lia | intros a s [= <-] [= <-]; lia | eauto]).
Qed.

Lemma returns_root_cause (severity : string) (false_positive : bool) (w : World) :
  returns (_root_cause severity false_positive) w
    (fun rc w' => (rc = None <-> false_positive = true)
                  /\ advance (if false_positive then 0 else 1) 0 w w').
Proof.
  unfold _root_cause. destruct false_positive.
  - apply returns_ret. split; [tauto | apply advance_refl].
  - run @returns_choice; [discriminate|].
    intros c w' [_ Hadv]. apply returns_ret. split; [|exact Hadv].
    split; discriminate.
Qed.

Lemma returns_choose_location (category : string) (w : World) :
  In category CATEGORIES ->
  returns (_choose_location category) w
    (fun l w' =>
       (exists locations,
           dict_lookup category LOCATIONS = Some locations /\ In l locations)
       /\ advance 1 0 w w').
Proof.
  intros Hc. unfold _choose_location.
  each_member Hc;
    (run @returns_dict_get; [reflexivity|];
     intros locations w0 [-> ->];
     eapply returns_weaken; [eapply returns_choice; discriminate|];
     intros l w' [Hl Hadv]; split; [|apply Hadv];
     eexists; split; [reflexivity | exact Hl]).
Qed.

Lemma returns_choose_title (category : string) (w : World) :
  In category CATEGORIES ->
  returns (_choose_title category) w (fun _ w' => w' = w).
Proof.
  intros Hc. unfold _choose_title.
  each_member Hc;
    (eapply returns_weaken; [eapply returns_dict_get; reflexivity|];
     intros ? ? [_ ->]; reflexivity).
Qed.

Lemma returns_choose_description (category : string) (w : World) :
  In category CATEGORIES ->
  returns (_choose_description category) w (fun _ w' => w' = w).
Proof.
  intros Hc. unfold _choose_description.
  each_member Hc;
    (eapply returns_weaken; [eapply returns_dict_get; reflexivity|];
     intros ? ? [_ ->]; reflexivity).
Qed.

Lemma length_append (s1 s2 : string) :
  String.length (s1 ++ s2) = (String.length s1 + String.length s2)%nat.
Proof. induction s1 as [|c s1 IH]; cbn; [reflexivity | rewrite IH; reflexivity]. Qed.

Lemma escalated_differs (base : string) :
  base ++ " Escalation priority elevated." <> base.
Proof.
  intros E. apply (f_equal String.length) in E.
  rewrite length_append in E. cbn in E. lia.
Qed.

Lemma returns_choose_impact (category severity : string) (w : World) :
  In category CATEGORIES -> In severity SEVERITIES ->
  returns (_choose_impact category severity) w
    (fun s w' =>
       (exists base,
           dict_lookup category IMPACTS = Some base
           /\ (s = base <-> low_or_medium severity)
           /\ (s = base ++ " Escalation priority elevated."
               <-> high_or_critical severity))
       /\ w' = w).
Proof.
  intros Hc Hsev. unfold _choose_impact.
  assert (Hbase : exists base, dict_lookup category IMPACTS = Some base).
  { each_member Hc; eexists; reflexivity. }
  destruct Hbase as [base Hbase].
  run @returns_dict_get; [exact Hbase|].
  intros b w0 [-> ->].
  pose proof (escalated_differs base) as Hd.
  unfold low_or_medium, high_or_critical.
  each_member Hsev; cbn [existsb String.eqb Ascii.eqb Bool.eqb orb];
    (apply returns_ret; split; [|reflexivity];
     exists base; split; [exact Hbase|];
     split; split; intros H; auto; try congruence;
     destruct H as [H|H]; discriminate H).
Qed.

Lemma returns_sensor_status (severity : string) (false_positive : bool) (w : World) :
  returns (_sensor_status severity false_positive) w
    (fun _ w' => advance 1 0 w w').
Proof.
  unfold _sensor_status.
  destruct false_positive; [|destruct (severity =? "critical")%string;
    [|destruct (severity =? "high")%string;
      [|destruct (severity =? "medium")%string]]];
    (eapply returns_weaken; [apply returns_choices; vm_compute; reflexivity|];
     intros ? ? [_ H]; exact H).
Qed.
Lemma int_within (a b v : Z) : a <= v <= b -> within (Int v) (Zrange (a, b)).
Proof.
  intros H. unfold within, Zrange. cbn [fst snd number_value].
  rewrite <- !Zle_Qle. exact H.
Qed.

Lemma float_within (a b x : Q) (ndigits : Z) :
  float_range_ok a b ndigits = true ->
  (exists u, (0 <= u /\ u < 1)%Q /\ x = fl (a + fl (fl (b - a) * u))) ->
  within (Float (round x ndigits)) (a, b).
Proof.
  intros Hok (u & [Hu0 Hu1] & ->). unfold within. cbn [fst snd number_value].
  apply round_uniform_within; assumption.
Qed.

(** A field whose bounds a table registers. *)
Ltac table_field :=
  left; eexists; split; [reflexivity|]; cbn [fst snd];
  lazymatch goal with
  | |- within (Int _) _ => apply int_within; assumption
  | |- within (Float _) _ => apply float_within; [vm_compute; reflexivity | assumption]
  end.

Lemma returns_traffic_payload (severity : string) (w : World) :
  In severity SEVERITIES ->
  returns (_traffic_payload severity) w
    (fun p w' => Forall (field_in_bounds "Traffic" severity) p /\ advance 2 0 w w').
Proof.
  intros Hsev. unfold _traffic_payload.
  each_member Hsev;
    (run @returns_dict_get; [reflexivity|];
     intros bounds w0 [-> ->]; cbn [vehicle_count avg_speed_kmh fst snd];
     run returns_randint; [lia|];
     intros v w1 [Hv Hadv1];
     run returns_uniform;
     intros u w2 [Hu Hadv2];
     apply returns_ret; split;
       [|apply (advance_trans 1 0 1 0 w w1 w2); assumption];
     repeat apply Forall_cons; [table_field | table_field | apply Forall_nil]).
Qed.

Lemma returns_cyber_payload (severity : string) (w : World) :
  In severity SEVERITIES ->
  returns (_cyber_payload severity) w
    (fun p w' => Forall (field_in_bounds "Cybersecurity" severity) p
                 /\ advance 2 0 w w').
Proof.
  intros Hsev. unfold _cyber_payload.
  each_member Hsev;
    (run @returns_dict_get; [reflexivity|];
     intros bounds w0 [-> ->]; cbn [failed_attempts unique_ips fst snd];
     run returns_randint; [lia|];
     intros v w1 [Hv Hadv1];
     run returns_randint; [lia|];
     intros u w2 [Hu Hadv2];
     apply returns_ret; split;
       [|apply (advance_trans 1 0 1 0 w w1 w2); assumption];
     repeat apply Forall_cons; [table_field | table_field | apply Forall_nil]).
Qed.

Lemma returns_public_safety_payload (severity : string) (w : World) :
  In severity SEVERITIES ->
  returns (_public_safety_payload severity) w
    (fun p w' => Forall (field_in_bounds "Public Safety" severity) p
                 /\ advance 1 0 w w').
Proof.
  intros Hsev. unfold _public_safety_payload.
  each_member Hsev;
    (run @returns_dict_get; [reflexivity|];
     intros lohi w0 [-> ->]; cbv beta iota;
     run returns_uniform;
     intros u w1 [Hu Hadv1];
     apply returns_ret; split; [|exact Hadv1];
     repeat apply Forall_cons; [table_field | apply Forall_nil]).
Qed.

Lemma returns_utilities_payload (severity : string) (w : World) :
  In severity SEVERITIES ->
  returns (_utilities_payload severity) w
    (fun p w' => Forall (field_in_bounds "Utilities" severity) p
                 /\ advance 2 0 w w').
Proof.
  intros Hsev. unfold _utilities_payload.
  each_member Hsev;
    (run @returns_dict_get; [reflexivity|];
     intros lohi w0 [-> ->]; cbv beta iota;
     run returns_uniform;
     intros u w1 [Hu Hadv1];
     run returns_uniform;
     intros v w2 [Hv Hadv2];
     apply returns_ret; split;
       [|apply (advance_trans 1 0 1 0 w w1 w2); assumption];
     repeat apply Forall_cons; [table_field | | apply Forall_nil];
     right; split; [reflexivity|]; split; [reflexivity|]; cbn [fst snd];
     apply float_within; [vm_compute; reflexivity | assumption]).
Qed.

Lemma returns_environmental_payload (category severity : string) (w : World) :
  category = "Environmental" -> In severity SEVERITIES ->
  returns (_environmental_payload severity) w
    (fun p w' => Forall (field_in_bounds category severity) p /\ advance 1 0 w w').
Proof.
  intros -> Hsev. unfold _environmental_payload.
  each_member Hsev;
    (run @returns_dict_get; [reflexivity|];
     intros lohi w0 [-> ->]; cbv beta iota;
     run returns_uniform;
     intros u w1 [Hu Hadv1];
     apply returns_ret; split; [|exact Hadv1];
     repeat apply Forall_cons; [table_field | apply Forall_nil]).
Qed.

Lemma returns_sensor_payload (category severity : string) (w : World) :
  In category CATEGORIES -> In severity SEVERITIES ->
  returns (_sensor_payload category severity) w
    (fun p w' => Forall (field_in_bounds category severity) p
                 /\ advance (payload_draws category) 0 w w').
Proof.
  intros Hc Hsev. unfold _sensor_payload, payload_draws.
  each_member Hc; cbn [String.eqb Ascii.eqb Bool.eqb].
  - apply returns_traffic_payload; assumption.
  - apply returns_cyber_payload; assumption.
  - apply returns_public_safety_payload; assumption.
  - apply returns_utilities_payload; assumption.
  - apply returns_environmental_payload; [reflexivity | assumption].
Qed.

(** [_sensor_measurement] overflows only when it is asked to capture
    within 12 minutes of [datetime.min]. *)
Lemma outcome_sensor_measurement (safe : Prop) (category severity : string)
    (d : datetime) (false_positive : bool) (w : World) :
  In category CATEGORIES -> In severity SEVERITIES ->
  (safe -> datetime_min + timedelta_minutes 12 <= d /\ d <= datetime_max) ->
  outcome safe (_sensor_measurement category severity d false_positive) w
    (fun m w' =>
       (Sensor.type m = category
        /\ (exists ids, dict_lookup category SENSOR_IDS = Some ids
                        /\ In (Sensor.sensor_id m) ids)
        /\ Sensor.captured_at m < d
        /\ is_datetime (Sensor.captured_at m)
        /\ Forall (field_in_bounds category severity) (Sensor.payload m))
       /\ advance (3 + payload_draws category) 0 w w').
Proof.
  intros Hc Hsev Hsafe. unfold _sensor_measurement, isoformat.
  assert (Hids : exists ids, dict_lookup category SENSOR_IDS = Some ids /\ ids <> []).
  { each_member Hc; eexists; (split; [reflexivity | discriminate]). }
  destruct Hids as (ids & Hids & Hne).
  step @returns_dict_get; [exact Hids|].
  intros ? w0 [-> ->].
  step @returns_choice; [exact Hne|].
  intros sensor_id w1 [Hin Hadv1].
  step returns_sensor_status.
  intros st w2 Hadv2.
  step returns_randint; [lia|].
  intros minutes w3 [Hmin Hadv3].
  checked outcome_timedelta; [intros _; lia|].
  intros delta w3' [-> ->].
  checked outcome_datetime_sub.
  { intros Hs. apply Hsafe in Hs. unfold is_datetime, timedelta_minutes in *. lia. }
  intros captured w3' (-> & Hcap & ->).
  step returns_sensor_payload; [exact Hc | exact Hsev |].
  intros p w4 [Hp Hadv4].
  apply outcome_ret.
  cbn [Sensor.type Sensor.sensor_id Sensor.captured_at Sensor.payload].
  split.
  - split; [reflexivity|]. split; [exists ids; auto|]. split; [|split; assumption].
    pose proof (timedelta_minutes_pos minutes ltac:(lia)). lia.
  - unfold advance in *. lia.
Qed.

(** One call of [_build_record]: it returns a record that is [built], or
    raises [OverflowError], and this only with a reading out of range for
    the index. *)
Lemma outcome_build_record_flagged (clk : nat -> datetime) (index : Z) (w : World) :
  outcome (reading_in_range index (clk (ticks w)))
    (_build_record_flagged clk index) w (built clk index w).
Proof.
  unfold _build_record_flagged, isoformat.
  step @returns_choice; [discriminate|].
  intros c w1 [Hc Hadv1].
  step returns_pick_severity; [exact Hc|].
  intros sev w2 [Hsev Hadv2].
  step returns_pick_status; [exact Hsev|].
  intros st w3 [Hst Hadv3].
  assert (Ht3 : ticks w3 = ticks w) by (unfold advance in *; lia).
  checked outcome_detected_at; [rewrite Ht3; exact (fun H => H)|].
  rewrite Ht3.
  intros d w4 ((m & Hm & Hd) & Hvd & Hadv4).
  step returns_random.
  intros u w5 [_ Hadv5].
  assert (Hp : exists p, dict_lookup sev FALSE_POSITIVE_PROBABILITY = Some p).
  { clear - Hsev. each_member Hsev; eexists; reflexivity. }
  destruct Hp as [p Hp].
  step @returns_dict_get; [exact Hp|].
  intros ? w5' [-> ->].
  checked outcome_acknowledged_and_resolved; [exact Hst | exact Hsev | |].
  { intros Hs. subst d.
    unfold reading_in_range, is_datetime, timedelta_minutes in *. lia. }
  intros [ack res] w6 (Har & Hva & Hvr & Hadv6).
  step returns_choose_title; [exact Hc|].
  intros ti w6' ->.
  step returns_choose_location; [exact Hc|].
  intros loc w7 [Hloc Hadv7].
  step returns_choose_description; [exact Hc|].
  intros de w7' ->.
  step returns_choose_impact; [exact Hc | exact Hsev |].
  intros im w7' [Himp ->].
  step returns_root_cause.
  intros rc w8 [Hrc Hadv8].
  checked outcome_sensor_measurement; [exact Hc | exact Hsev | |].
  { intros Hs. subst d.
    unfold reading_in_range, is_datetime, timedelta_minutes in *. lia. }
  intros sm w9 [(Htype & Hids & Hcap & Hvc & Hpay) Hadv9].
  apply outcome_ret.
  destruct Har as (Hack & Hres & Hda & Hars & Hra). cbn [fst snd] in *.
  constructor; cbn [fst snd id category severity status detected_at acknowledged_at
                    resolved_at location impact root_cause sensor_measurement].
  - reflexivity.
  - exact Hc.
  - exact Hsev.
  - exact Hst.
  - unfold temporal_order.
    cbn [detected_at acknowledged_at resolved_at sensor_measurement].
    repeat split; assumption.
  - unfold optional_fields. cbn [acknowledged_at resolved_at status root_cause].
    repeat split; tauto.
  - exact Hpay.
  - unfold category_consistent.
    cbn [category location sensor_measurement]. repeat split; assumption.
  - unfold detected_window. cbn [detected_at]. subst d.
    unfold timedelta_minutes. lia.
  - unfold timestamps_valid.
    cbn [detected_at acknowledged_at resolved_at sensor_measurement].
    split; [exact Hvd|]. split; [exact Hvc|]. split; [exact Hva | exact Hvr].
  - exact Himp.
  - unfold record_draws, advance in *. cbn [status category]. lia.
  - unfold advance in *. lia.
Qed.

(** A call that returns leaves a [built] record. *)
Lemma build_record_flagged_Ok (clk : nat -> datetime) (index : Z) (w w' : World)
    (rf : IncidentRecord * bool) :
  _build_record_flagged clk index w = Ok (rf, w') -> built clk index w rf w'.
Proof. exact (outcome_Ok _ _ _ _ _ _ (outcome_build_record_flagged clk index w)). Qed.

(** [_build_record] is [_build_record_flagged] without the flag. *)
Lemma build_record_Ok (clk : nat -> datetime) (index : Z) (w w' : World)
    (r : IncidentRecord) :
  _build_record clk index w = Ok (r, w') ->
  exists fp, _build_record_flagged clk index w = Ok ((r, fp), w').
Proof.
  unfold _build_record, bind, ret.
  destruct (_build_record_flagged clk index w) as [[[r0 fp] w0]|e]; [|discriminate].
  cbn [fst]. intros [= <- <-]. exists fp. reflexivity.
Qed.

Lemma build_record_Raise (clk : nat -> datetime) (index : Z) (w : World) (e : exn) :
  _build_record clk index w = Raise e ->
  e = OverflowError /\ ~ reading_in_range index (clk (ticks w)).
Proof.
  intros E. apply (outcome_Raise _ _ _ _ _ (outcome_build_record_flagged clk index w)).
  unfold _build_record, bind, ret in E.
  destruct (_build_record_flagged clk index w) as [[[r0 fp] w0]|e0]; [discriminate E|].
  injection E as <-. reflexivity.
Qed.

(** With a reading in range the call returns. *)
Lemma build_record_in_range (clk : nat -> datetime) (index : Z) (w : World) :
  reading_in_range index (clk (ticks w)) ->
  exists r fp w',
    _build_record_flagged clk index w = Ok ((r, fp), w')
    /\ _build_record clk index w = Ok (r, w').
Proof.
  intros Hs.
  destruct (outcome_safe _ _ _ _ (outcome_build_record_flagged clk index w) Hs)
    as ([r fp] & w' & E & _).
  exists r, fp, w'. split; [exact E|].
  unfold _build_record, bind, ret. rewrite E. reflexivity.
Qed.

(** ** The dataset *)

Lemma outcome_mapM_flagged (clk : nat -> datetime) (n : nat) :
  forall (s : nat) (w : World),
    ticks w = s ->
    outcome (forall i : nat, (s <= i < s + n)%nat ->
                             reading_in_range (Z.of_nat i) (clk i))
      (mapM (_build_record_flagged clk) (map Z.of_nat (seq s n))) w
      (fun rfs w' => Forall2 (built_at clk) (seq s n) rfs
                     /\ ticks w' = (s + n)%nat).
Proof.
  induction n as [|n IH]; intros s w Hs; cbn [seq map mapM].
  - apply outcome_ret. split; [constructor | lia].
  - eapply outcome_bind_eq.
    + apply (outcome_build_record_flagged clk (Z.of_nat s) w).
    + intros H. rewrite Hs. apply H. lia.
    + intros rf w1 E Hb.
      assert (Ht : ticks w1 = S s) by (rewrite (built_ticks _ _ _ _ _ Hb), Hs; reflexivity).
      apply outcome_bind. eapply outcome_weaken.
      * eapply outcome_safety; [|apply (IH (S s) w1 Ht)].
        intros H i Hi. apply H. lia.
      * cbv beta. intros rfs w2 [Hall Ht2]. apply outcome_ret.
        split; [|lia]. constructor; [|exact Hall].
        exists w, w1. auto.
Qed.

Lemma bind_Ok {A B : Type} (m : M A) (k : A -> M B) (w w' : World) (a : A) :
  m w = Ok (a, w') -> bind m k w = k a w'.
Proof. intros E. unfold bind. rewrite E. reflexivity. Qed.

Lemma bind_Raise {A B : Type} (m : M A) (k : A -> M B) (w : World) (e : exn) :
  m w = Raise e -> bind m k w = Raise e.
Proof. intros E. unfold bind. rewrite E. reflexivity. Qed.

Lemma mapM_build_record (clk : nat -> datetime) (l : list Z) :
  forall w,
    mapM (_build_record clk) l w
    = result_map (fun x => (map fst (fst x), snd x))
        (mapM (_build_record_flagged clk) l w).
Proof.
  induction l as [|i l IH]; intros w; cbn [mapM].
  - reflexivity.
  - destruct (_build_record_flagged clk i w) as [[rf w1]|e] eqn:E.
    + assert (E' : _build_record clk i w = Ok (fst rf, w1)).
      { unfold _build_record. rewrite (bind_Ok _ _ _ _ _ E). reflexivity. }
      rewrite (bind_Ok _ _ _ _ _ E), (bind_Ok _ _ _ _ _ E').
      destruct (mapM (_build_record_flagged clk) l w1) as [[rfs w2]|e] eqn:El.
      * assert (El' : mapM (_build_record clk) l w1 = Ok (map fst rfs, w2)).
        { rewrite IH, El. reflexivity. }
        rewrite (bind_Ok _ _ _ _ _ El), (bind_Ok _ _ _ _ _ El'). reflexivity.
      * assert (El' : mapM (_build_record clk) l w1 = Raise e).
        { rewrite IH, El. reflexivity. }
        rewrite (bind_Raise _ _ _ _ El), (bind_Raise _ _ _ _ El'). reflexivity.
    + assert (E' : _build_record clk i w = Raise e).
      { unfold _build_record. rewrite (bind_Raise _ _ _ _ E). reflexivity. }
      rewrite (bind_Raise _ _ _ _ E), (bind_Raise _ _ _ _ E'). reflexivity.
Qed.

Lemma generate_dataset_flagged (clk : nat -> datetime) (size seed : Z) :
  generate_dataset clk size seed
  = result_map (map fst) (generate_flagged clk size seed).
Proof.
  unfold generate_dataset, generate_flagged. rewrite mapM_build_record.
  destruct (mapM _ _ _) as [[rfs w]|e]; reflexivity.
Qed.

(** A run returns records that are each [built_at] their index, or raises
    [OverflowError], and this only when its clock is out of range for its
    size. *)
Lemma generate_outcome (clk : nat -> datetime) (size seed : Z) :
  match generate_flagged clk size seed with
  | Ok rfs =>
      generate_dataset clk size seed = Ok (map fst rfs)
      /\ Forall2 (built_at clk) (seq 0 (Z.to_nat size)) rfs
  | Raise e =>
      generate_dataset clk size seed = Raise e
      /\ e = OverflowError /\ ~ clock_in_range clk size
  end.
Proof.
  rewrite generate_dataset_flagged.
  pose proof (outcome_mapM_flagged clk (Z.to_nat size) 0 (fresh seed) eq_refl) as H.
  unfold generate_flagged, range. unfold outcome in H.
  destruct (mapM _ _ _) as [[rfs w]|e]; cbn [result_map fst].
  - split; [reflexivity | exact (proj1 H)].
  - destruct H as [-> Hn]. split; [reflexivity|]. split; [reflexivity|].
    intros Hc. apply Hn. intros i Hi. apply Hc. lia.
Qed.

(** The records of a run that returns. *)
Lemma generate_Ok (clk : nat -> datetime) (size seed : Z) (rs : list IncidentRecord) :
  generate_dataset clk size seed = Ok rs ->
  exists rfs,
    generate_flagged clk size seed = Ok rfs
    /\ rs = map fst rfs
    /\ Forall2 (built_at clk) (seq 0 (Z.to_nat size)) rfs.
Proof.
  intros E. pose proof (generate_outcome clk size seed) as H.
  destruct (generate_flagged clk size seed) as [rfs|e].
  - destruct H as [Hd Hall]. exists rfs. split; [reflexivity|]. split; [|exact Hall].
    rewrite Hd in E. injection E as <-. reflexivity.
  - destruct H as [Hd _]. rewrite Hd in E. discriminate E.
Qed.

Lemma generate_flagged_Ok (clk : nat -> datetime) (size seed : Z)
    (rfs : list (IncidentRecord * bool)) :
  generate_flagged clk size seed = Ok rfs ->
  generate_dataset clk size seed = Ok (map fst rfs)
  /\ Forall2 (built_at clk) (seq 0 (Z.to_nat size)) rfs.
Proof.
  intros E. pose proof (generate_outcome clk size seed) as H.
  rewrite E in H. exact H.
Qed.

(** The only exception of a run is [OverflowError], and the clock is then
    out of range. *)
Lemma generate_Raise (clk : nat -> datetime) (size seed : Z) (e : exn) :
  generate_dataset clk size seed = Raise e ->
  e = OverflowError /\ ~ clock_in_range clk size.
Proof.
  intros E. pose proof (generate_outcome clk size seed) as H.
  destruct (generate_flagged clk size seed) as [rfs|e'].
  - destruct H as [Hd _]. rewrite Hd in E. discriminate E.
  - destruct H as (Hd & He & Hn). rewrite Hd in E. injection E as <-. auto.
Qed.

(** With its clock in range a run returns. *)
Lemma generate_in_range (clk : nat -> datetime) (size seed : Z) :
  clock_in_range clk size ->
  exists rfs,
    generate_flagged clk size seed = Ok rfs
    /\ generate_dataset clk size seed = Ok (map fst rfs)
    /\ Forall2 (built_at clk) (seq 0 (Z.to_nat size)) rfs.
Proof.
  intros Hc. pose proof (generate_outcome clk size seed) as H.
  destruct (generate_flagged clk size seed) as [rfs|e].
  - exists rfs. split; [reflexivity | exact H].
  - destruct H as (_ & _ & Hn). contradiction (Hn Hc).
Qed.

Lemma generate_dataset_in_range (clk : nat -> datetime) (size seed : Z) :
  clock_in_range clk size -> exists rs, generate_dataset clk size seed = Ok rs.
Proof.
  intros Hc. destruct (generate_in_range clk size seed Hc) as (rfs & _ & Hd & _).
  exists (map fst rfs). exact Hd.
Qed.

Lemma built_at_all (clk : nat -> datetime) (P : IncidentRecord * bool -> Prop) :
  (forall i w1 w2 rf, built clk (Z.of_nat i) w1 rf w2 -> P rf) ->
  forall l rfs, Forall2 (built_at clk) l rfs -> Forall P rfs.
Proof.
  intros HP l rfs Hall.
  induction Hall as [|i rf l rfs (w1 & w2 & _ & _ & Hb) _ IH]; constructor; eauto.
Qed.

Lemma Forall_map_fst (P : IncidentRecord -> Prop) (rfs : list (IncidentRecord * bool)) :
  Forall (fun rf => P (fst rf)) rfs -> Forall P (map fst rfs).
Proof. intros H. rewrite Forall_map. exact H. Qed.
(** ** Two clocks *)

(** What is drawn does not depend on the dates: where a call returns for
    two detection times, it returns the same timestamps moved by their
    difference, and leaves the same world. *)
Lemma acknowledged_and_resolved_retime (status severity : string) (d delta : Z)
    (w w1 w2 : World) (ar1 ar2 : option datetime * option datetime) :
  _acknowledged_and_resolved status severity d w = Ok (ar1, w1) ->
  _acknowledged_and_resolved status severity (d + delta) w = Ok (ar2, w2) ->
  ar2 = retime_pair delta ar1 /\ w2 = w1.
Proof.
  unfold _acknowledged_and_resolved, isoformat, retime_pair.
  destruct (status =? "open")%string.
  { unfold ret. intros [= <- <-] [= <- <-]. split; reflexivity. }
  unfold bind.
  destruct (dict_get severity ack_bounds w) as [[[ack_min ack_max] w0]|e];
    [|discriminate].
  destruct (randint ack_min ack_max w0) as [[m w3]|e]; [|discriminate].
  unfold lift.
  destruct (timedelta m) as [td|e]; [|discriminate].
  destruct (datetime_add d td) as [a1|e] eqn:A1; [|discriminate].
  destruct (datetime_add (d + delta) td) as [a2|e] eqn:A2;
    [|intros _ H; discriminate H].
  apply datetime_add_value in A1 as [-> _]. apply datetime_add_value in A2 as [-> _].
  destruct (status =? "acknowledged")%string.
  { unfold ret. intros [= <- <-] [= <- <-]. cbn [fst snd option_map].
    split; [|reflexivity]. do 2 f_equal. lia. }
  destruct (dict_get severity res_bounds w3) as [[[res_min res_max] w4]|e];
    [|discriminate].
  destruct (randint res_min res_max w4) as [[m2 w5]|e]; [|discriminate].
  destruct (timedelta m2) as [td2|e]; [|discriminate].
  destruct (datetime_add (d + td) td2) as [r1|e] eqn:R1; [|discriminate].
  destruct (datetime_add (d + delta + td) td2) as [r2|e] eqn:R2;
    [|intros _ H; discriminate H].
  apply datetime_add_value in R1 as [-> _]. apply datetime_add_value in R2 as [-> _].
  unfold ret. intros [= <- <-] [= <- <-]. cbn [fst snd option_map].
  split; [|reflexivity]. f_equal; f_equal; lia.
Qed.

Lemma sensor_measurement_retime (category severity : string) (d delta : Z)
    (false_positive : bool) (w w1 w2 : World) (m1 m2 : Sensor.t) :
  _sensor_measurement category severity d false_positive w = Ok (m1, w1) ->
  _sensor_measurement category severity (d + delta) false_positive w = Ok (m2, w2) ->
  m2 = retime_measurement delta m1 /\ w2 = w1.
Proof.
  unfold _sensor_measurement, isoformat, retime_measurement, bind.
  destruct (dict_get category SENSOR_IDS w) as [[ids w0]|e]; [|discriminate].
  destruct (choice ids w0) as [[sensor_id w3]|e]; [|discriminate].
  destruct (_sensor_status severity false_positive w3) as [[st w4]|e]; [|discriminate].
  destruct (randint 1 12 w4) as [[minutes w5]|e]; [|discriminate].
  unfold lift.
  destruct (timedelta minutes) as [td|e]; [|discriminate].
  destruct (datetime_sub d td) as [c1|e] eqn:C1; [|discriminate].
  destruct (datetime_sub (d + delta) td) as [c2|e] eqn:C2;
    [|intros _ H; discriminate H].
  apply datetime_sub_value in C1 as [-> _]. apply datetime_sub_value in C2 as [-> _].
  destruct (_sensor_payload category severity w5) as [[p w6]|e]; [|discriminate].
  unfold ret. intros [= <- <-] [= <- <-].
  cbn [Sensor.sensor_id Sensor.type Sensor.status Sensor.captured_at Sensor.payload].
  split; [|reflexivity]. f_equal. lia.
Qed.

(** Under another clock [_build_record] draws the same values: where it
    returns under both, the second record is the first moved by the
    difference of the two readings. *)
Lemma build_record_retime (c1 c2 : nat -> datetime) (index : Z) (w w1 w2 : World)
    (rf1 rf2 : IncidentRecord * bool) :
  _build_record_flagged c1 index w = Ok (rf1, w1) ->
  _build_record_flagged c2 index w = Ok (rf2, w2) ->
  rf2 = (retime (c2 (ticks w) - c1 (ticks w)) (fst rf1), snd rf1) /\ w2 = w1.
Proof.
  unfold _build_record_flagged.
  destruct (choice CATEGORIES w) as [[c wa]|e] eqn:E1;
    [|rewrite !(bind_Raise _ _ _ _ E1); discriminate].
  rewrite !(bind_Ok _ _ _ _ _ E1).
  destruct (returns_unique _ _ _ _ _ (returns_choice CATEGORIES w ltac:(discriminate)) E1)
    as [Hc [_ Ht1]].
  destruct (_pick_severity c wa) as [[sev wb]|e] eqn:E2;
    [|rewrite !(bind_Raise _ _ _ _ E2); discriminate].
  rewrite !(bind_Ok _ _ _ _ _ E2).
  destruct (returns_unique _ _ _ _ _ (returns_pick_severity c wa Hc) E2)
    as [Hsev [_ Ht2]].
  destruct (_pick_status sev wb) as [[st wc]|e] eqn:E3;
    [|rewrite !(bind_Raise _ _ _ _ E3); discriminate].
  rewrite !(bind_Ok _ _ _ _ _ E3).
  destruct (returns_unique _ _ _ _ _ (returns_pick_status sev wb Hsev) E3)
    as [Hst [_ Ht3]].
  unfold _detected_at.
  destruct (randint 0 (90 * 24 * 60) wc) as [[m wd]|e] eqn:E4.
  2:{ unfold bind. cbv zeta. rewrite E4. discriminate. }
  destruct (returns_unique _ _ _ _ _ (returns_randint 0 (90 * 24 * 60) wc ltac:(lia)) E4)
    as [Hm [_ Ht4]].
  assert (Ht : ticks wd = ticks w) by lia.
  set (delta := c2 (ticks w) - c1 (ticks w)).
  unfold isoformat, bind, now, ret, lift. cbv zeta. rewrite E4, Ht.
  destruct (timedelta (m + index * 3)) as [td|e]; [|discriminate].
  destruct (datetime_sub (c1 (ticks w)) td) as [d1|e] eqn:D1; [|discriminate].
  destruct (datetime_sub (c2 (ticks w)) td) as [d2|e] eqn:D2;
    [|intros _ H; discriminate H].
  apply datetime_sub_value in D1 as [D1 _]. apply datetime_sub_value in D2 as [D2 _].
  assert (Hd : d2 = d1 + delta) by (unfold delta; lia).
  clear D1 D2. subst d2.
  destruct (rng_random _) as [[u w5]|e]; [|discriminate].
  destruct (dict_get sev FALSE_POSITIVE_PROBABILITY w5) as [[p w5']|e]; [|discriminate].
  destruct (_acknowledged_and_resolved st sev d1 w5') as [[[ack res] w6]|e] eqn:A1;
    [|discriminate].
  destruct (_acknowledged_and_resolved st sev (d1 + delta) w5') as [[ar2 w6']|e] eqn:A2;
    [|intros _ H; discriminate H].
  destruct (acknowledged_and_resolved_retime _ _ _ _ _ _ _ _ _ A1 A2) as [-> ->].
  cbn [retime_pair fst snd].
  destruct (_choose_title c w6) as [[ti w6']|e]; [|discriminate].
  destruct (_choose_location c w6') as [[loc w7]|e]; [|discriminate].
  destruct (_choose_description c w7) as [[de w7']|e]; [|discriminate].
  destruct (_choose_impact c sev w7') as [[im w7'']|e]; [|discriminate].
  destruct (_root_cause sev (Qltb u p) w7'') as [[rc w8]|e]; [|discriminate].
  destruct (_sensor_measurement c sev d1 (Qltb u p) w8) as [[sm1 w9]|e] eqn:S1;
    [|discriminate].
  destruct (_sensor_measurement c sev (d1 + delta) (Qltb u p) w8) as [[sm2 w9']|e] eqn:S2;
    [|intros _ H; discriminate H].
  destruct (sensor_measurement_retime _ _ _ _ _ _ _ _ _ _ S1 S2) as [-> ->].
  intros [= <- <-] [= <- <-]. split; reflexivity.
Qed.

Lemma mapM_flagged_retime (c1 c2 : nat -> datetime) (n : nat) :
  forall (s : nat) (w w1 w2 : World) (rfs1 rfs2 : list (IncidentRecord * bool)),
    ticks w = s ->
    mapM (_build_record_flagged c1) (map Z.of_nat (seq s n)) w = Ok (rfs1, w1) ->
    mapM (_build_record_flagged c2) (map Z.of_nat (seq s n)) w = Ok (rfs2, w2) ->
    rfs2 = retime_flagged c1 c2 s rfs1 /\ w2 = w1.
Proof.
  induction n as [|n IH]; intros s w w1 w2 rfs1 rfs2 Hs; cbn [seq map mapM].
  - unfold ret. intros [= <- <-] [= <- <-]. split; reflexivity.
  - destruct (_build_record_flagged c1 (Z.of_nat s) w) as [[rf1 wa]|e] eqn:E1;
      [|rewrite (bind_Raise _ _ _ _ E1); discriminate].
    destruct (_build_record_flagged c2 (Z.of_nat s) w) as [[rf2 wb]|e] eqn:E2;
      [|rewrite (bind_Raise _ _ _ _ E2); intros _ H; discriminate H].
    rewrite (bind_Ok _ _ _ _ _ E1), (bind_Ok _ _ _ _ _ E2).
    destruct (build_record_retime _ _ _ _ _ _ _ _ E1 E2) as [-> ->].
    pose proof (built_ticks _ _ _ _ _ (build_record_flagged_Ok _ _ _ _ _ E1)) as Ht.
    destruct (mapM (_build_record_flagged c1) (map Z.of_nat (seq (S s) n)) wa)
      as [[l1 wc]|e] eqn:M1; [|rewrite (bind_Raise _ _ _ _ M1); discriminate].
    destruct (mapM (_build_record_flagged c2) (map Z.of_nat (seq (S s) n)) wa)
      as [[l2 wd]|e] eqn:M2;
      [|rewrite (bind_Raise _ _ _ _ M2); intros _ H; discriminate H].
    rewrite (bind_Ok _ _ _ _ _ M1), (bind_Ok _ _ _ _ _ M2).
    destruct (IH (S s) wa wc wd l1 l2 ltac:(lia) M1 M2) as [-> ->].
    unfold ret. intros [= <- <-] [= <- <-]. cbn [retime_flagged]. rewrite Hs.
    split; reflexivity.
Qed.

Lemma map_fst_retime_flagged (c1 c2 : nat -> datetime)
    (rfs : list (IncidentRecord * bool)) :
  forall s, map fst (retime_flagged c1 c2 s rfs) = retime_all c1 c2 s (map fst rfs).
Proof.
  induction rfs as [|rf rfs IH]; intros s; cbn [retime_flagged retime_all map fst];
    [reflexivity|].
  rewrite IH. reflexivity.
Qed.

Lemma generate_flagged_retime (c1 c2 : nat -> datetime) (size seed : Z)
    (rfs1 rfs2 : list (IncidentRecord * bool)) :
  generate_flagged c1 size seed = Ok rfs1 ->
  generate_flagged c2 size seed = Ok rfs2 ->
  rfs2 = retime_flagged c1 c2 0 rfs1.
Proof.
  unfold generate_flagged, range.
  destruct (mapM (_build_record_flagged c1) _ _) as [[l1 wa]|e] eqn:M1; [|discriminate].
  destruct (mapM (_build_record_flagged c2) _ _) as [[l2 wb]|e] eqn:M2;
    [|intros _ H; discriminate H].
  cbn [result_map fst]. intros [= <-] [= <-].
  exact (proj1 (mapM_flagged_retime c1 c2 _ 0 (fresh seed) _ _ _ _ eq_refl M1 M2)).
Qed.

(** Two runs that return give the same records up to the clock. *)
Lemma generate_dataset_retime (c1 c2 : nat -> datetime) (size seed : Z)
    (rs1 rs2 : list IncidentRecord) :
  generate_dataset c1 size seed = Ok rs1 ->
  generate_dataset c2 size seed = Ok rs2 ->
  rs2 = retime_all c1 c2 0 rs1.
Proof.
  intros H1 H2.
  destruct (generate_Ok _ _ _ _ H1) as (rfs1 & F1 & -> & _).
  destruct (generate_Ok _ _ _ _ H2) as (rfs2 & F2 & -> & _).
  rewrite (generate_flagged_retime _ _ _ _ _ _ F1 F2). apply map_fst_retime_flagged.
Qed.

Lemma retime_zero (r : IncidentRecord) : retime 0 r = r.
Proof.
  destruct r as [i t c s st d a rs l de im rc [sid ty sst cap pl]].
  unfold retime, retime_measurement. cbn.
  rewrite !Z.add_0_r. destruct a, rs; cbn; rewrite ?Z.add_0_r; reflexivity.
Qed.

Lemma untimed_retime (delta : Z) (r : IncidentRecord) : untimed (retime delta r) = untimed r.
Proof.
  destruct r as [i t c s st d a rs l de im rc [sid ty sst cap pl]].
  unfold untimed, retime, retime_measurement. cbn. destruct a, rs; reflexivity.
Qed.

Lemma retime_all_agree (c1 c2 : nat -> datetime) (rs : list IncidentRecord) :
  forall s,
    (forall i, (s <= i < s + List.length rs)%nat -> c1 i = c2 i) ->
    retime_all c1 c2 s rs = rs.
Proof.
  induction rs as [|r rs IH]; intros s H; cbn [retime_all]; [reflexivity|].
  cbn [List.length] in H.
  rewrite (H s) by lia. rewrite Z.sub_diag, retime_zero.
  rewrite IH; [reflexivity|]. intros i Hi. apply H. lia.
Qed.

Lemma untimed_retime_all (c1 c2 : nat -> datetime) (rs : list IncidentRecord) :
  forall s, map untimed (retime_all c1 c2 s rs) = map untimed rs.
Proof.
  induction rs as [|r rs IH]; intros s; cbn [retime_all map]; [reflexivity|].
  rewrite untimed_retime, IH. reflexivity.
Qed.

Lemma retime_all_firstn (c1 c2 : nat -> datetime) (k : nat) :
  forall s rs,
    firstn k (retime_all c1 c2 s rs) = retime_all c1 c2 s (firstn k rs).
Proof.
  induction k as [|k IH]; intros s [|r rs]; cbn [firstn retime_all]; try reflexivity.
  rewrite IH. reflexivity.
Qed.

(** ** Prefixes *)

Lemma mapM_app {A B : Type} (f : A -> M B) (l1 l2 : list A) :
  forall w,
    mapM f (l1 ++ l2)%list w
    = bind (mapM f l1) (fun xs => bind (mapM f l2) (fun ys => ret (xs ++ ys)%list)) w.
Proof.
  induction l1 as [|x l1 IH]; intros w; cbn [mapM app].
  - unfold bind, ret. destruct (mapM f l2 w) as [[ys w']|e]; reflexivity.
  - unfold bind at 1 3 4. destruct (f x w) as [[y w1]|e]; [|reflexivity].
    unfold bind at 1. rewrite IH. unfold bind, ret.
    destruct (mapM f l1 w1) as [[xs w2]|e]; [|reflexivity].
    destruct (mapM f l2 w2) as [[ys w3]|e]; reflexivity.
Qed.

Lemma mapM_length {A B : Type} (f : A -> M B) (l : list A) :
  forall w ys w', mapM f l w = Ok (ys, w') -> List.length ys = List.length l.
Proof.
  induction l as [|x l IH]; intros w ys w' E; cbn [mapM] in E.
  - unfold ret in E. injection E as <- _. reflexivity.
  - unfold bind, ret in E.
    destruct (f x w) as [[y w1]|e]; [|discriminate E].
    destruct (mapM f l w1) as [[ys' w2]|e] eqn:El; [|discriminate E].
    injection E as <- _. cbn [List.length]. f_equal. eapply IH. exact El.
Qed.

(** A shorter run with the same seed and clock is the prefix of a longer
    one. *)
Lemma generate_dataset_prefix (clk : nat -> datetime) (seed k n : Z)
    (rs : list IncidentRecord) :
  k <= n ->
  generate_dataset clk n seed = Ok rs ->
  generate_dataset clk k seed = Ok (firstn (Z.to_nat k) rs).
Proof.
  intros Hkn. unfold generate_dataset, range.
  replace (Z.to_nat n) with (Z.to_nat k + (Z.to_nat n - Z.to_nat k))%nat by lia.
  rewrite seq_app, map_app, mapM_app. unfold bind, ret.
  destruct (mapM (_build_record clk) (map Z.of_nat (seq 0 (Z.to_nat k))) (fresh seed))
    as [[xs w1]|e] eqn:E1; [|discriminate].
  destruct (mapM _ _ w1) as [[ys w2]|e]; [|discriminate].
  cbn [result_map fst]. intros [= <-].
  apply mapM_length in E1. rewrite length_map, length_seq in E1.
  rewrite <- E1, firstn_app, Nat.sub_diag, firstn_all. cbn [firstn].
  rewrite app_nil_r. reflexivity.
Qed.
End Triples.

(** * The run of the default seed *)

Lemma default_run_stopped :
  run_cpython stopped_clock 5 RNG_SEED = Ok (default_records stopped_clock, false).
Proof. vm_compute. reflexivity. Qed.

Lemma run_cpython_in_range (clk : nat -> datetime) (size seed : Z) :
  clock_in_range clk size ->
  exists x,
    mapM (_build_record_flagged (R := MT19937.python) clk) (range size) (fresh seed)
    = Ok x.
Proof.
  intros Hc.
  destruct (outcome_safe _ _ _ _
              (outcome_mapM_flagged (R := MT19937.python) clk (Z.to_nat size) 0
                 (fresh seed) eq_refl))
    as (rfs & w & E & _).
  - intros i Hi. apply Hc. lia.
  - exists (rfs, w). exact E.
Qed.

Lemma run_cpython_retime (c1 c2 : nat -> datetime) (size seed : Z)
    (rfs1 : list (IncidentRecord * bool)) (cut1 : bool) :
  run_cpython c1 size seed = Ok (rfs1, cut1) ->
  (exists x,
      mapM (_build_record_flagged (R := MT19937.python) c2) (range size) (fresh seed)
      = Ok x) ->
  run_cpython c2 size seed = Ok (retime_flagged c1 c2 0 rfs1, cut1).
Proof.
  unfold run_cpython, range. intros H1 [[l2 w2] M2].
  destruct (mapM (_build_record_flagged c1) _ _) as [[l1 w1]|e] eqn:M1;
    [|discriminate H1].
  destruct (mapM_flagged_retime c1 c2 _ 0 (fresh seed) _ _ _ _ eq_refl M1 M2) as [-> ->].
  rewrite M2. cbn [result_map fst snd] in *. injection H1 as <- <-. reflexivity.
Qed.

Lemma default_records_retime (clk : nat -> datetime) :
  retime_flagged stopped_clock clk 0 (default_records stopped_clock)
  = default_records clk.
Proof.
  unfold default_records, retime_flagged, retime, retime_measurement, stopped_clock,
    record_1000, record_1001, record_1002, record_1003, record_1004.
  cbn [fst snd id title category severity status detected_at acknowledged_at resolved_at
       location description impact root_cause sensor_measurement option_map
       Sensor.sensor_id Sensor.type Sensor.status Sensor.captured_at Sensor.payload].
  repeat (f_equal; try lia).
Qed.

(** With a clock in range, the run of the default seed starts with the
    five records above, and no rejection loop is cut short in it. *)
Lemma default_run (clk : nat -> datetime) :
  clock_in_range clk 5 ->
  run_cpython clk 5 RNG_SEED = Ok (default_records clk, false).
Proof.
  intros Hc.
  rewrite (run_cpython_retime stopped_clock clk 5 RNG_SEED _ _ default_run_stopped
             (run_cpython_in_range clk 5 RNG_SEED Hc)).
  rewrite default_records_retime. reflexivity.
Qed.

Lemma run_cpython_flagged (clk : nat -> datetime) (size seed : Z)
    (rfs : list (IncidentRecord * bool)) (cut : bool) :
  run_cpython clk size seed = Ok (rfs, cut) ->
  generate_flagged (R := MT19937.python) clk size seed = Ok rfs.
Proof.
  unfold run_cpython, generate_flagged.
  destruct (mapM _ _ _) as [[l w]|e]; [|discriminate].
  cbn [result_map fst snd]. intros [= -> _]. reflexivity.
Qed.

Lemma default_flagged (clk : nat -> datetime) :
  clock_in_range clk 5 ->
  generate_flagged (R := MT19937.python) clk 5 RNG_SEED = Ok (default_records clk).
Proof. intros Hc. exact (run_cpython_flagged clk 5 RNG_SEED _ _ (default_run clk Hc)). Qed.

Lemma default_dataset (clk : nat -> datetime) :
  clock_in_range clk 5 ->
  generate_dataset (R := MT19937.python) clk 5 RNG_SEED
  = Ok (map fst (default_records clk)).
Proof.
  intros Hc. rewrite generate_dataset_flagged.
  exact (f_equal (result_map (map fst)) (default_flagged clk Hc)).
Qed.

(** A clock that starts between 1970 and 2100 is in range for any run of
    at most a hundred million records. *)
Lemma clock_from_in_range (t0 : datetime) (size : Z) :
  0 <= t0 <= 4102444800000000 -> size <= 100000000 ->
  clock_in_range (clock_from t0) size.
Proof.
  intros Ht Hn i Hi.
  unfold reading_in_range, clock_from, timedelta_minutes, datetime_min, datetime_max.
  lia.
Qed.

Lemma clock_a_in_range (size : Z) : size <= 100000000 -> clock_in_range clock_a size.
Proof. apply clock_from_in_range. unfold noon. lia. Qed.

Lemma clock_b_in_range (size : Z) : size <= 100000000 -> clock_in_range clock_b size.
Proof. apply clock_from_in_range. unfold noon. lia. Qed.

(** * The properties of the dataset *)

Lemma Forall2_seq_nth {A : Type} (P : nat -> A -> Prop) (n : nat) :
  forall (s : nat) (l : list A) (i : nat) (x : A),
    Forall2 P (seq s n) l -> nth_error l i = Some x -> P (s + i)%nat x.
Proof.
  induction n as [|n IH]; intros s l i x Hall Hi; cbn [seq] in Hall.
  - inversion Hall; subst. destruct i; discriminate Hi.
  - inversion Hall as [|? y ? l' Hy Hl]; subst.
    destruct i as [|i]; cbn [nth_error] in Hi.
    + injection Hi as <-. rewrite Nat.add_0_r. exact Hy.
    + replace (s + S i)%nat with (S s + i)%nat by lia. eapply IH; eassumption.
Qed.


(** What [built] gives for one record holds for every record of a run that
    returns. *)
Lemma generate_all {R : PyRandom} (clk : nat -> datetime) (size seed : Z)
    (rs : list IncidentRecord) (P : IncidentRecord -> Prop) :
  (forall i w1 w2 rf, built clk (Z.of_nat i) w1 rf w2 -> P (fst rf)) ->
  generate_dataset clk size seed = Ok rs -> Forall P rs.
Proof.
  intros HP E. destruct (generate_Ok _ _ _ _ E) as (rfs & _ & -> & Hall).
  apply Forall_map_fst.
  exact (built_at_all clk (fun rf => P (fst rf)) HP _ _ Hall).
Qed.



(** C3.  In every record of every dataset that [generate_dataset] returns
    the sensor measurement is captured strictly before the detection, and
    the acknowledgement and the resolution, where present, follow in this
    order: [captured_at < detected_at <= acknowledged_at <= resolved_at].
    A run returns whenever its clock is in range for its size. *)
Theorem temporal_ordering {R : PyRandom} (clk : nat -> datetime) (size seed : Z) :
  (forall rs, generate_dataset clk size seed = Ok rs -> Forall temporal_order rs)
  /\ (clock_in_range clk size -> exists rs, generate_dataset clk size seed = Ok rs).
Proof.
  split; [|apply generate_dataset_in_range].
  intros rs. apply generate_all.
  intros i w1 w2 rf Hb. exact (built_order _ _ _ _ _ Hb).
Qed.

Lemma temporal_ordering_witness :
  Forall temporal_order (map fst (default_records clock_a)).
Proof.
  exact (proj1 (temporal_ordering (R := MT19937.python) clock_a 5 RNG_SEED) _
           (default_dataset clock_a (clock_a_in_range 5 ltac:(lia)))).
Defined.

(** C4.  A run that returns gives records, each with all the fields of the
    schema; in each record [acknowledged_at] is present exactly when the
    status is acknowledged or resolved, [resolved_at] exactly when it is
    resolved, and [root_cause] is absent exactly when the record was flagged
    as a false positive.  A run raises no exception but [OverflowError], and
    it returns whenever its clock is in range for its size. *)
Theorem optional_field_rules {R : PyRandom} (clk : nat -> datetime) (size seed : Z) :
  (forall rs, generate_dataset clk size seed = Ok rs ->
     exists rfs,
       generate_flagged clk size seed = Ok rfs
       /\ rs = map fst rfs
       /\ Forall (fun rf => optional_fields (fst rf) (snd rf)) rfs)
  /\ (forall e, generate_dataset clk size seed = Raise e -> e = OverflowError)
  /\ (clock_in_range clk size -> exists rs, generate_dataset clk size seed = Ok rs).
Proof.
  split; [|split; [|apply generate_dataset_in_range]].
  - intros rs E. destruct (generate_Ok _ _ _ _ E) as (rfs & Hf & Hrs & Hall).
    exists rfs. split; [exact Hf|]. split; [exact Hrs|].
    apply (built_at_all clk (fun rf => optional_fields (fst rf) (snd rf))) in Hall;
      [exact Hall|].
    intros i w1 w2 rf Hb. exact (built_optional _ _ _ _ _ Hb).
  - intros e E. exact (proj1 (generate_Raise _ _ _ _ E)).
Qed.

Lemma optional_field_rules_witness :
  Forall (fun rf => optional_fields (fst rf) (snd rf)) (default_records clock_a).
Proof.
  pose proof (clock_a_in_range 5 ltac:(lia)) as Hc.
  destruct (proj1 (optional_field_rules (R := MT19937.python) clock_a 5 RNG_SEED) _
              (default_dataset clock_a Hc)) as (rfs & Hf & _ & Hall).
  rewrite (default_flagged clock_a Hc) in Hf. injection Hf as <-. exact Hall.
Defined.




(** C7.  In every record of a dataset that [generate_dataset] returns the
    location is one of the locations registered for the record's category,
    the sensor id one of the sensor ids registered for it, and the type of
    the measurement is the category.  A run returns whenever its clock is in
    range for its size. *)
Theorem category_consistency {R : PyRandom} (clk : nat -> datetime) (size seed : Z) :
  (forall rs, generate_dataset clk size seed = Ok rs -> Forall category_consistent rs)
  /\ (clock_in_range clk size -> exists rs, generate_dataset clk size seed = Ok rs).
Proof.
  split; [|apply generate_dataset_in_range].
  intros rs. apply generate_all.
  intros i w1 w2 rf Hb. exact (built_consistent _ _ _ _ _ Hb).
Qed.

Lemma category_consistency_witness :
  Forall category_consistent (map fst (default_records clock_a)).
Proof.
  exact (proj1 (category_consistency (R := MT19937.python) clock_a 5 RNG_SEED) _
           (default_dataset clock_a (clock_a_in_range 5 ltac:(lia)))).
Defined.

(** C10.  In every record of a dataset that [generate_dataset] returns
    [impact] is [IMPACTS[category]] exactly when the severity is low or
    medium, and that string followed by " Escalation priority elevated."
    exactly when it is high or critical.  A run returns whenever its clock is
    in range for its size. *)
Theorem impact_by_severity {R : PyRandom} (clk : nat -> datetime) (size seed : Z) :
  (forall rs, generate_dataset clk size seed = Ok rs -> Forall impact_rule rs)
  /\ (clock_in_range clk size -> exists rs, generate_dataset clk size seed = Ok rs).
Proof.
  split; [|apply generate_dataset_in_range].
  intros rs. apply generate_all.
  intros i w1 w2 rf Hb. exact (built_impact _ _ _ _ _ Hb).
Qed.

Lemma impact_by_severity_witness :
  Forall impact_rule (map fst (default_records clock_a)).
Proof.
  exact (proj1 (impact_by_severity (R := MT19937.python) clock_a 5 RNG_SEED) _
           (default_dataset clock_a (clock_a_in_range 5 ltac:(lia)))).
Defined.

(** ** Determinism and the clock *)

(** Against C1 as stated: two runs for the default seed and size 1, the
    second started one second after the first, differ (in [detected_at] and
    [captured_at]). *)
Lemma same_inputs_differ :
  generate_dataset (R := MT19937.python) clock_a 1 RNG_SEED
  <> generate_dataset (R := MT19937.python) clock_b 1 RNG_SEED.
Proof.
  rewrite (generate_dataset_prefix clock_a RNG_SEED 1 5 _ ltac:(lia)
             (default_dataset clock_a (clock_a_in_range 5 ltac:(lia)))).
  rewrite (generate_dataset_prefix clock_b RNG_SEED 1 5 _ ltac:(lia)
             (default_dataset clock_b (clock_b_in_range 5 ltac:(lia)))).
  intros H. apply (f_equal (result_map (map detected_at))) in H.
  vm_compute in H. discriminate H.
Qed.

(** C1, amended.  For every size and seed, where two runs both return,
    record for record the second run is the first with its four timestamps
    moved by the difference of the clock readings of the two runs; so the
    runs agree in every other field, and they are equal when the clock reads
    the same for each record.  Both runs return whenever both clocks are in
    range for the size. *)
Theorem determinism_up_to_clock {R : PyRandom} (c1 c2 : nat -> datetime) (size seed : Z) :
  (forall rs1 rs2,
      generate_dataset c1 size seed = Ok rs1 ->
      generate_dataset c2 size seed = Ok rs2 ->
      rs2 = retime_all c1 c2 0 rs1
      /\ map untimed rs2 = map untimed rs1
      /\ ((forall i, (i < List.length rs1)%nat -> c1 i = c2 i) -> rs2 = rs1))
  /\ (clock_in_range c1 size -> clock_in_range c2 size ->
      exists rs1 rs2,
        generate_dataset c1 size seed = Ok rs1
        /\ generate_dataset c2 size seed = Ok rs2).
Proof.
  split.
  - intros rs1 rs2 H1 H2.
    rewrite (generate_dataset_retime c1 c2 size seed rs1 rs2 H1 H2).
    split; [reflexivity|]. split.
    + apply untimed_retime_all.
    + intros Hagree. apply retime_all_agree. intros i Hi. apply Hagree. lia.
  - intros Hc1 Hc2.
    destruct (generate_dataset_in_range c1 size seed Hc1) as [rs1 E1].
    destruct (generate_dataset_in_range c2 size seed Hc2) as [rs2 E2].
    exists rs1, rs2. split; assumption.
Qed.

Lemma determinism_up_to_clock_witness :
  map fst (default_records clock_b)
  = retime_all clock_a clock_b 0 (map fst (default_records clock_a)).
Proof.
  exact (proj1 (proj1 (determinism_up_to_clock (R := MT19937.python)
                         clock_a clock_b 5 RNG_SEED) _ _
                  (default_dataset clock_a (clock_a_in_range 5 ltac:(lia)))
                  (default_dataset clock_b (clock_b_in_range 5 ltac:(lia))))).
Defined.

(** ** Prefixes *)

(** Against C2 as stated: the first record of the run of size 2 and that of
    a run of size 3 started one second later differ. *)
Lemma prefix_differs :
  exists rs1 rs2,
    generate_dataset (R := MT19937.python) clock_a 2 RNG_SEED = Ok rs1
    /\ generate_dataset (R := MT19937.python) clock_b 3 RNG_SEED = Ok rs2
    /\ firstn 1 rs1 <> firstn 1 rs2.
Proof.
  eexists. eexists. split; [|split].
  - exact (generate_dataset_prefix clock_a RNG_SEED 2 5 _ ltac:(lia)
             (default_dataset clock_a (clock_a_in_range 5 ltac:(lia)))).
  - exact (generate_dataset_prefix clock_b RNG_SEED 3 5 _ ltac:(lia)
             (default_dataset clock_b (clock_b_in_range 5 ltac:(lia)))).
  - cbn [firstn Z.to_nat Pos.to_nat Pos.iter_op Nat.add map default_records fst].
    intros H. apply (f_equal (map detected_at)) in H.
    vm_compute in H. discriminate H.
Qed.

(** C2, amended.  For a seed and sizes [n1, n2 > k], where the two runs
    both return, records 0 to [k-1] of the two are the same records up to
    their timestamps, which are moved by the difference of the clock
    readings; they are identical when the clock reads the same for each of
    these records in both runs.  Both runs return whenever their clocks are
    in range for their sizes. *)
Theorem prefix_up_to_clock {R : PyRandom} (c1 c2 : nat -> datetime)
    (seed : Z) (k : nat) (n1 n2 : Z) :
  Z.of_nat k < n1 -> Z.of_nat k < n2 ->
  (forall rs1 rs2,
      generate_dataset c1 n1 seed = Ok rs1 ->
      generate_dataset c2 n2 seed = Ok rs2 ->
      firstn k rs2 = retime_all c1 c2 0 (firstn k rs1)
      /\ map untimed (firstn k rs2) = map untimed (firstn k rs1)
      /\ ((forall i, (i < k)%nat -> c1 i = c2 i) -> firstn k rs2 = firstn k rs1))
  /\ (clock_in_range c1 n1 -> clock_in_range c2 n2 ->
      exists rs1 rs2,
        generate_dataset c1 n1 seed = Ok rs1
        /\ generate_dataset c2 n2 seed = Ok rs2).
Proof.
  intros H1 H2. split.
  - intros rs1 rs2 Hd1 Hd2.
    pose proof (generate_dataset_prefix c1 seed (Z.of_nat k) n1 rs1 ltac:(lia) Hd1) as P1.
    pose proof (generate_dataset_prefix c2 seed (Z.of_nat k) n2 rs2 ltac:(lia) Hd2) as P2.
    rewrite Nat2Z.id in P1, P2.
    pose proof (generate_dataset_retime c1 c2 _ _ _ _ P1 P2) as P.
    assert (Hlen : (List.length (firstn k rs1) <= k)%nat) by apply firstn_le_length.
    split; [exact P|]. split.
    + rewrite P. apply untimed_retime_all.
    + intros Hagree. rewrite P. apply retime_all_agree.
      intros i Hi. apply Hagree. lia.
  - intros Hc1 Hc2.
    destruct (generate_dataset_in_range c1 n1 seed Hc1) as [rs1 E1].
    destruct (generate_dataset_in_range c2 n2 seed Hc2) as [rs2 E2].
    exists rs1, rs2. split; assumption.
Qed.

Lemma prefix_up_to_clock_witness :
  Z.of_nat 1 < 2 /\ Z.of_nat 1 < 3
  /\ exists rs1 rs2,
       generate_dataset (R := MT19937.python) clock_a 2 RNG_SEED = Ok rs1
       /\ generate_dataset (R := MT19937.python) clock_a 3 RNG_SEED = Ok rs2
       /\ firstn 1 rs2 = firstn 1 rs1.
Proof.
  split; [lia|]. split; [lia|].
  destruct (prefix_up_to_clock (R := MT19937.python) clock_a clock_a RNG_SEED 1 2 3)
    as [Hsame Hret]; [lia | lia |].
  destruct (Hret (clock_a_in_range 2 ltac:(lia)) (clock_a_in_range 3 ltac:(lia)))
    as (rs1 & rs2 & E1 & E2).
  exists rs1, rs2. split; [exact E1|]. split; [exact E2|].
  destruct (Hsame rs1 rs2 E1 E2) as (_ & _ & Heq). apply Heq. reflexivity.
Defined.

(** ** Payload ranges *)

(** Against C6 as stated: the first record of the default dataset is a
    Utilities record whose payload has the field [ph], and no range table
    registers bounds for [ph]. *)
Lemma ph_has_no_table :
  generate_dataset (R := MT19937.python) clock_a 1 RNG_SEED
  = Ok [record_1000 (clock_a 0%nat)]
  /\ ~ payload_in_table (record_1000 (clock_a 0%nat)).
Proof.
  split.
  - exact (generate_dataset_prefix clock_a RNG_SEED 1 5 _ ltac:(lia)
             (default_dataset clock_a (clock_a_in_range 5 ltac:(lia)))).
  - unfold payload_in_table.
    cbn [record_1000 category severity sensor_measurement Sensor.payload].
    intros H. inversion H as [|? ? _ Hrest]; subst.
    inversion Hrest as [|? ? (b & Hb & _) _]; subst.
    vm_compute in Hb. discriminate Hb.
Qed.

(** C6, amended.  In every record of a dataset that [generate_dataset]
    returns each numeric field of the payload other than [ph] lies, after
    its rounding, within the bounds that the range tables register for it
    under the record's category and severity; [ph] lies within the fixed
    interval from 6.5 to 8.3 of [_utilities_payload], whatever the severity.
    A run returns whenever its clock is in range for its size. *)
Theorem payload_range_conformance {R : PyRandom} (clk : nat -> datetime) (size seed : Z) :
  (forall rs, generate_dataset clk size seed = Ok rs -> Forall payload_in_bounds rs)
  /\ (clock_in_range clk size -> exists rs, generate_dataset clk size seed = Ok rs).
Proof.
  split; [|apply generate_dataset_in_range].
  intros rs. apply generate_all.
  intros i w1 w2 rf Hb. exact (built_payload _ _ _ _ _ Hb).
Qed.

Lemma payload_range_conformance_witness :
  Forall payload_in_bounds (map fst (default_records clock_a)).
Proof.
  exact (proj1 (payload_range_conformance (R := MT19937.python) clock_a 5 RNG_SEED) _
           (default_dataset clock_a (clock_a_in_range 5 ltac:(lia)))).
Defined.

(** ** The order of the detection times *)

(** Against C8 as stated: in the default dataset record 2 is detected
    later than record 0 (42882 minutes before its clock reading, against
    59662). *)
Lemma detected_not_decreasing :
  exists rs,
    generate_dataset (R := MT19937.python) clock_a 3 RNG_SEED = Ok rs
    /\ ~ detected_strictly_decreasing rs.
Proof.
  eexists. split.
  - exact (generate_dataset_prefix clock_a RNG_SEED 3 5 _ ltac:(lia)
             (default_dataset clock_a (clock_a_in_range 5 ltac:(lia)))).
  - intros H.
    specialize (H 0%nat 2%nat (record_1000 (clock_a 0%nat)) (record_1002 (clock_a 2%nat))
                  ltac:(lia) eq_refl eq_refl).
    vm_compute in H. discriminate H.
Qed.

(** C8, amended.  In a dataset that [generate_dataset] returns the record
    at index [i] is detected between [129600 + 3 i] and [3 i] minutes before
    the clock reading taken while it is built, at a time that is a datetime
    (of year 1 or later); the detection times need not decrease along the
    dataset.  A run returns whenever its clock is in range for its size. *)
Theorem detected_within_window {R : PyRandom} (clk : nat -> datetime) (size seed : Z) :
  (forall rs,
      generate_dataset clk size seed = Ok rs ->
      forall i r, nth_error rs i = Some r ->
                  detected_window (clk i) (Z.of_nat i) r /\ is_datetime (detected_at r))
  /\ (clock_in_range clk size -> exists rs, generate_dataset clk size seed = Ok rs).
Proof.
  split; [|apply generate_dataset_in_range].
  intros rs E i r Hi.
  destruct (generate_Ok _ _ _ _ E) as (rfs & _ & -> & Hall).
  rewrite nth_error_map in Hi.
  destruct (nth_error rfs i) as [rf|] eqn:N; [|discriminate Hi].
  injection Hi as <-.
  destruct (Forall2_seq_nth _ _ _ _ _ _ Hall N) as (w1 & w2 & Ht & _ & Hb).
  cbn [Nat.add] in *. split.
  - rewrite <- Ht at 1. exact (built_window _ _ _ _ _ Hb).
  - exact (proj1 (built_valid _ _ _ _ _ Hb)).
Qed.

Lemma detected_within_window_witness :
  detected_window (clock_a 2%nat) 2 (record_1002 (clock_a 2%nat)).
Proof.
  exact (proj1 (proj1 (detected_within_window (R := MT19937.python) clock_a 5 RNG_SEED) _
                  (default_dataset clock_a (clock_a_in_range 5 ltac:(lia)))
                  2%nat _ eq_refl)).
Defined.

(** ** Calls to the generator *)

(** Against C9 as stated: in the default dataset building record 1000 makes
    12 calls to the generator and building record 1004, which is resolved,
    makes 14. *)
Lemma draws_not_fixed :
  ~ exists n : nat,
      forall index w r w',
        _build_record (R := MT19937.python) clock_a index w = Ok (r, w') ->
        draws w' = (draws w + n)%nat.
Proof.
  intros [n Hn].
  destruct (generate_flagged_Ok (R := MT19937.python) clock_a 5 RNG_SEED _
              (default_flagged clock_a (clock_a_in_range 5 ltac:(lia))))
    as [_ Hall].
  assert (Hcall : forall i rf,
             nth_error (default_records clock_a) i = Some rf ->
             (record_draws (fst rf) (snd rf) = n)%nat).
  { intros i rf Hi.
    destruct (Forall2_seq_nth _ _ _ _ _ _ Hall Hi) as (w1 & w2 & _ & E & Hb).
    assert (E' : _build_record clock_a (Z.of_nat (0 + i)) w1 = Ok (fst rf, w2)).
    { unfold _build_record. rewrite (bind_Ok _ _ _ _ _ E). reflexivity. }
    apply Hn in E'. rewrite (built_draws _ _ _ _ _ Hb) in E'. lia. }
  pose proof (Hcall 0%nat _ eq_refl) as H0.
  pose proof (Hcall 4%nat _ eq_refl) as H4.
  vm_compute in H0, H4. congruence.
Qed.

(** C9, amended.  A call of [_build_record] that returns has made a number
    of calls to the generator that depends on what was drawn: nine, plus
    none, one or two as the status is open, acknowledged or resolved, plus
    one unless the record is a false positive, plus one or two as the payload
    of the category has one or two fields.  The call returns whenever the
    clock reading it takes is in range for its index; otherwise it can raise
    [OverflowError], and nothing else. *)
Theorem draws_per_record {R : PyRandom} (clk : nat -> datetime) (index : Z) (w : World) :
  (forall r w',
      _build_record clk index w = Ok (r, w') ->
      exists fp,
        _build_record_flagged clk index w = Ok ((r, fp), w')
        /\ draws w' = (draws w + record_draws r fp)%nat
        /\ (10 <= record_draws r fp <= 14)%nat)
  /\ (forall e, _build_record clk index w = Raise e -> e = OverflowError)
  /\ (reading_in_range index (clk (ticks w)) ->
      exists r w', _build_record clk index w = Ok (r, w')).
Proof.
  split; [|split].
  - intros r w' E. destruct (build_record_Ok _ _ _ _ _ E) as [fp Ef].
    exists fp. split; [exact Ef|]. split.
    + exact (built_draws _ _ _ _ _ (build_record_flagged_Ok _ _ _ _ _ Ef)).
    + unfold record_draws, status_draws, payload_draws.
      destruct fp; repeat match goal with |- context [if ?b then _ else _] =>
        destruct b end; lia.
  - intros e E. exact (proj1 (build_record_Raise _ _ _ _ E)).
  - intros Hs. destruct (build_record_in_range clk index w Hs) as (r & fp & w' & _ & E).
    exists r, w'. exact E.
Qed.

Lemma draws_per_record_witness :
  exists r w',
    _build_record (R := MT19937.python) clock_a 0 (fresh RNG_SEED) = Ok (r, w')
    /\ (10 <= draws w' <= 14)%nat.
Proof.
  destruct (draws_per_record (R := MT19937.python) clock_a 0 (fresh RNG_SEED))
    as (Hd & _ & Hret).
  destruct Hret as (r & w' & E).
  { exact (clock_a_in_range 1 ltac:(lia) 0%nat ltac:(lia)). }
  exists r, w'. split; [exact E|].
  destruct (Hd r w' E) as (fp & _ & Hdr & Hrange).
  rewrite Hdr. cbn [fresh draws]. lia.
Defined.

(** * More on records and functions *)

Ltac run spec :=
  apply returns_bind; eapply returns_weaken; [eapply spec | cbv beta].

Ltac step spec :=
  apply outcome_bind; eapply outcome_weaken;
  [apply outcome_returns; eapply spec | cbv beta].

Ltac checked spec :=
  apply outcome_bind; eapply outcome_weaken; [eapply spec | cbv beta].

Ltac each_member H :=
  repeat (destruct H as [<- | H]); [.. | contradiction H].

(** ** Unknown keys *)

Lemma dict_get_missing {R : PyRandom} {V : Type} (key : string) (d : dict V)
    (w : World) :
  dict_lookup key d = None -> dict_get key d w = Raise KeyError.
Proof. intros H. unfold dict_get. rewrite H. reflexivity. Qed.

(** The five category tables have the five categories as keys and no
    other. *)
Lemma category_tables_keys (category : string) :
  ~ In category CATEGORIES ->
  dict_lookup category SEVERITY_WEIGHTS = None
  /\ dict_lookup category LOCATIONS = None
  /\ dict_lookup category TITLES = None
  /\ dict_lookup category DESCRIPTIONS = None
  /\ dict_lookup category IMPACTS = None
  /\ dict_lookup category SENSOR_IDS = None.
Proof.
  intros Hnot. unfold CATEGORIES in Hnot. cbn [In] in Hnot.
  assert (H1 : (category =? "Traffic")%string = false)
    by (apply String.eqb_neq; intros ->; tauto).
  assert (H2 : (category =? "Cybersecurity")%string = false)
    by (apply String.eqb_neq; intros ->; tauto).
  assert (H3 : (category =? "Public Safety")%string = false)
    by (apply String.eqb_neq; intros ->; tauto).
  assert (H4 : (category =? "Utilities")%string = false)
    by (apply String.eqb_neq; intros ->; tauto).
  assert (H5 : (category =? "Environmental")%string = false)
    by (apply String.eqb_neq; intros ->; tauto).
  unfold SEVERITY_WEIGHTS, LOCATIONS, TITLES, DESCRIPTIONS, IMPACTS, SENSOR_IDS.
  cbn [dict_lookup]. rewrite H1, H2, H3, H4, H5. repeat split; reflexivity.
Qed.

Lemma severity_tables_keys (severity : string) :
  ~ In severity SEVERITIES ->
  dict_lookup severity STATUS_WEIGHTS = None
  /\ dict_lookup severity FALSE_POSITIVE_PROBABILITY = None
  /\ dict_lookup severity ack_bounds = None
  /\ dict_lookup severity res_bounds = None.
Proof.
  intros Hnot. unfold SEVERITIES in Hnot. cbn [In] in Hnot.
  assert (H1 : (severity =? "low")%string = false)
    by (apply String.eqb_neq; intros ->; tauto).
  assert (H2 : (severity =? "medium")%string = false)
    by (apply String.eqb_neq; intros ->; tauto).
  assert (H3 : (severity =? "high")%string = false)
    by (apply String.eqb_neq; intros ->; tauto).
  assert (H4 : (severity =? "critical")%string = false)
    by (apply String.eqb_neq; intros ->; tauto).
  unfold STATUS_WEIGHTS, FALSE_POSITIVE_PROBABILITY, ack_bounds, res_bounds.
  cbn [dict_lookup]. rewrite H1, H2, H3, H4. repeat split; reflexivity.
Qed.

(** X1.  Each helper that subscripts a table with the category raises
    [KeyError] for a category that is none of the five, whatever the state
    of the generator. *)
Theorem unknown_category_raises {R : PyRandom} (category severity : string)
    (d : datetime) (false_positive : bool) (w : World) :
  ~ In category CATEGORIES ->
  _pick_severity category w = Raise KeyError
  /\ _choose_location category w = Raise KeyError
  /\ _choose_title category w = Raise KeyError
  /\ _choose_description category w = Raise KeyError
  /\ _choose_impact category severity w = Raise KeyError
  /\ _sensor_measurement category severity d false_positive w = Raise KeyError.
Proof.
  intros Hnot.
  destruct (category_tables_keys category Hnot) as (H1 & H2 & H3 & H4 & H5 & H6).
  unfold _pick_severity, _choose_location, _choose_title, _choose_description,
    _choose_impact, _sensor_measurement.
  repeat split;
    first [ apply dict_get_missing; assumption
          | apply bind_Raise; apply dict_get_missing; assumption ].
Qed.

Lemma unknown_category_raises_witness :
  ~ In "Weather" CATEGORIES
  /\ _pick_severity (R := MT19937.python) "Weather" (fresh RNG_SEED) = Raise KeyError.
Proof.
  assert (H : ~ In "Weather" CATEGORIES).
  { unfold CATEGORIES. cbn [In]. intros [E|[E|[E|[E|[E|[]]]]]]; discriminate E. }
  split; [exact H|].
  exact (proj1 (unknown_category_raises (R := MT19937.python)
                  "Weather" "low" 0 false (fresh RNG_SEED) H)).
Defined.

(** X2.  [_pick_status] raises [KeyError] for a severity that is none of the
    four, and so does [_acknowledged_and_resolved] unless the status is
    open. *)
Theorem unknown_severity_raises {R : PyRandom} (status severity : string)
    (d : datetime) (w : World) :
  ~ In severity SEVERITIES ->
  _pick_status severity w = Raise KeyError
  /\ (status <> "open" ->
      _acknowledged_and_resolved status severity d w = Raise KeyError).
Proof.
  intros Hnot.
  destruct (severity_tables_keys severity Hnot) as (H1 & _ & H3 & _).
  split.
  - unfold _pick_status. apply bind_Raise. apply dict_get_missing. exact H1.
  - intros Hst. unfold _acknowledged_and_resolved.
    apply String.eqb_neq in Hst. rewrite Hst.
    apply bind_Raise. apply dict_get_missing. exact H3.
Qed.

Lemma unknown_severity_raises_witness :
  ~ In "severe" SEVERITIES
  /\ _pick_status (R := MT19937.python) "severe" (fresh RNG_SEED) = Raise KeyError.
Proof.
  assert (H : ~ In "severe" SEVERITIES).
  { unfold SEVERITIES. cbn [In]. intros [E|[E|[E|[E|[]]]]]; discriminate E. }
  split; [exact H|].
  exact (proj1 (unknown_severity_raises (R := MT19937.python)
                  "open" "severe" 0 (fresh RNG_SEED) H)).
Defined.

(** ** The branches of [_acknowledged_and_resolved] *)

Lemma outcome_acknowledged_times {R : PyRandom} (safe : Prop)
    (status severity : string) (d : datetime) (w : World) :
  In severity SEVERITIES ->
  (safe -> datetime_min <= d /\ d + timedelta_minutes (360 + 1440) <= datetime_max) ->
  outcome safe (_acknowledged_and_resolved status severity d) w
    (fun ar w' =>
       response_times severity d ar
       /\ (status = "open" -> ar = (None, None) /\ w' = w)
       /\ (status = "acknowledged" ->
           fst ar <> None /\ snd ar = None /\ advance 1 0 w w')
       /\ (status <> "open" -> status <> "acknowledged" ->
           fst ar <> None /\ snd ar <> None /\ advance 2 0 w w')).
Proof.
  intros Hsev Hsafe. unfold _acknowledged_and_resolved, isoformat.
  destruct (String.eqb_spec status "open") as [Eo|Eo].
  - apply outcome_ret. unfold response_times. cbn [fst snd].
    repeat split; try discriminate; try congruence.
  - destruct (String.eqb_spec status "acknowledged") as [Ea|Ea].
    + each_member Hsev;
        (step @returns_dict_get; [reflexivity|];
         intros b w0 [-> ->]; cbv beta iota;
         step @returns_randint; [lia|];
         intros m w1 [Hm Hadv];
         checked @outcome_timedelta; [intros _; lia|];
         intros delta w1' [-> ->];
         checked @outcome_datetime_add;
           [intros Hs; apply Hsafe in Hs; unfold is_datetime, timedelta_minutes in *; lia|];
         intros a0 w1' (-> & _ & ->);
         apply outcome_ret; unfold response_times; cbn [fst snd];
         split; [split|split; [|split]];
         [ intros a [= <-]; eexists; (split; [reflexivity|]);
           exists m; cbn [fst snd]; (split; [lia | reflexivity])
         | intros a s _ [=]
         | intros Hs; congruence
         | intros _; split; [discriminate | split; [reflexivity | exact Hadv]]
         | intros _ Hs; congruence ]).
    + each_member Hsev;
        (step @returns_dict_get; [reflexivity|];
         intros b w0 [-> ->]; cbv beta iota;
         step @returns_randint; [lia|];
         intros m w1 [Hm Hadv1];
         checked @outcome_timedelta; [intros _; lia|];
         intros delta w1' [-> ->];
         checked @outcome_datetime_add;
           [intros Hs; apply Hsafe in Hs; unfold is_datetime, timedelta_minutes in *; lia|];
         intros a0 w1' (-> & _ & ->);
         step @returns_dict_get; [reflexivity|];
         intros b2 w0 [-> ->]; cbv beta iota;
         step @returns_randint; [lia|];
         intros m2 w2 [Hm2 Hadv2];
         checked @outcome_timedelta; [intros _; lia|];
         intros delta w2' [-> ->];
         checked @outcome_datetime_add;
           [intros Hs; apply Hsafe in Hs; unfold is_datetime, timedelta_minutes in *; lia|];
         intros r0 w2' (-> & _ & ->);
         apply outcome_ret; unfold response_times; cbn [fst snd];
         split; [split|split; [|split]];
         [ intros a [= <-]; eexists; (split; [reflexivity|]);
           exists m; cbn [fst snd]; (split; [lia | reflexivity])
         | intros a s [= <-] [= <-]; eexists; (split; [reflexivity|]);
           exists m2; cbn [fst snd]; (split; [lia | reflexivity])
         | intros Hs; congruence
         | intros Hs; congruence
         | intros _ _; split; [discriminate | split; [discriminate|]];
           apply (advance_trans 1 0 1 0 w w1 w2); assumption ]).
Qed.

(** X3.  [_acknowledged_and_resolved] tells three cases apart, for any
    status string and a severity of the four.  Where it returns: for open it
    returns no timestamp and leaves the generator as it was; for
    acknowledged it has drawn once and returns only the acknowledgement;
    every other status, known or not, it treats as resolved: it has drawn
    twice and returns both timestamps.  In each case the delays are whole
    minutes within [ack_bounds] and [res_bounds] of the severity.  It raises
    nothing but [OverflowError], and it returns whenever the detection time
    is a datetime at least 30 hours before [datetime.max]. *)
Theorem acknowledged_and_resolved_cases {R : PyRandom} (status severity : string)
    (d : datetime) (w : World) :
  In severity SEVERITIES ->
  (forall ar w',
      _acknowledged_and_resolved status severity d w = Ok (ar, w') ->
      response_times severity d ar
      /\ (status = "open" -> ar = (None, None) /\ w' = w)
      /\ (status = "acknowledged" ->
          fst ar <> None /\ snd ar = None /\ draws w' = (draws w + 1)%nat)
      /\ (status <> "open" -> status <> "acknowledged" ->
          fst ar <> None /\ snd ar <> None /\ draws w' = (draws w + 2)%nat))
  /\ (forall e, _acknowledged_and_resolved status severity d w = Raise e ->
                e = OverflowError)
  /\ (datetime_min <= d -> d + timedelta_minutes (360 + 1440) <= datetime_max ->
      exists ar w', _acknowledged_and_resolved status severity d w = Ok (ar, w')).
Proof.
  intros Hsev.
  pose proof (outcome_acknowledged_times
                (datetime_min <= d /\ d + timedelta_minutes (360 + 1440) <= datetime_max)
                status severity d w Hsev (fun H => H)) as Hout.
  split; [|split].
  - intros ar w' E.
    destruct (outcome_Ok _ _ _ _ _ _ Hout E) as (Hr & Ho & Ha & Hres).
    split; [exact Hr|]. split; [exact Ho|]. split.
    + intros Hst. destruct (Ha Hst) as (H1 & H2 & [H3 _]). auto.
    + intros H1 H2. destruct (Hres H1 H2) as (H3 & H4 & [H5 _]). auto.
  - intros e E. exact (proj1 (outcome_Raise _ _ _ _ _ Hout E)).
  - intros H1 H2.
    destruct (outcome_safe _ _ _ _ Hout (conj H1 H2)) as (ar & w' & E & _).
    exists ar, w'. exact E.
Qed.

Lemma acknowledged_and_resolved_cases_witness :
  In "critical" SEVERITIES
  /\ exists ar w',
       _acknowledged_and_resolved (R := MT19937.python) "closed" "critical" 0
         (fresh RNG_SEED) = Ok (ar, w')
       /\ fst ar <> None /\ snd ar <> None.
Proof.
  assert (H : In "critical" SEVERITIES) by (unfold SEVERITIES; cbn [In]; tauto).
  split; [exact H|].
  destruct (acknowledged_and_resolved_cases (R := MT19937.python)
              "closed" "critical" 0 (fresh RNG_SEED) H)
    as (Hcases & _ & Hret).
  destruct Hret as (ar & w' & E).
  { unfold datetime_min. lia. }
  { unfold timedelta_minutes, datetime_max. lia. }
  exists ar, w'. split; [exact E|].
  destruct (Hcases ar w' E) as (_ & _ & _ & Hres).
  destruct (Hres ltac:(discriminate) ltac:(discriminate)) as (H1 & H2 & _).
  split; assumption.
Defined.

(** ** The other helpers, for any argument *)

Lemma returns_sensor_status_rule {R : PyRandom} (severity : string)
    (false_positive : bool) (w : World) :
  returns (_sensor_status severity false_positive) w
    (fun st w' => sensor_status_rule severity false_positive st /\ advance 1 0 w w').
Proof.
  unfold _sensor_status, sensor_status_rule, sensor_statuses.
  destruct false_positive.
  - eapply returns_weaken; [apply returns_choices; vm_compute; reflexivity|].
    intros st w' [Hin Hadv]. split; [|exact Hadv]. cbn [In] in *.
    repeat split; try discriminate; [tauto|].
    intros _ ->. destruct Hin as [E|[E|[]]]; discriminate E.
  - destruct (String.eqb_spec severity "critical") as [Ec|Ec];
      [|destruct (String.eqb_spec severity "high") as [Eh|Eh];
        [|destruct (String.eqb_spec severity "medium") as [Em|Em]]];
      (eapply returns_weaken; [apply returns_choices; vm_compute; reflexivity|];
       intros st w' [Hin Hadv]; split; [|exact Hadv]; cbn [In] in *;
       repeat split; try discriminate; try tauto; try congruence;
       intros; intros ->; destruct Hin as [E|[E|[]]]; discriminate E).
Qed.

(** X4.  [_sensor_status] returns healthy, warning or alert, for any
    severity string.  A false positive is never in alert, nor is a record
    whose severity is none of critical, high and medium (the last branch
    takes every other string); a critical record that is no false positive is
    never healthy. *)
Theorem sensor_status_values {R : PyRandom} (severity : string)
    (false_positive : bool) (w : World) :
  exists st w',
    _sensor_status severity false_positive w = Ok (st, w')
    /\ sensor_status_rule severity false_positive st
    /\ draws w' = (draws w + 1)%nat.
Proof.
  destruct (returns_sensor_status_rule severity false_positive w)
    as (st & w' & E & Hrule & [Hd _]).
  exists st, w'. auto.
Qed.

Lemma returns_sensor_payload_shape {R : PyRandom} (category severity : string)
    (w : World) :
  In severity SEVERITIES ->
  returns (_sensor_payload category severity) w
    (fun p w' => shape_of p = payload_shape category).
Proof.
  intros Hsev. unfold _sensor_payload, payload_shape.
  destruct (category =? "Traffic")%string.
  { unfold _traffic_payload.
    each_member Hsev;
      (run @returns_dict_get; [reflexivity|]; intros b w0 [-> ->];
       cbn [vehicle_count avg_speed_kmh fst snd];
       run @returns_randint; [lia|]; intros v w1 _;
       run @returns_uniform; intros u w2 _;
       apply returns_ret; reflexivity). }
  destruct (category =? "Cybersecurity")%string.
  { unfold _cyber_payload.
    each_member Hsev;
      (run @returns_dict_get; [reflexivity|]; intros b w0 [-> ->];
       cbn [failed_attempts unique_ips fst snd];
       run @returns_randint; [lia|]; intros v w1 _;
       run @returns_randint; [lia|]; intros u w2 _;
       apply returns_ret; reflexivity). }
  destruct (category =? "Public Safety")%string.
  { unfold _public_safety_payload.
    each_member Hsev;
      (run @returns_dict_get; [reflexivity|]; intros b w0 [-> ->]; cbv beta iota;
       run @returns_uniform; intros u w1 _;
       apply returns_ret; reflexivity). }
  destruct (category =? "Utilities")%string.
  { unfold _utilities_payload.
    each_member Hsev;
      (run @returns_dict_get; [reflexivity|]; intros b w0 [-> ->]; cbv beta iota;
       run @returns_uniform; intros u w1 _;
       run @returns_uniform; intros v w2 _;
       apply returns_ret; reflexivity). }
  unfold _environmental_payload.
  each_member Hsev;
    (run @returns_dict_get; [reflexivity|]; intros b w0 [-> ->]; cbv beta iota;
     run @returns_uniform; intros u w1 _;
     apply returns_ret; reflexivity).
Qed.

(** X5.  For a severity of the four and any category string the payload
    has the keys of [payload_shape], in that order, with ints for the
    counts and floats for the measurements; a category that is none of
    Traffic, Cybersecurity, Public Safety and Utilities, known or not, gets
    the environmental payload with the single key pm2_5. *)
Theorem sensor_payload_shape {R : PyRandom} (category severity : string) (w : World) :
  In severity SEVERITIES ->
  exists p w',
    _sensor_payload category severity w = Ok (p, w')
    /\ shape_of p = payload_shape category
    /\ (category <> "Traffic" -> category <> "Cybersecurity" ->
        category <> "Public Safety" -> category <> "Utilities" ->
        exists v, p = [("pm2_5", Float v)]).
Proof.
  intros Hsev.
  destruct (returns_sensor_payload_shape category severity w Hsev)
    as (p & w' & E & Hshape).
  exists p, w'. split; [exact E|]. split; [exact Hshape|].
  intros H1 H2 H3 H4. unfold payload_shape in Hshape.
  apply String.eqb_neq in H1, H2, H3, H4. rewrite H1, H2, H3, H4 in Hshape.
  destruct p as [|[k [z|v]] [|kv p]]; try discriminate Hshape.
  injection Hshape as ->. exists v. reflexivity.
Qed.

Lemma sensor_payload_shape_witness :
  In "low" SEVERITIES
  /\ exists p w',
       _sensor_payload (R := MT19937.python) "Weather" "low" (fresh RNG_SEED)
       = Ok (p, w')
       /\ exists v, p = [("pm2_5", Float v)].
Proof.
  assert (H : In "low" SEVERITIES) by (unfold SEVERITIES; cbn [In]; tauto).
  split; [exact H|].
  destruct (sensor_payload_shape (R := MT19937.python) "Weather" "low"
              (fresh RNG_SEED) H) as (p & w' & E & _ & Henv).
  exists p, w'. split; [exact E|].
  apply Henv; discriminate.
Defined.

(** X6.  For a category of the five and any severity string
    [_choose_impact] returns the base string of the category followed by
    " Escalation priority elevated." when the severity is high or critical,
    and the base string itself for every other severity, known or not; it
    never touches the generator. *)
Theorem choose_impact_any_severity {R : PyRandom} (category severity : string)
    (w : World) :
  In category CATEGORIES ->
  exists base,
    dict_lookup category IMPACTS = Some base
    /\ (severity = "high" \/ severity = "critical" ->
        _choose_impact category severity w
        = Ok (base ++ " Escalation priority elevated.", w))
    /\ (severity <> "high" -> severity <> "critical" ->
        _choose_impact category severity w = Ok (base, w)).
Proof.
  intros Hc.
  assert (Hbase : exists base, dict_lookup category IMPACTS = Some base).
  { each_member Hc; eexists; reflexivity. }
  destruct Hbase as [base Hbase]. exists base. split; [exact Hbase|].
  unfold _choose_impact, bind, dict_get. rewrite Hbase. unfold ret.
  cbn [existsb]. split.
  - intros [-> | ->]; reflexivity.
  - intros H1 H2. apply String.eqb_neq in H1, H2. rewrite H1, H2. reflexivity.
Qed.

Lemma choose_impact_any_severity_witness :
  In "Traffic" CATEGORIES
  /\ _choose_impact (R := MT19937.python) "Traffic" "CRITICAL" (fresh RNG_SEED)
     = Ok ("Potential delays across connected routes.", fresh RNG_SEED).
Proof.
  assert (H : In "Traffic" CATEGORIES) by (unfold CATEGORIES; cbn [In]; tauto).
  split; [exact H|].
  destruct (choose_impact_any_severity (R := MT19937.python) "Traffic" "CRITICAL"
              (fresh RNG_SEED) H) as (base & Hb & _ & Hplain).
  injection Hb as <-.
  apply Hplain; discriminate.
Defined.

(** ** The details of a record *)

Lemma returns_choose_title_value {R : PyRandom} (category : string) (w : World) :
  In category CATEGORIES ->
  returns (_choose_title category) w
    (fun t w' => dict_lookup category TITLES = Some t /\ w' = w).
Proof.
  intros Hc. unfold _choose_title.
  each_member Hc;
    (eapply returns_weaken; [eapply returns_dict_get; reflexivity|];
     intros ? ? [-> ->]; split; reflexivity).
Qed.

Lemma returns_choose_description_value {R : PyRandom} (category : string) (w : World) :
  In category CATEGORIES ->
  returns (_choose_description category) w
    (fun t w' => dict_lookup category DESCRIPTIONS = Some t /\ w' = w).
Proof.
  intros Hc. unfold _choose_description.
  each_member Hc;
    (eapply returns_weaken; [eapply returns_dict_get; reflexivity|];
     intros ? ? [-> ->]; split; reflexivity).
Qed.

Lemma returns_root_cause_listed {R : PyRandom} (severity : string)
    (false_positive : bool) (w : World) :
  returns (_root_cause severity false_positive) w
    (fun rc _ => forall c, rc = Some c -> In c ROOT_CAUSES).
Proof.
  unfold _root_cause. destruct false_positive.
  - apply returns_ret. discriminate.
  - run @returns_choice; [discriminate|].
    intros c w' [Hin _]. apply returns_ret. intros c' [= <-]. exact Hin.
Qed.

(** The next two triples say what a call that returns has established;
    with [False] for [safe] they leave open when the call returns, which
    [outcome_build_record_flagged] tells. *)
Lemma outcome_sensor_measurement_details {R : PyRandom} (category severity : string)
    (d : datetime) (false_positive : bool) (w : World) :
  In category CATEGORIES -> In severity SEVERITIES ->
  outcome False (_sensor_measurement category severity d false_positive) w
    (fun m _ =>
       whole_minutes 1 12 (Sensor.captured_at m) d
       /\ sensor_status_rule severity false_positive (Sensor.status m)
       /\ shape_of (Sensor.payload m) = payload_shape category).
Proof.
  intros Hc Hsev. unfold _sensor_measurement, isoformat.
  assert (Hids : exists ids, dict_lookup category SENSOR_IDS = Some ids /\ ids <> []).
  { each_member Hc; eexists; (split; [reflexivity | discriminate]). }
  destruct Hids as (ids & Hids & Hne).
  step @returns_dict_get; [exact Hids|].
  intros ? w0 [-> ->].
  step @returns_choice; [exact Hne|].
  intros sensor_id w1 _.
  step @returns_sensor_status_rule.
  intros st w2 [Hrule _].
  step @returns_randint; [lia|].
  intros minutes w3 [Hmin _].
  checked @outcome_timedelta; [intros []|].
  intros delta w3' [-> ->].
  checked @outcome_datetime_sub; [intros []|].
  intros captured w3' (-> & _ & ->).
  step @returns_sensor_payload_shape; [exact Hsev|].
  intros p w4 Hshape.
  apply outcome_ret. cbn [Sensor.captured_at Sensor.status Sensor.payload].
  split; [|split; assumption].
  exists minutes. split; [exact Hmin | lia].
Qed.

Lemma outcome_build_record_detailed {R : PyRandom} (clk : nat -> datetime)
    (index : Z) (w : World) :
  outcome False (_build_record_flagged clk index) w
    (fun rf _ => detailed (fst rf) (snd rf)).
Proof.
  unfold _build_record_flagged, isoformat.
  step @returns_choice; [discriminate|].
  intros c w1 [Hc _].
  step @returns_pick_severity; [exact Hc|].
  intros sev w2 [Hsev _].
  step @returns_pick_status; [exact Hsev|].
  intros st w3 [Hst _].
  checked @outcome_detected_at; [intros []|].
  intros d w4 _.
  step @returns_random.
  intros u w5 _.
  assert (Hp : exists p, dict_lookup sev FALSE_POSITIVE_PROBABILITY = Some p).
  { clear - Hsev. each_member Hsev; eexists; reflexivity. }
  destruct Hp as [p Hp].
  step @returns_dict_get; [exact Hp|].
  intros ? w5' [-> ->].
  checked @outcome_acknowledged_times; [exact Hsev | intros [] |].
  intros [ack res] w6 [Htimes _].
  step @returns_choose_title_value; [exact Hc|].
  intros ti w6' [Hti ->].
  step @returns_choose_location; [exact Hc|].
  intros loc w7 _.
  step @returns_choose_description_value; [exact Hc|].
  intros de w7' [Hde ->].
  step @returns_choose_impact; [exact Hc | exact Hsev |].
  intros im w7' [_ ->].
  step @returns_root_cause_listed.
  intros rc w8 Hrc.
  checked @outcome_sensor_measurement_details; [exact Hc | exact Hsev |].
  intros sm w9 (Hcap & Hrule & Hshape).
  apply outcome_ret.
  constructor; cbn [fst snd title category severity description detected_at
                    acknowledged_at resolved_at root_cause sensor_measurement];
    assumption.
Qed.

(** Every record of a run that returns is [detailed]. *)
Lemma generate_detailed {R : PyRandom} (clk : nat -> datetime) (size seed : Z)
    (rfs : list (IncidentRecord * bool)) :
  generate_flagged clk size seed = Ok rfs ->
  Forall (fun rf => detailed (fst rf) (snd rf)) rfs.
Proof.
  intros Hf. destruct (generate_flagged_Ok _ _ _ _ Hf) as [_ Hall].
  clear Hf. induction Hall as [|i rf l rfs (w1 & w2 & _ & E & _) _ IH];
    constructor; [|exact IH].
  exact (outcome_Ok _ _ _ _ _ _ (outcome_build_record_detailed clk _ w1) E).
Qed.

Lemma generate_all_detailed {R : PyRandom} (clk : nat -> datetime) (size seed : Z)
    (rs : list IncidentRecord) (P : IncidentRecord -> Prop) :
  (forall r fp, detailed r fp -> P r) ->
  generate_dataset clk size seed = Ok rs -> Forall P rs.
Proof.
  intros HP E. destruct (generate_Ok _ _ _ _ E) as (rfs & Hf & -> & _).
  rewrite Forall_map.
  eapply Forall_impl; [|exact (generate_detailed _ _ _ _ Hf)].
  intros [r fp] Hd. exact (HP r fp Hd).
Qed.

(** ** More properties of the dataset *)

(** X7.  In every record of a dataset that [generate_dataset] returns the
    title is [TITLES[category]] and the description is
    [DESCRIPTIONS[category]]: two records of one category have the same
    title and the same description.  A run returns whenever its clock is in
    range for its size. *)
Theorem title_and_description_by_category {R : PyRandom} (clk : nat -> datetime)
    (size seed : Z) :
  (forall rs,
      generate_dataset clk size seed = Ok rs ->
      Forall (fun r => dict_lookup (category r) TITLES = Some (title r)
                       /\ dict_lookup (category r) DESCRIPTIONS = Some (description r))
        rs
      /\ (forall r1 r2, In r1 rs -> In r2 rs -> category r1 = category r2 ->
          title r1 = title r2 /\ description r1 = description r2))
  /\ (clock_in_range clk size -> exists rs, generate_dataset clk size seed = Ok rs).
Proof.
  split; [|apply generate_dataset_in_range].
  intros rs E.
  assert (H : Forall (fun r => dict_lookup (category r) TITLES = Some (title r)
                               /\ dict_lookup (category r) DESCRIPTIONS
                                  = Some (description r)) rs).
  { apply (generate_all_detailed clk size seed rs _
             (fun r fp Hr => conj (detailed_title r fp Hr) (detailed_description r fp Hr))
             E). }
  split; [exact H|].
  rewrite Forall_forall in H.
  intros r1 r2 H1 H2 Hcat.
  destruct (H r1 H1) as [T1 D1]. destruct (H r2 H2) as [T2 D2].
  rewrite Hcat in T1, D1. split; congruence.
Qed.

Lemma title_and_description_by_category_witness :
  Forall (fun r => dict_lookup (category r) TITLES = Some (title r)
                   /\ dict_lookup (category r) DESCRIPTIONS = Some (description r))
    (map fst (default_records clock_a)).
Proof.
  exact (proj1 (proj1 (title_and_description_by_category (R := MT19937.python)
                         clock_a 5 RNG_SEED) _
                  (default_dataset clock_a (clock_a_in_range 5 ltac:(lia))))).
Defined.

(** X8.  In every record of a dataset that [generate_dataset] returns the
    severity is one of low, medium, high and critical and the status one of
    open, acknowledged and resolved.  A run returns whenever its clock is in
    range for its size. *)
Theorem severity_and_status_values {R : PyRandom} (clk : nat -> datetime)
    (size seed : Z) :
  (forall rs,
      generate_dataset clk size seed = Ok rs ->
      Forall (fun r => In (severity r) SEVERITIES /\ In (status r) STATUSES) rs)
  /\ (clock_in_range clk size -> exists rs, generate_dataset clk size seed = Ok rs).
Proof.
  split; [|apply generate_dataset_in_range].
  intros rs. apply generate_all.
  intros i w1 w2 rf Hb.
  exact (conj (built_severity _ _ _ _ _ Hb) (built_status _ _ _ _ _ Hb)).
Qed.

Lemma severity_and_status_values_witness :
  Forall (fun r => In (severity r) SEVERITIES /\ In (status r) STATUSES)
    (map fst (default_records clock_a)).
Proof.
  exact (proj1 (severity_and_status_values (R := MT19937.python) clock_a 5 RNG_SEED) _
           (default_dataset clock_a (clock_a_in_range 5 ltac:(lia)))).
Defined.

(** X9.  In a dataset that [generate_dataset] returns a root cause, where a
    record has one, is one of the eight of [ROOT_CAUSES].  A run returns
    whenever its clock is in range for its size. *)
Theorem root_cause_values {R : PyRandom} (clk : nat -> datetime) (size seed : Z) :
  (forall rs,
      generate_dataset clk size seed = Ok rs ->
      Forall (fun r => forall c, root_cause r = Some c -> In c ROOT_CAUSES) rs)
  /\ (clock_in_range clk size -> exists rs, generate_dataset clk size seed = Ok rs).
Proof.
  split; [|apply generate_dataset_in_range].
  intros rs. apply generate_all_detailed.
  intros r fp Hr. exact (detailed_root_cause r fp Hr).
Qed.

Lemma root_cause_values_witness :
  Forall (fun r => forall c, root_cause r = Some c -> In c ROOT_CAUSES)
    (map fst (default_records clock_a)).
Proof.
  exact (proj1 (root_cause_values (R := MT19937.python) clock_a 5 RNG_SEED) _
           (default_dataset clock_a (clock_a_in_range 5 ltac:(lia)))).
Defined.

Lemma ack_bounds_range (severity : string) (b : Z * Z) :
  dict_lookup severity ack_bounds = Some b -> 3 <= fst b /\ snd b <= 360.
Proof.
  unfold ack_bounds. cbn [dict_lookup].
  repeat match goal with
         | |- context [if ?c then _ else _] => destruct c
         end; intros [= <-]; cbn [fst snd]; lia.
Qed.

Lemma res_bounds_range (severity : string) (b : Z * Z) :
  dict_lookup severity res_bounds = Some b -> 60 <= fst b /\ snd b <= 1440.
Proof.
  unfold res_bounds. cbn [dict_lookup].
  repeat match goal with
         | |- context [if ?c then _ else _] => destruct c
         end; intros [= <-]; cbn [fst snd]; lia.
Qed.

(** X10.  In every record of a dataset that [generate_dataset] returns an
    acknowledgement follows the detection by a whole number of minutes
    within [ack_bounds[severity]], and a resolution follows the
    acknowledgement by a whole number of minutes within
    [res_bounds[severity]]; so a resolved incident is resolved no sooner than
    63 minutes and no later than 30 hours after its detection.  A run
    returns whenever its clock is in range for its size. *)
Theorem response_delays {R : PyRandom} (clk : nat -> datetime) (size seed : Z) :
  (forall rs,
      generate_dataset clk size seed = Ok rs ->
      Forall (fun r =>
         response_times (severity r) (detected_at r) (acknowledged_at r, resolved_at r)
         /\ (forall s, resolved_at r = Some s ->
             detected_at r + timedelta_minutes 63 <= s
             /\ s <= detected_at r + timedelta_minutes 1800)) rs)
  /\ (clock_in_range clk size -> exists rs, generate_dataset clk size seed = Ok rs).
Proof.
  split; [|apply generate_dataset_in_range].
  intros rs E.
  pose proof (generate_all clk size seed rs temporal_order
                (fun i w1 w2 rf H => built_order _ _ _ _ _ H) E) as Hb.
  pose proof (generate_all_detailed clk size seed rs _
                (fun r fp Hr => detailed_response r fp Hr) E) as Ht.
  rewrite Forall_forall in Hb, Ht. apply Forall_forall. intros r Hr.
  specialize (Hb r Hr). specialize (Ht r Hr). cbv beta in Ht.
  split; [exact Ht|].
  intros s Hs.
  destruct Hb as (_ & _ & _ & Hack). destruct (Hack s Hs) as [a Ha].
  destruct Ht as [Hfirst Hsecond]. cbn [fst snd] in *.
  destruct (Hfirst a Ha) as (b1 & Hb1 & m1 & Hm1 & E1).
  destruct (Hsecond a s Ha Hs) as (b2 & Hb2 & m2 & Hm2 & E2).
  apply ack_bounds_range in Hb1. apply res_bounds_range in Hb2.
  unfold timedelta_minutes in *. lia.
Qed.

Lemma response_delays_witness :
  Forall (fun r =>
     response_times (severity r) (detected_at r) (acknowledged_at r, resolved_at r)
     /\ (forall s, resolved_at r = Some s ->
         detected_at r + timedelta_minutes 63 <= s
         /\ s <= detected_at r + timedelta_minutes 1800))
    (map fst (default_records clock_a)).
Proof.
  exact (proj1 (response_delays (R := MT19937.python) clock_a 5 RNG_SEED) _
           (default_dataset clock_a (clock_a_in_range 5 ltac:(lia)))).
Defined.

(** X11.  In every record of a dataset that [generate_dataset] returns the
    measurement is captured a whole number of minutes, between 1 and 12,
    before the detection.  A run returns whenever its clock is in range for
    its size. *)
Theorem capture_lead {R : PyRandom} (clk : nat -> datetime) (size seed : Z) :
  (forall rs,
      generate_dataset clk size seed = Ok rs ->
      Forall (fun r => whole_minutes 1 12 (Sensor.captured_at (sensor_measurement r))
                         (detected_at r)) rs)
  /\ (clock_in_range clk size -> exists rs, generate_dataset clk size seed = Ok rs).
Proof.
  split; [|apply generate_dataset_in_range].
  intros rs. apply generate_all_detailed.
  intros r fp Hr. exact (detailed_capture r fp Hr).
Qed.

Lemma capture_lead_witness :
  Forall (fun r => whole_minutes 1 12 (Sensor.captured_at (sensor_measurement r))
                     (detected_at r))
    (map fst (default_records clock_a)).
Proof.
  exact (proj1 (capture_lead (R := MT19937.python) clock_a 5 RNG_SEED) _
           (default_dataset clock_a (clock_a_in_range 5 ltac:(lia)))).
Defined.

(** X12.  In every record of a run that returns the status of the sensor is
    healthy, warning or alert; the sensor of a false positive is never in
    alert, that of a low record never in alert either, and that of a
    critical record which is no false positive never healthy.  A run returns
    whenever its clock is in range for its size. *)
Theorem sensor_status_by_severity {R : PyRandom} (clk : nat -> datetime)
    (size seed : Z) :
  (forall rfs,
      generate_flagged clk size seed = Ok rfs ->
      generate_dataset clk size seed = Ok (map fst rfs)
      /\ Forall (fun rf =>
           let st := Sensor.status (sensor_measurement (fst rf)) in
           In st sensor_statuses
           /\ (snd rf = true -> st <> "alert")
           /\ (severity (fst rf) = "low" -> st <> "alert")
           /\ (snd rf = false -> severity (fst rf) = "critical" -> st <> "healthy")) rfs)
  /\ (clock_in_range clk size -> exists rfs, generate_flagged clk size seed = Ok rfs).
Proof.
  split.
  - intros rfs Hf. split; [exact (proj1 (generate_flagged_Ok _ _ _ _ Hf))|].
    eapply Forall_impl; [|exact (generate_detailed _ _ _ _ Hf)].
    intros [r fp] Hr. cbn [fst snd] in *.
    destruct (detailed_sensor r fp Hr) as (Hin & Hfp & Hcrit & Hlow).
    repeat split; try assumption.
    intros Hsev. destruct fp; [apply Hfp; reflexivity|].
    apply Hlow; try reflexivity; rewrite Hsev; discriminate.
  - intros Hc. destruct (generate_in_range clk size seed Hc) as (rfs & Hf & _).
    exists rfs. exact Hf.
Qed.

Lemma sensor_status_by_severity_witness :
  Forall (fun rf => In (Sensor.status (sensor_measurement (fst rf))) sensor_statuses)
    (default_records clock_a).
Proof.
  pose proof (proj2 (proj1 (sensor_status_by_severity (R := MT19937.python)
                              clock_a 5 RNG_SEED) _
                       (default_flagged clock_a (clock_a_in_range 5 ltac:(lia))))) as H.
  eapply Forall_impl; [|exact H]. intros rf Hrf. exact (proj1 Hrf).
Defined.

(** X13.  In every record of a dataset that [generate_dataset] returns the
    payload has exactly the keys of its category, in order, with ints for
    the counts and floats for the measurements.  A run returns whenever its
    clock is in range for its size. *)
Theorem payload_shape_by_category {R : PyRandom} (clk : nat -> datetime)
    (size seed : Z) :
  (forall rs,
      generate_dataset clk size seed = Ok rs ->
      Forall (fun r => shape_of (Sensor.payload (sensor_measurement r))
                       = payload_shape (category r)) rs)
  /\ (clock_in_range clk size -> exists rs, generate_dataset clk size seed = Ok rs).
Proof.
  split; [|apply generate_dataset_in_range].
  intros rs. apply generate_all_detailed.
  intros r fp Hr. exact (detailed_shape r fp Hr).
Qed.

Lemma payload_shape_by_category_witness :
  Forall (fun r => shape_of (Sensor.payload (sensor_measurement r))
                   = payload_shape (category r))
    (map fst (default_records clock_a)).
Proof.
  exact (proj1 (payload_shape_by_category (R := MT19937.python) clock_a 5 RNG_SEED) _
           (default_dataset clock_a (clock_a_in_range 5 ltac:(lia)))).
Defined.

(** ** The whole run *)

Lemma record_draws_range (r : IncidentRecord) (fp : bool) :
  (10 <= record_draws r fp <= 14)%nat.
Proof.
  unfold record_draws, status_draws, payload_draws.
  destruct fp; repeat match goal with |- context [if ?b then _ else _] =>
    destruct b end; lia.
Qed.

Lemma mapM_totals {R : PyRandom} (clk : nat -> datetime) (n : nat) :
  forall (s : nat) (w w' : World) (rs : list IncidentRecord),
    mapM (_build_record clk) (map Z.of_nat (seq s n)) w = Ok (rs, w') ->
    List.length rs = n
    /\ ticks w' = (ticks w + n)%nat
    /\ (draws w + 10 * n <= draws w' <= draws w + 14 * n)%nat.
Proof.
  induction n as [|n IH]; intros s w w' rs; cbn [seq map mapM].
  - unfold ret. intros [= <- <-]. cbn [List.length]. lia.
  - destruct (_build_record clk (Z.of_nat s) w) as [[r w1]|e] eqn:E;
      [|rewrite (bind_Raise _ _ _ _ E); discriminate].
    rewrite (bind_Ok _ _ _ _ _ E).
    destruct (mapM (_build_record clk) (map Z.of_nat (seq (S s) n)) w1)
      as [[l w2]|e] eqn:M; [|rewrite (bind_Raise _ _ _ _ M); discriminate].
    rewrite (bind_Ok _ _ _ _ _ M). unfold ret. intros [= <- <-].
    destruct (build_record_Ok _ _ _ _ _ E) as [fp Ef].
    pose proof (build_record_flagged_Ok _ _ _ _ _ Ef) as Hb.
    destruct (IH _ _ _ _ M) as (Hlen & Ht & Hd).
    pose proof (built_draws _ _ _ _ _ Hb) as Hd1.
    pose proof (built_ticks _ _ _ _ _ Hb) as Ht1.
    pose proof (record_draws_range r fp) as Hr. cbn [fst snd] in *.
    cbn [List.length]. lia.
Qed.

Lemma mapM_in_range {R : PyRandom} (clk : nat -> datetime) (size seed : Z) :
  clock_in_range clk size ->
  exists rs w', mapM (_build_record clk) (range size) (fresh seed) = Ok (rs, w').
Proof.
  intros Hc.
  destruct (outcome_safe _ _ _ _
              (outcome_mapM_flagged clk (Z.to_nat size) 0 (fresh seed) eq_refl))
    as (rfs & w' & E & _).
  - intros i Hi. apply Hc. lia.
  - exists (map fst rfs), w'. unfold range. rewrite mapM_build_record, E. reflexivity.
Qed.

(** X14.  A run for a size [n] (none for a negative size) that returns has
    built [n] records, read the clock exactly [n] times, once per record,
    and made between [10 n] and [14 n] calls to the generator; so a size of
    zero or less touches neither the clock nor the generator.  A run returns
    whenever its clock is in range for its size. *)
Theorem run_totals {R : PyRandom} (clk : nat -> datetime) (size seed : Z) :
  (forall rs w',
      mapM (_build_record clk) (range size) (fresh seed) = Ok (rs, w') ->
      generate_dataset clk size seed = Ok rs
      /\ List.length rs = Z.to_nat size
      /\ ticks w' = Z.to_nat size
      /\ (10 * Z.to_nat size <= draws w' <= 14 * Z.to_nat size)%nat)
  /\ (clock_in_range clk size ->
      exists rs w', mapM (_build_record clk) (range size) (fresh seed) = Ok (rs, w')).
Proof.
  split; [|apply mapM_in_range].
  intros rs w' E. split.
  { unfold generate_dataset. rewrite E. reflexivity. }
  unfold range in E.
  destruct (mapM_totals clk _ _ _ _ _ E) as (Hlen & Ht & Hd).
  cbn [fresh ticks draws] in *. repeat split; lia.
Qed.

Lemma run_totals_witness :
  exists rs w',
    mapM (_build_record (R := MT19937.python) clock_a) (range 5) (fresh RNG_SEED)
    = Ok (rs, w')
    /\ ticks w' = Z.to_nat 5.
Proof.
  destruct (run_totals (R := MT19937.python) clock_a 5 RNG_SEED) as [Htot Hret].
  destruct (Hret (clock_a_in_range 5 ltac:(lia))) as (rs & w' & E).
  exists rs, w'. split; [exact E|].
  exact (proj1 (proj2 (proj2 (Htot rs w' E)))).
Defined.

(** ** Serialisation *)

Lemma json_of_number_injective (v1 v2 : number) :
  json_of_number v1 = json_of_number v2 -> v1 = v2.
Proof. destruct v1, v2; cbn; intros E; inversion E; reflexivity. Qed.

Lemma payload_json_injective (p1 : dict number) :
  forall p2,
    map (fun kv => (fst kv, json_of_number (snd kv))) p1
    = map (fun kv => (fst kv, json_of_number (snd kv))) p2 ->
    p1 = p2.
Proof.
  induction p1 as [|[k1 v1] p1 IH]; intros [|[k2 v2] p2] E; cbn [map fst snd] in E;
    try discriminate E; [reflexivity|].
  injection E as Ek Ev Erest.
  apply json_of_number_injective in Ev. subst. f_equal. apply IH. exact Erest.
Qed.

Lemma json_of_option_injective {A : Type} (f : A -> json) (o1 o2 : option A) :
  (forall a, f a <> JNull) -> (forall a b, f a = f b -> a = b) ->
  json_of_option f o1 = json_of_option f o2 -> o1 = o2.
Proof.
  intros Hnull Hinj. destruct o1 as [a|], o2 as [b|]; cbn; intros E.
  - f_equal. apply Hinj. exact E.
  - exfalso. exact (Hnull a E).
  - exfalso. exact (Hnull b (eq_sym E)).
  - reflexivity.
Qed.

(** X15.  [to_dict] loses nothing: two records with the same dictionary are
    the same record, an absent optional field ([None], serialised as null)
    included; hence two datasets that [write_dataset] serialises to the same
    list are the same dataset. *)
Theorem to_dict_injective (records1 records2 : list IncidentRecord) :
  (forall r1 r2, to_dict r1 = to_dict r2 -> r1 = r2)
  /\ (serialised records1 = serialised records2 -> records1 = records2).
Proof.
  assert (Hone : forall r1 r2, to_dict r1 = to_dict r2 -> r1 = r2).
  { intros [i1 t1 c1 s1 st1 d1 a1 rs1 l1 de1 im1 rc1 [sid1 ty1 sst1 cap1 pl1]]
           [i2 t2 c2 s2 st2 d2 a2 rs2 l2 de2 im2 rc2 [sid2 ty2 sst2 cap2 pl2]] E.
    unfold to_dict, json_of_measurement in E.
    cbn [id title category severity status detected_at acknowledged_at resolved_at
         location description impact root_cause sensor_measurement
         Sensor.sensor_id Sensor.type Sensor.status Sensor.captured_at
         Sensor.payload] in E.
    injection E as Ei Et Ec Es Est Ed Ea Ers El Ede Eim Erc Esid Ety Esst Ecap Epl.
    apply json_of_option_injective in Ea;
      [|discriminate | intros ? ? [= ->]; reflexivity].
    apply json_of_option_injective in Ers;
      [|discriminate | intros ? ? [= ->]; reflexivity].
    apply json_of_option_injective in Erc;
      [|discriminate | intros ? ? [= ->]; reflexivity].
    apply payload_json_injective in Epl.
    subst. reflexivity. }
  split; [exact Hone|].
  unfold serialised. revert records2.
  induction records1 as [|r1 l1 IH]; intros [|r2 l2] E; cbn [map] in E;
    try discriminate E; [reflexivity|].
  pose proof (f_equal (hd []) E) as Er. pose proof (f_equal (@tl _) E) as El.
  cbn [hd tl] in Er, El.
  f_equal; [apply Hone; exact Er | apply IH; exact El].
Qed.

(** ** Credentials *)

(** X16.  [verify_credentials] accepts exactly when the username equals
    the configured one, [None] being equal to [None], and
    [check_password_hash] accepts the password against the configured hash.
    With [APP_USERNAME] unset it therefore rejects every string as username,
    whatever the password, but not a missing username: for [None] the
    password alone decides, and the configured password is accepted. *)
Theorem verify_credentials_accepts {H : Security.PasswordHasher} (c : Security.Config)
    (s : Security.salt) (app_password : string) :
  (forall username password,
      Security.verify_credentials c username password = true
      <-> username = Security._DEFAULT_USERNAME c
          /\ Security.check_password_hash (Security._DEFAULT_PASSWORD_HASH c) password
             = true)
  /\ (forall u password,
        Security.verify_credentials (Security.loaded_without_username s app_password)
          (Some u) password = false)
  /\ (forall password,
        Security.verify_credentials (Security.loaded_without_username s app_password)
          None password
        = Security.check_password_hash
            (Security.generate_password_hash s app_password) password)
  /\ Security.verify_credentials (Security.loaded_without_username s app_password)
       None app_password = true.
Proof.
  split; [|split; [|split]].
  - intros username password.
    unfold Security.verify_credentials, Security.differs.
    destruct username as [u|], (Security._DEFAULT_USERNAME c) as [v|].
    + destruct (String.eqb_spec u v) as [->|Hne]; cbn [negb].
      * split; [intros E; split; [reflexivity | exact E] | intros [_ E]; exact E].
      * split; [discriminate | intros [[= E] _]; congruence].
    + split; [discriminate | intros [E _]; discriminate E].
    + split; [discriminate | intros [E _]; discriminate E].
    + split; [intros E; split; [reflexivity | exact E] | intros [_ E]; exact E].
  - reflexivity.
  - reflexivity.
  - apply Security.check_generated.
Qed.

(** X17.  Once the module is loaded with [APP_USERNAME] and [APP_PASSWORD]
    set, the configured pair verifies, whatever salt the hash was made
    with, and no other username, nor a missing one, verifies with any
    password. *)
Theorem configured_credentials_verify {H : Security.PasswordHasher} (s : Security.salt)
    (app_username app_password : string) :
  Security.verify_credentials (Security.loaded s app_username app_password)
    (Some app_username) app_password = true
  /\ (forall username password,
        username <> Some app_username ->
        Security.verify_credentials (Security.loaded s app_username app_password)
          username password = false).
Proof.
  unfold Security.verify_credentials, Security.loaded, Security.differs.
  cbn [Security._DEFAULT_USERNAME Security._DEFAULT_PASSWORD_HASH].
  split.
  - rewrite String.eqb_refl. cbn [negb]. apply Security.check_generated.
  - intros [u|] password Hne; [|reflexivity].
    assert (Hu : u <> app_username) by congruence.
    apply String.eqb_neq in Hu. rewrite Hu. reflexivity.
Qed.

(** ** The index *)

Lemma build_record_flagged_reindex {R : PyRandom} (clk : nat -> datetime)
    (index k : Z) (w w1 w2 : World) (rf1 rf2 : IncidentRecord * bool) :
  _build_record_flagged clk index w = Ok (rf1, w1) ->
  _build_record_flagged clk (index + k) w = Ok (rf2, w2) ->
  rf2 = (reindex k (fst rf1), snd rf1) /\ w2 = w1.
Proof.
  unfold _build_record_flagged.
  destruct (choice CATEGORIES w) as [[c wa]|e] eqn:E1;
    [|rewrite !(bind_Raise _ _ _ _ E1); discriminate].
  rewrite !(bind_Ok _ _ _ _ _ E1).
  destruct (_pick_severity c wa) as [[sev wb]|e] eqn:E2;
    [|rewrite !(bind_Raise _ _ _ _ E2); discriminate].
  rewrite !(bind_Ok _ _ _ _ _ E2).
  destruct (_pick_status sev wb) as [[st wc]|e] eqn:E3;
    [|rewrite !(bind_Raise _ _ _ _ E3); discriminate].
  rewrite !(bind_Ok _ _ _ _ _ E3).
  unfold _detected_at.
  destruct (randint 0 (90 * 24 * 60) wc) as [[m wd]|e] eqn:E4.
  2:{ unfold bind. cbv zeta. rewrite E4. discriminate. }
  set (delta := - timedelta_minutes (k * 3)).
  unfold isoformat, bind, now, ret, lift. cbv zeta. rewrite E4.
  destruct (timedelta (m + index * 3)) as [td1|e] eqn:T1; [|discriminate].
  destruct (timedelta (m + (index + k) * 3)) as [td2|e] eqn:T2;
    [|destruct (datetime_sub (clk (ticks wd)) td1); intros _ H; discriminate H].
  apply timedelta_value in T1, T2.
  destruct (datetime_sub (clk (ticks wd)) td1) as [d1|e] eqn:D1; [|discriminate].
  destruct (datetime_sub (clk (ticks wd)) td2) as [d2|e] eqn:D2;
    [|intros _ H; discriminate H].
  apply datetime_sub_value in D1 as [D1 _]. apply datetime_sub_value in D2 as [D2 _].
  assert (Hd : d2 = d1 + delta) by (unfold delta, timedelta_minutes in *; lia).
  clear D1 D2 T1 T2. subst d2.
  replace (1000 + (index + k)) with (1000 + index + k) by lia.
  destruct (rng_random _) as [[u w5]|e]; [|discriminate].
  destruct (dict_get sev FALSE_POSITIVE_PROBABILITY w5) as [[p w5']|e]; [|discriminate].
  destruct (_acknowledged_and_resolved st sev d1 w5') as [[[ack res] w6]|e] eqn:A1;
    [|discriminate].
  destruct (_acknowledged_and_resolved st sev (d1 + delta) w5') as [[ar2 w6']|e] eqn:A2;
    [|intros _ H; discriminate H].
  destruct (acknowledged_and_resolved_retime _ _ _ _ _ _ _ _ _ A1 A2) as [-> ->].
  cbn [retime_pair fst snd].
  destruct (_choose_title c w6) as [[ti w6']|e]; [|discriminate].
  destruct (_choose_location c w6') as [[loc w7]|e]; [|discriminate].
  destruct (_choose_description c w7) as [[de w7']|e]; [|discriminate].
  destruct (_choose_impact c sev w7') as [[im w7'']|e]; [|discriminate].
  destruct (_root_cause sev (Qltb u p) w7'') as [[rc w8]|e]; [|discriminate].
  destruct (_sensor_measurement c sev d1 (Qltb u p) w8) as [[sm1 w9]|e] eqn:S1;
    [|discriminate].
  destruct (_sensor_measurement c sev (d1 + delta) (Qltb u p) w8) as [[sm2 w9']|e] eqn:S2;
    [|intros _ H; discriminate H].
  destruct (sensor_measurement_retime _ _ _ _ _ _ _ _ _ _ S1 S2) as [-> ->].
  intros [= <- <-] [= <- <-]. split; reflexivity.
Qed.

(** X18.  The index enters a record only through its id and through the
    three minutes per index by which the detection is moved back: from the
    same state of generator and clock, where [_build_record(index, rng)]
    and [_build_record(index + k, rng)] both return, the second record is
    the first with the id [k] higher and its four timestamps [3 k] minutes
    earlier, every other field and the state left behind being equal.  Both
    calls return whenever the clock reading is in range for both indices. *)
Theorem build_record_index {R : PyRandom} (clk : nat -> datetime) (index k : Z)
    (w : World) :
  (forall r1 w1 r2 w2,
      _build_record clk index w = Ok (r1, w1) ->
      _build_record clk (index + k) w = Ok (r2, w2) ->
      r2 = reindex k r1 /\ w2 = w1)
  /\ (reading_in_range index (clk (ticks w)) ->
      reading_in_range (index + k) (clk (ticks w)) ->
      exists r1 w1,
        _build_record clk index w = Ok (r1, w1)
        /\ _build_record clk (index + k) w = Ok (reindex k r1, w1)).
Proof.
  assert (Hrel : forall r1 w1 r2 w2,
             _build_record clk index w = Ok (r1, w1) ->
             _build_record clk (index + k) w = Ok (r2, w2) ->
             r2 = reindex k r1 /\ w2 = w1).
  { intros r1 w1 r2 w2 H1 H2.
    destruct (build_record_Ok _ _ _ _ _ H1) as [fp1 F1].
    destruct (build_record_Ok _ _ _ _ _ H2) as [fp2 F2].
    destruct (build_record_flagged_reindex _ _ _ _ _ _ _ _ F1 F2) as [E ->].
    injection E as -> _. split; reflexivity. }
  split; [exact Hrel|].
  intros Hs1 Hs2.
  destruct (build_record_in_range clk index w Hs1) as (r1 & fp1 & w1 & _ & E1).
  destruct (build_record_in_range clk (index + k) w Hs2) as (r2 & fp2 & w2 & _ & E2).
  destruct (Hrel r1 w1 r2 w2 E1 E2) as [-> ->].
  exists r1, w1. split; assumption.
Qed.

Lemma build_record_index_witness :
  exists r1 w1,
    _build_record (R := MT19937.python) clock_a 0 (fresh RNG_SEED) = Ok (r1, w1)
    /\ _build_record (R := MT19937.python) clock_a (0 + 7) (fresh RNG_SEED)
       = Ok (reindex 7 r1, w1).
Proof.
  apply (proj2 (build_record_index (R := MT19937.python) clock_a 0 7 (fresh RNG_SEED))).
  - unfold reading_in_range, clock_a, clock_from, noon, timedelta_minutes,
      datetime_min, datetime_max. cbn [fresh ticks Z.of_nat]. lia.
  - unfold reading_in_range, clock_a, clock_from, noon, timedelta_minutes,
      datetime_min, datetime_max. cbn [fresh ticks Z.of_nat]. lia.
Defined.
